(** * The C2PA JNI bridge ([c2pa_jni.c]) as a shallow embedding

    The bridge is a single C file that sits between a Java host runtime and
    the native C2PA library.  Both neighbours are external: the host runtime
    (JNI) and the C2PA library are represented by a record of oracles, the
    [world], that fixes what each of their functions answers.  The C code of
    the bridge itself is translated function by function into a state
    monad over the part of the process state the bridge reads and writes:
    the cached runtime handle, the attachment state of the executing thread,
    the thread's pending exception, the signer registry and the heap cells
    of the signer contexts.  Every call that leaves the bridge is logged in a
    trace, in program order.

    Modelling decisions:
    - Integers follow the LP64 ABI of the 64-bit Android targets:
      [intptr_t], [uintptr_t], [int64_t] and [jlong] are 64 bits wide,
      [jsize], [jint] and [int] are 32 bits wide; a narrowing conversion is
      written [wrap32].
    - A pointer or handle is a [Z], [0] is [NULL]; a [jstring], a
      [jbyteArray] or a C string is an [option], [None] is null.
    - A run is sequential: the two mutexes are not modelled, and a callback
      that arrives "after" a free is a later run on the resulting state.
    - Reading through a freed context or past the end of a native buffer
      is undefined behaviour: the run has no result ([None]).
    - Local references and [ReleaseByteArrayElements] leave no trace; the
      classes of the platform ([java/lang/...]) always resolve.

    The file has two parts: the embedding (primitives, helpers, callbacks,
    entry points, registry), followed by the vocabulary of the properties,
    and then the properties themselves, one section per subject. *)

From Stdlib Require Import ZArith String List Lia Bool.
From stdpp Require Import base option list gmap strings.

Local Open Scope Z_scope.

(** ** Machine integers *)

Definition INT32_MAX : Z := 2147483647.

(** Conversion of an integer to a signed 32-bit type ([(jsize)len]). *)
Definition wrap32 (z : Z) : Z := (z + 2 ^ 31) mod 2 ^ 32 - 2 ^ 31.

Definition byte : Type := Byte.byte.

(** ** Host runtime and native library: values, calls and events *)

(** A Java throwable: its class and its message. *)
Record throwable : Type := Throwable { t_class : string; t_message : string }.

Global Instance throwable_eq_dec : EqDecision throwable.
Proof. solve_decision. Defined.

Definition IllegalArgumentException : string := "java/lang/IllegalArgumentException".
Definition IllegalStateException : string := "java/lang/IllegalStateException".
Definition RuntimeException : string := "java/lang/RuntimeException".
Definition OutOfMemoryError : string := "java/lang/OutOfMemoryError".
Definition NoClassDefFoundError : string := "java/lang/NoClassDefFoundError".
Definition NoSuchMethodError : string := "java/lang/NoSuchMethodError".
Definition ArrayIndexOutOfBoundsException : string :=
  "java/lang/ArrayIndexOutOfBoundsException".

(** The functions of [c2pa.h] that the bridge calls. *)
Inductive native_fn : Type :=
| c2pa_error | c2pa_string_free | c2pa_release_stream
| c2pa_reader_from_stream | c2pa_reader_from_manifest_data_and_stream
| c2pa_reader_free | c2pa_reader_json | c2pa_reader_detailed_json
| c2pa_reader_remote_url | c2pa_reader_is_embedded
| c2pa_reader_resource_to_stream
| c2pa_builder_from_archive | c2pa_builder_free | c2pa_builder_set_intent
| c2pa_builder_add_action | c2pa_builder_set_no_embed
| c2pa_builder_set_remote_url | c2pa_builder_add_resource
| c2pa_builder_add_ingredient_from_stream | c2pa_builder_to_archive
| c2pa_builder_sign | c2pa_manifest_bytes_free
| c2pa_builder_data_hashed_placeholder
| c2pa_builder_sign_data_hashed_embeddable
| c2pa_signer_create | c2pa_signer_reserve_size | c2pa_signer_free
| c2pa_ed25519_sign | c2pa_signature_free
| c2pa_version | c2pa_load_settings | c2pa_read_file | c2pa_read_ingredient_file
| c2pa_sign_file | c2pa_create_stream | c2pa_builder_from_json
| c2pa_signer_from_info.

Global Instance native_fn_eq_dec : EqDecision native_fn.
Proof. solve_decision. Defined.

(** [enum C2paSigningAlg] of [c2pa.h]. *)
Inductive C2paSigningAlg : Type :=
| Es256 | Es384 | Es512 | Ps256 | Ps384 | Ps512 | Ed25519.

Global Instance C2paSigningAlg_eq_dec : EqDecision C2paSigningAlg.
Proof. solve_decision. Defined.

(** An argument of a call that crosses one of the two boundaries: an
    integer or pointer, a C string (possibly [NULL]), a span of bytes or a
    signing algorithm. *)
Inductive arg : Type :=
| AInt (z : Z)
| AStr (s : option string)
| ABytes (b : list byte)
| AAlg (a : C2paSigningAlg).

(** The host methods the bridge calls back into. *)
Inductive host_method : Type :=
| StreamRead | StreamSeek | StreamWrite | StreamFlush | SignerSign.

(** What one call of a host method did: whether it threw, the [long] it
    returned, the stores it made into the byte array it was handed (index,
    value), and the byte array it returned ([None] is Java's [null]). *)
Record host_outcome : Type := HostOutcome {
  h_thrown : option throwable;
  h_long : Z;
  h_stores : list (nat * byte);
  h_array : option (list byte)
}.

(** What a global reference refers to: a host object, given by the
    reference the entry point received, or the class found under a name. *)
Inductive referent : Type :=
| RObject (obj : Z)
| RClass (name : string).

Inductive event : Type :=
| ENative (f : native_fn) (args : list arg)
| EHost (m : host_method) (obj : Z) (args : list arg)
| EDescribe (t : throwable)
| EReleaseUTF (s : string)
| ENewGlobalRef (target : referent) (r : Z)
| EDeleteGlobalRef (r : Z)
| EStoreActive (ctx : Z) (b : bool)
| EFree (a : Z)
| EFreeNode (signer : Z)
| EAttach
| EDetach.

Definition is_native (e : event) : bool :=
  match e with ENative _ _ => true | _ => false end.

Definition is_host (e : event) : bool :=
  match e with EHost _ _ _ => true | _ => false end.

(** The calls into the C2PA library found in a trace, in order. *)
Definition native_calls (t : list event) : list event := List.filter is_native t.

(** The calls into host methods found in a trace, in order. *)
Definition host_calls (t : list event) : list event := List.filter is_host t.

(** The oracles.  The first group is the host runtime (which JNI
    allocations and lookups succeed, whether a foreign thread can be
    attached, what host methods do), the second the C allocator, the third
    the C2PA library (the value each call returns, by return kind). *)
Record world : Type := World {
  utf_ok : string -> bool;
  new_string_ok : string -> bool;
  new_bytes_ok : Z -> bool;
  elements_ok : bool;
  find_class_ok : string -> bool;
  method_ok : string -> string -> bool;
  new_object_ok : bool;
  global_ref_ok : bool;
  attach_ok : bool;
  version_ok : bool;
  host : host_method -> Z -> list arg -> host_outcome;
  calloc_ok : bool;
  malloc_ok : bool;
  ret_int : native_fn -> list arg -> Z;
  ret_str : native_fn -> list arg -> option string;
  ret_buf : native_fn -> list arg -> option (list byte)
}.

(** ** Bridge state *)

(** [JavaSignerContext]; [callback] is a global reference, [0] is [NULL]. *)
Record JavaSignerContext : Type := MkSignerContext {
  callback : Z;
  signMethod : bool;
  isActive : bool
}.

(** [SignerContextNode]; the [next] pointers are the order of the list. *)
Record SignerContextNode : Type := MkNode {
  context : Z;
  signer : Z
}.

(** [JavaStreamContext]; [streamObject] is a global reference. *)
Record JavaStreamContext : Type := MkStreamContext { streamObject : Z }.

(** The state of the bridge.  [heap] holds the allocated signer contexts by
    address.  Of [struct C2paStream], which [c2pa.h] declares, the bridge
    reads one field: [streams] maps the address of an allocated native
    stream to its [context] pointer, and [stream_heap] holds the allocated
    stream contexts by address. *)

Record state : Type := MkState {
  g_jvm : bool;
  attached : bool;
  tls_marker : bool;
  pending : option throwable;
  g_signResultClass : bool;
  g_streamClass : bool;
  g_signerContexts : list SignerContextNode;
  heap : gmap Z JavaSignerContext;
  streams : gmap Z Z;
  stream_heap : gmap Z JavaStreamContext;
  next_addr : positive;
  trace : list event
}.

Definition set_g_jvm (b : bool) (s : state) : state :=
  MkState b (attached s) (tls_marker s) (pending s) (g_signResultClass s)
    (g_streamClass s) (g_signerContexts s) (heap s) (streams s) (stream_heap s)
    (next_addr s) (trace s).
Definition set_attached (b : bool) (s : state) : state :=
  MkState (g_jvm s) b (tls_marker s) (pending s) (g_signResultClass s)
    (g_streamClass s) (g_signerContexts s) (heap s) (streams s) (stream_heap s)
    (next_addr s) (trace s).
Definition set_tls_marker (b : bool) (s : state) : state :=
  MkState (g_jvm s) (attached s) b (pending s) (g_signResultClass s)
    (g_streamClass s) (g_signerContexts s) (heap s) (streams s) (stream_heap s)
    (next_addr s) (trace s).
Definition set_pending (p : option throwable) (s : state) : state :=
  MkState (g_jvm s) (attached s) (tls_marker s) p (g_signResultClass s)
    (g_streamClass s) (g_signerContexts s) (heap s) (streams s) (stream_heap s)
    (next_addr s) (trace s).
Definition set_classes (sr sc : bool) (s : state) : state :=
  MkState (g_jvm s) (attached s) (tls_marker s) (pending s) sr sc
    (g_signerContexts s) (heap s) (streams s) (stream_heap s)
    (next_addr s) (trace s).
Definition set_g_signerContexts (l : list SignerContextNode) (s : state) : state :=
  MkState (g_jvm s) (attached s) (tls_marker s) (pending s) (g_signResultClass s)
    (g_streamClass s) l (heap s) (streams s) (stream_heap s)
    (next_addr s) (trace s).
Definition set_heap (h : gmap Z JavaSignerContext) (s : state) : state :=
  MkState (g_jvm s) (attached s) (tls_marker s) (pending s) (g_signResultClass s)
    (g_streamClass s) (g_signerContexts s) h (streams s) (stream_heap s)
    (next_addr s) (trace s).
Definition set_streams (m : gmap Z Z) (s : state) : state :=
  MkState (g_jvm s) (attached s) (tls_marker s) (pending s) (g_signResultClass s)
    (g_streamClass s) (g_signerContexts s) (heap s) m (stream_heap s)
    (next_addr s) (trace s).
Definition set_stream_heap (h : gmap Z JavaStreamContext) (s : state) : state :=
  MkState (g_jvm s) (attached s) (tls_marker s) (pending s) (g_signResultClass s)
    (g_streamClass s) (g_signerContexts s) (heap s) (streams s) h
    (next_addr s) (trace s).
Definition set_next_addr (n : positive) (s : state) : state :=
  MkState (g_jvm s) (attached s) (tls_marker s) (pending s) (g_signResultClass s)
    (g_streamClass s) (g_signerContexts s) (heap s) (streams s) (stream_heap s)
    n (trace s).
Definition set_trace (t : list event) (s : state) : state :=
  MkState (g_jvm s) (attached s) (tls_marker s) (pending s) (g_signResultClass s)
    (g_streamClass s) (g_signerContexts s) (heap s) (streams s) (stream_heap s)
    (next_addr s) t.

(** The values of the two class references [g_streamClass] and
    [g_signResultClass] ([0] is [NULL]).  The state holds of each whether it
    is set; the values are written by the load hook and read by the unload
    hook only, so the two hooks take them and hand them back. *)
Record class_refs : Type := MkClassRefs {
  streamClassRef : Z;
  signResultClassRef : Z
}.

(** The flags of the state and the values of the references tell the same
    story. *)
Definition classes_agree (s : state) (refs : class_refs) : Prop :=
  g_streamClass s = negb (streamClassRef refs =? 0)
  /\ g_signResultClass s = negb (signResultClassRef refs =? 0).

(** ** The monad: state passing, with [None] for undefined behaviour
    (a read through a dangling pointer or past the end of a buffer). *)

Definition M (A : Type) : Type := state -> option (A * state).

Definition ret {A : Type} (a : A) : M A := fun s => Some (a, s).

Definition bind {A B : Type} (m : M A) (k : A -> M B) : M B :=
  fun s => match m s with
           | Some (a, s') => k a s'
           | None => None
           end.

Definition undefined {A : Type} : M A := fun _ => None.

Definition get : M state := fun s => Some (s, s).

Definition modify (f : state -> state) : M unit := fun s => Some (tt, f s).

Notation "x <- m ;; k" := (bind m (fun x => k))
  (at level 100, m at next level, right associativity).
Notation "m ;; k" := (bind m (fun _ => k))
  (at level 100, right associativity).

Definition log (e : event) : M unit :=
  modify (fun s => set_trace (trace s ++ [e]) s).

Section Bridge.

Variable W : world.

(** ** JNI primitives, as far as the bridge uses them *)

(** [ThrowNew(env, FindClass(env, cls), msg)] for a class of the platform. *)
Definition ThrowNew (cls msg : string) : M unit :=
  modify (set_pending (Some (Throwable cls msg))).

Definition GetStringUTFChars (s : string) : M (option string) :=
  if utf_ok W s then ret (Some s)
  else (ThrowNew OutOfMemoryError "" ;; ret None).

Definition NewStringUTF (s : string) : M (option string) :=
  if new_string_ok W s then ret (Some s)
  else (ThrowNew OutOfMemoryError "" ;; ret None).

Definition NewByteArray (size : Z) : M (option (list byte)) :=
  if (0 <=? size) && new_bytes_ok W size then ret (Some (replicate (Z.to_nat size) Byte.x00))
  else (ThrowNew OutOfMemoryError "" ;; ret None).

Definition out_of_bounds (arr : list byte) (start len : Z) : bool :=
  (start <? 0) || (len <? 0) || (Z.of_nat (length arr) <? start + len).

(** Copies [len] bytes of the native buffer [buf] into the array. *)
Definition SetByteArrayRegion (arr : list byte) (start len : Z) (buf : list byte)
  : M (list byte) :=
  if out_of_bounds arr start len
  then (ThrowNew ArrayIndexOutOfBoundsException "" ;; ret arr)
  else if Z.of_nat (length buf) <? len then undefined
  else ret (take (Z.to_nat start) arr ++ take (Z.to_nat len) buf
            ++ drop (Z.to_nat (start + len)) arr).

(** Copies [len] bytes of the array into the native buffer [buf]. *)
Definition GetByteArrayRegion (arr : list byte) (start len : Z) (buf : list byte)
  : M (list byte) :=
  if out_of_bounds arr start len
  then (ThrowNew ArrayIndexOutOfBoundsException "" ;; ret buf)
  else if Z.of_nat (length buf) <? len then undefined
  else ret (take (Z.to_nat len) (drop (Z.to_nat start) arr)
            ++ drop (Z.to_nat len) buf).

(** The stores a host method made into the array it was handed; a Java
    array never changes its length. *)
Definition apply_stores (stores : list (nat * byte)) (arr : list byte) : list byte :=
  foldl (fun a p => <[fst p := snd p]> a) arr stores.

(** [Call<Type>Method]: runs the host method; what it throws is pending
    when the call returns. *)
Definition call_host (m : host_method) (obj : Z) (args : list arg) : M host_outcome :=
  log (EHost m obj args) ;;
  let out := host W m obj args in
  match h_thrown out with
  | Some t => modify (set_pending (Some t))
  | None => ret tt
  end ;;
  ret out.

Definition call_native (f : native_fn) (args : list arg) : M unit :=
  log (ENative f args).

(** ** Helpers of the bridge *)

Definition check_exception : M bool :=
  s <- get ;;
  match pending s with
  | Some t =>
      log (EDescribe t) ;;
      modify (set_pending None) ;;
      ret true
  | None => ret false
  end.

Definition jstring_to_cstring (jstr : option string) : M (option string) :=
  match jstr with
  | None => ret None
  | Some s =>
      cstr <- GetStringUTFChars s ;;
      match cstr with
      | None => check_exception ;; ret None
      | Some _ => ret cstr
      end
  end.

Definition release_cstring (jstr cstr : option string) : M unit :=
  match jstr, cstr with
  | Some _, Some c => log (EReleaseUTF c)
  | _, _ => ret tt
  end.

Definition cstring_to_jstring (cstr : option string) : M (option string) :=
  match cstr with
  | None => ret None
  | Some c =>
      jstr <- NewStringUTF c ;;
      match jstr with
      | None => check_exception ;; ret None
      | Some _ => ret jstr
      end
  end.

(** ** Runtime attachment *)

Inductive jni_status : Type := JNI_OK | JNI_EDETACHED | JNI_EVERSION.

Definition GetEnv : M jni_status :=
  s <- get ;;
  ret (if attached s
       then (if version_ok W then JNI_OK else JNI_EVERSION)
       else JNI_EDETACHED).

Definition AttachCurrentThread : M bool :=
  if attach_ok W
  then (modify (set_attached true) ;; log EAttach ;; ret true)
  else ret false.

Definition DetachCurrentThread : M unit :=
  modify (set_attached false) ;; log EDetach.

(** [value] is [true] for a non-[NULL] thread-local value. *)
Definition thread_detach_destructor (value : bool) : M unit :=
  if value then
    s <- get ;;
    if g_jvm s then DetachCurrentThread else ret tt
  else ret tt.

(** Returns [true] when it returns a non-[NULL] [JNIEnv*]. *)
Definition get_jni_env : M bool :=
  s <- get ;;
  if negb (g_jvm s) then ret false
  else
    status <- GetEnv ;;
    match status with
    | JNI_EDETACHED =>
        ok <- AttachCurrentThread ;;
        if negb ok then ret false
        else (modify (set_tls_marker true) ;; ret true)
    | JNI_OK => ret true
    | JNI_EVERSION => ret false
    end.

(** ** Error bridge and array allocation *)

Definition throw_c2pa_exception (defaultMessage : string) : M unit :=
  call_native c2pa_error [] ;;
  match ret_str W c2pa_error [] with
  | Some error =>
      if 0 <? Z.of_nat (String.length error) then
        ThrowNew RuntimeException error ;;
        call_native c2pa_string_free [AStr (Some error)]
      else ThrowNew RuntimeException defaultMessage
  | None => ThrowNew RuntimeException defaultMessage
  end.

Definition safe_new_byte_array (size : Z) : M (option (list byte)) :=
  if size <? 0 then
    ThrowNew IllegalArgumentException "Array size cannot be negative" ;;
    ret None
  else
    array <- NewByteArray size ;;
    match array with
    | None => check_exception ;; ret None
    | Some _ => ret array
    end.

(** ** Stream callbacks

    A callback returns its [intptr_t] result and the contents of the native
    buffer it was given, as they are when it returns. *)

Definition java_read_callback (jctx : JavaStreamContext) (data : list byte) (len : Z)
  : M (Z * list byte) :=
  env <- get_jni_env ;;
  if negb env then ret (-1, data)
  else if INT32_MAX <? len then
    throw_c2pa_exception "Requested buffer too large for JNI" ;;
    ret (-1, data)
  else
    jdata <- safe_new_byte_array (wrap32 len) ;;
    match jdata with
    | None => ret (-1, data)
    | Some arr =>
        out <- call_host StreamRead (streamObject jctx) [ABytes arr; AInt len] ;;
        let arr' := apply_stores (h_stores out) arr in
        let result := h_long out in
        thrown <- check_exception ;;
        if thrown then ret (-1, data)
        else if (0 <? result) && (result <=? len) then
          data' <- GetByteArrayRegion arr' 0 (wrap32 result) data ;;
          thrown' <- check_exception ;;
          if thrown' then ret (-1, data')
          else ret (result, data')
        else ret (result, data)
    end.

Definition java_seek_callback (jctx : JavaStreamContext) (offset mode : Z) : M Z :=
  env <- get_jni_env ;;
  if negb env then ret (-1)
  else
    out <- call_host StreamSeek (streamObject jctx) [AInt offset; AInt mode] ;;
    thrown <- check_exception ;;
    if thrown then ret (-1) else ret (h_long out).

Definition java_write_callback (jctx : JavaStreamContext) (data : list byte) (len : Z)
  : M Z :=
  env <- get_jni_env ;;
  if negb env then ret (-1)
  else if INT32_MAX <? len then
    throw_c2pa_exception "Requested buffer too large for JNI" ;;
    ret (-1)
  else
    jdata <- safe_new_byte_array (wrap32 len) ;;
    match jdata with
    | None => ret (-1)
    | Some arr =>
        arr' <- SetByteArrayRegion arr 0 (wrap32 len) data ;;
        thrown <- check_exception ;;
        if thrown then ret (-1)
        else
          out <- call_host StreamWrite (streamObject jctx) [ABytes arr'; AInt len] ;;
          thrown' <- check_exception ;;
          if thrown' then ret (-1) else ret (h_long out)
    end.

Definition java_flush_callback (jctx : JavaStreamContext) : M Z :=
  env <- get_jni_env ;;
  if negb env then ret (-1)
  else
    out <- call_host StreamFlush (streamObject jctx) [] ;;
    thrown <- check_exception ;;
    if thrown then ret (-1) else ret (h_long out).

(** ** Signer callback

    [context] is the address the native library was given at creation; the
    callback reads the context through it. *)

Definition load_context (a : Z) : M JavaSignerContext :=
  s <- get ;;
  match heap s !! a with
  | Some c => ret c
  | None => undefined
  end.

Definition java_signer_callback (context : Z) (data : list byte) (len : Z)
    (signed_bytes : list byte) (signed_len : Z) : M (Z * list byte) :=
  jctx <- load_context context ;;
  if negb (isActive jctx) then ret (-1, signed_bytes)
  else
    env <- get_jni_env ;;
    if negb env then ret (-1, signed_bytes)
    else if INT32_MAX <? len then
      throw_c2pa_exception "Requested buffer too large for JNI" ;;
      ret (-1, signed_bytes)
    else
      jdata <- safe_new_byte_array (wrap32 len) ;;
      match jdata with
      | None => ret (-1, signed_bytes)
      | Some arr =>
          arr' <- SetByteArrayRegion arr 0 (wrap32 len) data ;;
          thrown <- check_exception ;;
          if thrown then ret (-1, signed_bytes)
          else
            out <- call_host SignerSign (callback jctx) [ABytes arr'] ;;
            thrown' <- check_exception ;;
            if thrown' then ret (-1, signed_bytes)
            else
              match h_array out with
              | None => ret (-1, signed_bytes)
              | Some jsignature =>
                  let sig_len := Z.of_nat (length jsignature) in
                  if signed_len <? sig_len then ret (-1, signed_bytes)
                  else
                    out_buf <- GetByteArrayRegion jsignature 0 sig_len signed_bytes ;;
                    thrown'' <- check_exception ;;
                    if thrown'' then ret (-1, out_buf)
                    else ret (sig_len, out_buf)
              end
      end.

(** ** Calls into the C2PA library *)

Definition native_int (f : native_fn) (args : list arg) : M Z :=
  call_native f args ;; ret (ret_int W f args).

Definition native_str (f : native_fn) (args : list arg) : M (option string) :=
  call_native f args ;; ret (ret_str W f args).

(** ** Stream release *)

Definition Java_org_contentauth_c2pa_Stream_releaseStreamNative (streamPtr : Z) : M unit :=
  if negb (streamPtr =? 0) then
    s <- get ;;
    match streams s !! streamPtr with
    | None => undefined
    | Some ctx =>
        (if negb (ctx =? 0) then
           match stream_heap s !! ctx with
           | None => undefined
           | Some c =>
               (if negb (streamObject c =? 0)
                then log (EDeleteGlobalRef (streamObject c)) else ret tt) ;;
               modify (fun s => set_stream_heap (delete ctx (stream_heap s)) s) ;;
               log (EFree ctx)
           end
         else ret tt) ;;
        call_native c2pa_release_stream [AInt streamPtr] ;;
        modify (fun s => set_streams (delete streamPtr (streams s)) s)
    end
  else ret tt.

(** ** Reader entry points *)

Definition Java_org_contentauth_c2pa_Reader_fromStreamNative
    (format : option string) (streamPtr : Z) : M Z :=
  if bool_decide (format = None) || (streamPtr =? 0) then
    ThrowNew IllegalArgumentException "Format and stream cannot be null" ;;
    ret 0
  else
    cformat <- jstring_to_cstring format ;;
    match cformat with
    | None => ret 0
    | Some _ =>
        reader <- native_int c2pa_reader_from_stream [AStr cformat; AInt streamPtr] ;;
        release_cstring format cformat ;;
        if reader =? 0 then
          throw_c2pa_exception "Failed to create reader from stream" ;;
          ret 0
        else ret reader
    end.

Definition GetByteArrayElements (a : list byte) : M (option (list byte)) :=
  if elements_ok W then ret (Some a)
  else (ThrowNew OutOfMemoryError "" ;; ret None).

Definition Java_org_contentauth_c2pa_Reader_fromManifestDataAndStreamNative
    (format : option string) (streamPtr : Z) (manifestData : option (list byte)) : M Z :=
  if bool_decide (format = None) || (streamPtr =? 0)
     || bool_decide (manifestData = None) then
    ThrowNew IllegalArgumentException
      "Format, stream, and manifest data cannot be null" ;;
    ret 0
  else
    cformat <- jstring_to_cstring format ;;
    match cformat with
    | None => ret 0
    | Some _ =>
        let bytes := default [] manifestData in
        let dataSize := Z.of_nat (length bytes) in
        thrown <- check_exception ;;
        if thrown then (release_cstring format cformat ;; ret 0)
        else if dataSize <=? 0 then
          release_cstring format cformat ;;
          ThrowNew IllegalArgumentException "Manifest data cannot be empty" ;;
          ret 0
        else
          data <- GetByteArrayElements bytes ;;
          match data with
          | None =>
              release_cstring format cformat ;;
              check_exception ;;
              ret 0
          | Some d =>
              reader <- native_int c2pa_reader_from_manifest_data_and_stream
                          [AStr cformat; AInt streamPtr; ABytes d; AInt dataSize] ;;
              release_cstring format cformat ;;
              ret reader
          end
    end.

Definition Java_org_contentauth_c2pa_Reader_free (readerPtr : Z) : M unit :=
  if negb (readerPtr =? 0) then call_native c2pa_reader_free [AInt readerPtr]
  else ret tt.

(** Shared shape of [toJsonNative] and [toDetailedJsonNative]. *)
Definition reader_json_with (f : native_fn) (defaultMessage : string) (readerPtr : Z)
  : M (option string) :=
  if readerPtr =? 0 then
    ThrowNew IllegalStateException "Reader is not initialized" ;;
    ret None
  else
    json <- native_str f [AInt readerPtr] ;;
    match json with
    | None => throw_c2pa_exception defaultMessage ;; ret None
    | Some _ =>
        result <- cstring_to_jstring json ;;
        call_native c2pa_string_free [AStr json] ;;
        ret result
    end.

Definition Java_org_contentauth_c2pa_Reader_toJsonNative : Z -> M (option string) :=
  reader_json_with c2pa_reader_json "Failed to generate JSON from reader".

Definition Java_org_contentauth_c2pa_Reader_toDetailedJsonNative : Z -> M (option string) :=
  reader_json_with c2pa_reader_detailed_json
    "Failed to generate detailed JSON from reader".

Definition Java_org_contentauth_c2pa_Reader_remoteUrlNative (readerPtr : Z)
  : M (option string) :=
  if readerPtr =? 0 then
    ThrowNew IllegalStateException "Reader is not initialized" ;;
    ret None
  else
    url <- native_str c2pa_reader_remote_url [AInt readerPtr] ;;
    match url with
    | None => ret None
    | Some _ =>
        result <- cstring_to_jstring url ;;
        call_native c2pa_string_free [AStr url] ;;
        ret result
    end.

Definition Java_org_contentauth_c2pa_Reader_isEmbeddedNative (readerPtr : Z) : M bool :=
  if readerPtr =? 0 then
    ThrowNew IllegalStateException "Reader is not initialized" ;;
    ret false
  else
    r <- native_int c2pa_reader_is_embedded [AInt readerPtr] ;;
    ret (negb (r =? 0)).

Definition Java_org_contentauth_c2pa_Reader_resourceToStreamNative
    (readerPtr : Z) (uri : option string) (streamPtr : Z) : M Z :=
  if (readerPtr =? 0) || bool_decide (uri = None) || (streamPtr =? 0) then
    ThrowNew IllegalArgumentException "Reader, URI, and stream cannot be null" ;;
    ret (-1)
  else
    curi <- jstring_to_cstring uri ;;
    match curi with
    | None => ret (-1)
    | Some _ =>
        result <- native_int c2pa_reader_resource_to_stream
                    [AInt readerPtr; AStr curi; AInt streamPtr] ;;
        release_cstring uri curi ;;
        ret result
    end.

(** ** Builder entry points *)

Definition Java_org_contentauth_c2pa_Builder_nativeFromArchive (streamPtr : Z) : M Z :=
  if streamPtr =? 0 then
    ThrowNew IllegalArgumentException "Stream cannot be null" ;;
    ret 0
  else
    builder <- native_int c2pa_builder_from_archive [AInt streamPtr] ;;
    if builder =? 0 then
      throw_c2pa_exception "Failed to create builder from archive" ;;
      ret 0
    else ret builder.

Definition Java_org_contentauth_c2pa_Builder_free (builderPtr : Z) : M unit :=
  if negb (builderPtr =? 0) then call_native c2pa_builder_free [AInt builderPtr]
  else ret tt.

Definition Java_org_contentauth_c2pa_Builder_setIntentNative
    (builderPtr intent digitalSourceType : Z) : M Z :=
  if builderPtr =? 0 then
    ThrowNew IllegalStateException "Builder is not initialized" ;;
    ret (-1)
  else
    native_int c2pa_builder_set_intent
      [AInt builderPtr; AInt intent; AInt digitalSourceType].

Definition Java_org_contentauth_c2pa_Builder_addActionNative
    (builderPtr : Z) (actionJson : option string) : M Z :=
  if (builderPtr =? 0) || bool_decide (actionJson = None) then
    ThrowNew IllegalArgumentException "Builder and action JSON cannot be null" ;;
    ret (-1)
  else
    cactionJson <- jstring_to_cstring actionJson ;;
    match cactionJson with
    | None => ret (-1)
    | Some _ =>
        result <- native_int c2pa_builder_add_action [AInt builderPtr; AStr cactionJson] ;;
        release_cstring actionJson cactionJson ;;
        ret result
    end.

Definition Java_org_contentauth_c2pa_Builder_setNoEmbedNative (builderPtr : Z) : M unit :=
  if builderPtr =? 0 then
    ThrowNew IllegalStateException "Builder is not initialized"
  else call_native c2pa_builder_set_no_embed [AInt builderPtr].

Definition Java_org_contentauth_c2pa_Builder_setRemoteUrlNative
    (builderPtr : Z) (remoteUrl : option string) : M Z :=
  if (builderPtr =? 0) || bool_decide (remoteUrl = None) then
    ThrowNew IllegalArgumentException "Builder and remote URL cannot be null" ;;
    ret (-1)
  else
    cremoteUrl <- jstring_to_cstring remoteUrl ;;
    match cremoteUrl with
    | None => ret (-1)
    | Some _ =>
        result <- native_int c2pa_builder_set_remote_url
                    [AInt builderPtr; AStr cremoteUrl] ;;
        release_cstring remoteUrl cremoteUrl ;;
        ret result
    end.

Definition Java_org_contentauth_c2pa_Builder_addResourceNative
    (builderPtr : Z) (uri : option string) (streamPtr : Z) : M Z :=
  curi <- jstring_to_cstring uri ;;
  result <- native_int c2pa_builder_add_resource
              [AInt builderPtr; AStr curi; AInt streamPtr] ;;
  release_cstring uri curi ;;
  ret result.

Definition Java_org_contentauth_c2pa_Builder_addIngredientFromStreamNative
    (builderPtr : Z) (ingredientJson format : option string) (streamPtr : Z) : M Z :=
  cingredientJson <- jstring_to_cstring ingredientJson ;;
  cformat <- jstring_to_cstring format ;;
  result <- native_int c2pa_builder_add_ingredient_from_stream
              [AInt builderPtr; AStr cingredientJson; AStr cformat; AInt streamPtr] ;;
  release_cstring ingredientJson cingredientJson ;;
  release_cstring format cformat ;;
  ret result.

Definition Java_org_contentauth_c2pa_Builder_toArchiveNative
    (builderPtr streamPtr : Z) : M Z :=
  native_int c2pa_builder_to_archive [AInt builderPtr; AInt streamPtr].

(** [Builder$SignResult]: the [(J[B)V] constructor's two arguments. *)
Record SignResult : Type := MkSignResult {
  sr_size : Z;
  sr_manifest : option (list byte)
}.

Definition SignResultClass : string := "org/contentauth/c2pa/Builder$SignResult".

Definition FindClass (name : string) : M bool :=
  if find_class_ok W name then ret true
  else (ThrowNew NoClassDefFoundError name ;; ret false).

Definition GetMethodID (cls name : string) : M bool :=
  if method_ok W cls name then ret true
  else (ThrowNew NoSuchMethodError name ;; ret false).

Definition free_manifest_bytes (manifestBytes : option (list byte)) : M unit :=
  call_native c2pa_manifest_bytes_free [ABytes (default [] manifestBytes)].

Definition Java_org_contentauth_c2pa_Builder_signNative
    (builderPtr : Z) (format : option string)
    (sourceStreamPtr destStreamPtr signerPtr : Z) : M (option SignResult) :=
  if (builderPtr =? 0) || bool_decide (format = None) || (sourceStreamPtr =? 0)
     || (destStreamPtr =? 0) || (signerPtr =? 0) then
    ThrowNew IllegalArgumentException
      "Builder, format, streams, and signer cannot be null" ;;
    ret None
  else
    cformat <- jstring_to_cstring format ;;
    match cformat with
    | None => ret None
    | Some _ =>
        let args := [AInt builderPtr; AStr cformat; AInt sourceStreamPtr;
                     AInt destStreamPtr; AInt signerPtr] in
        size <- native_int c2pa_builder_sign args ;;
        let manifestBytes := ret_buf W c2pa_builder_sign args in
        release_cstring format cformat ;;
        if size <? 0 then
          throw_c2pa_exception "Failed to sign builder" ;;
          ret None
        else
          s <- get ;;
          resultClass <- (if g_signResultClass s then ret true
                          else FindClass SignResultClass) ;;
          if negb resultClass then
            check_exception ;;
            (if bool_decide (manifestBytes = None) then ret tt
             else free_manifest_bytes manifestBytes) ;;
            ret None
          else
            constructor <- GetMethodID SignResultClass "<init>" ;;
            if negb constructor then
              check_exception ;;
              (if bool_decide (manifestBytes = None) then ret tt
               else free_manifest_bytes manifestBytes) ;;
              ret None
            else
              let construct (jmanifestBytes : option (list byte)) : M (option SignResult) :=
                if new_object_ok W
                then ret (Some (MkSignResult size jmanifestBytes))
                else (ThrowNew OutOfMemoryError "" ;; check_exception ;; ret None) in
              if negb (bool_decide (manifestBytes = None)) && (0 <? size) then
                jmanifestBytes <- safe_new_byte_array (wrap32 size) ;;
                match jmanifestBytes with
                | None => free_manifest_bytes manifestBytes ;; ret None
                | Some arr =>
                    arr' <- SetByteArrayRegion arr 0 (wrap32 size)
                              (default [] manifestBytes) ;;
                    thrown <- check_exception ;;
                    if thrown then (free_manifest_bytes manifestBytes ;; ret None)
                    else
                      free_manifest_bytes manifestBytes ;;
                      construct (Some arr')
                end
              else construct None
    end.

Definition Java_org_contentauth_c2pa_Builder_dataHashedPlaceholderNative
    (builderPtr reservedSize : Z) (format : option string) : M (option (list byte)) :=
  if (builderPtr =? 0) || bool_decide (format = None) || (reservedSize <=? 0) then
    ThrowNew IllegalArgumentException
      "Builder, format cannot be null and reserved size must be positive" ;;
    ret None
  else
    cformat <- jstring_to_cstring format ;;
    match cformat with
    | None => ret None
    | Some _ =>
        let args := [AInt builderPtr; AInt reservedSize; AStr cformat] in
        size <- native_int c2pa_builder_data_hashed_placeholder args ;;
        let manifestBytes := ret_buf W c2pa_builder_data_hashed_placeholder args in
        release_cstring format cformat ;;
        if (size <? 0) || bool_decide (manifestBytes = None) then
          throw_c2pa_exception "Failed to create data hashed placeholder" ;;
          ret None
        else
          result <- safe_new_byte_array (wrap32 size) ;;
          match result with
          | None => free_manifest_bytes manifestBytes ;; ret None
          | Some arr =>
              arr' <- SetByteArrayRegion arr 0 (wrap32 size) (default [] manifestBytes) ;;
              thrown <- check_exception ;;
              if thrown then (free_manifest_bytes manifestBytes ;; ret None)
              else (free_manifest_bytes manifestBytes ;; ret (Some arr'))
          end
    end.

Definition Java_org_contentauth_c2pa_Builder_signDataHashedEmbeddableNative
    (builderPtr signerPtr : Z) (dataHash format : option string) (assetPtr : Z)
  : M (option (list byte)) :=
  cdataHash <- jstring_to_cstring dataHash ;;
  cformat <- jstring_to_cstring format ;;
  let args := [AInt builderPtr; AInt signerPtr; AStr cdataHash; AStr cformat;
               AInt assetPtr] in
  size <- native_int c2pa_builder_sign_data_hashed_embeddable args ;;
  let manifestBytes := ret_buf W c2pa_builder_sign_data_hashed_embeddable args in
  release_cstring dataHash cdataHash ;;
  release_cstring format cformat ;;
  if (size <? 0) || bool_decide (manifestBytes = None) then ret None
  else
    result <- NewByteArray (wrap32 size) ;;
    match result with
    | None => undefined
    | Some arr =>
        arr' <- SetByteArrayRegion arr 0 (wrap32 size) (default [] manifestBytes) ;;
        free_manifest_bytes manifestBytes ;;
        ret (Some arr')
    end.

(** ** Signer registry *)

(** [calloc(1, sizeof(JavaSignerContext))]: a fresh, zeroed cell. *)
Definition calloc_context : M Z :=
  if calloc_ok W then
    s <- get ;;
    let a := Z.pos (next_addr s) in
    modify (set_next_addr (Pos.succ (next_addr s))) ;;
    modify (fun s => set_heap (<[a := MkSignerContext 0 false false]> (heap s)) s) ;;
    ret a
  else ret 0.

Definition free_context (a : Z) : M unit :=
  modify (fun s => set_heap (delete a (heap s)) s) ;;
  log (EFree a).

Definition store_context (a : Z) (c : JavaSignerContext) : M unit :=
  _ <- load_context a ;;
  modify (fun s => set_heap (<[a := c]> (heap s)) s).

(** [ctx->isActive = b]. *)
Definition store_isActive (a : Z) (b : bool) : M unit :=
  c <- load_context a ;;
  store_context a (MkSignerContext (callback c) (signMethod c) b) ;;
  log (EStoreActive a b).

(** A fresh global reference to [target], or [0] when the runtime is out
    of memory. *)
Definition NewGlobalRefOf (target : referent) : M Z :=
  if global_ref_ok W then
    s <- get ;;
    modify (set_next_addr (Pos.succ (next_addr s))) ;;
    log (ENewGlobalRef target (Z.pos (next_addr s))) ;;
    ret (Z.pos (next_addr s))
  else (ThrowNew OutOfMemoryError "" ;; ret 0).

Definition NewGlobalRef (obj : Z) : M Z := NewGlobalRefOf (RObject obj).

Definition DeleteGlobalRef (r : Z) : M unit := log (EDeleteGlobalRef r).

Definition register_signer_context (signer_ context_ : Z) : M unit :=
  if malloc_ok W then
    modify (fun s => set_g_signerContexts (MkNode context_ signer_ :: g_signerContexts s) s)
  else ret tt.

(** What [unregister_signer_context] does to the node it deletes. *)
Definition unregister_node (toDelete : SignerContextNode) : M unit :=
  let ctx := context toDelete in
  (if negb (ctx =? 0) then
     store_isActive ctx false ;;
     env <- get_jni_env ;;
     c <- load_context ctx ;;
     (if env && negb (callback c =? 0) then DeleteGlobalRef (callback c) else ret tt) ;;
     free_context ctx
   else ret tt) ;;
  log (EFreeNode (signer toDelete)).

(** The walk over the list: the first node of [signer_] is processed and
    spliced out, the others are kept in order. *)
Fixpoint unregister_walk (signer_ : Z) (l : list SignerContextNode)
  : M (list SignerContextNode) :=
  match l with
  | [] => ret []
  | node :: rest =>
      if signer node =? signer_ then (unregister_node node ;; ret rest)
      else (rest' <- unregister_walk signer_ rest ;; ret (node :: rest'))
  end.

Definition unregister_signer_context (signer_ : Z) : M unit :=
  s <- get ;;
  l <- unregister_walk signer_ (g_signerContexts s) ;;
  modify (set_g_signerContexts l).

Definition cleanup_node (current : SignerContextNode) : M unit :=
  let ctx := context current in
  (if negb (ctx =? 0) then
     store_isActive ctx false ;;
     c <- load_context ctx ;;
     (if negb (callback c =? 0) then DeleteGlobalRef (callback c) else ret tt) ;;
     free_context ctx
   else ret tt) ;;
  log (EFreeNode (signer current)).

Fixpoint cleanup_walk (l : list SignerContextNode) : M unit :=
  match l with
  | [] => ret tt
  | current :: next => cleanup_node current ;; cleanup_walk next
  end.

Definition cleanup_all_signer_contexts : M unit :=
  s <- get ;;
  cleanup_walk (g_signerContexts s) ;;
  modify (set_g_signerContexts []).

(** The unload hook deletes the two class references that are not [NULL]
    and clears them, [g_streamClass] first; it leaves the four method IDs
    of the [Stream] class as they are. *)
Definition JNI_OnUnload (refs : class_refs) : M class_refs :=
  status <- GetEnv ;;
  match status with
  | JNI_OK =>
      cleanup_all_signer_contexts ;;
      (if negb (streamClassRef refs =? 0) then
         DeleteGlobalRef (streamClassRef refs) ;;
         s <- get ;;
         modify (set_classes (g_signResultClass s) false)
       else ret tt) ;;
      (if negb (signResultClassRef refs =? 0) then
         DeleteGlobalRef (signResultClassRef refs) ;;
         s <- get ;;
         modify (set_classes false (g_streamClass s))
       else ret tt) ;;
      modify (set_g_jvm false) ;;
      ret (MkClassRefs 0 0)
  | _ => ret refs
  end.

(** ** Signer entry points *)

(** The chain of [strcmp] tests.  A C string obtained from
    [GetStringUTFChars] has no embedded zero byte, so [strcmp(a, b) == 0]
    is equality of the two strings. *)
Definition parse_alg (calg : string) : option C2paSigningAlg :=
  if String.eqb calg "es256" then Some Es256
  else if String.eqb calg "es384" then Some Es384
  else if String.eqb calg "es512" then Some Es512
  else if String.eqb calg "ps256" then Some Ps256
  else if String.eqb calg "ps384" then Some Ps384
  else if String.eqb calg "ps512" then Some Ps512
  else if String.eqb calg "ed25519" then Some Ed25519
  else None.

Definition CallbackClass : string := "<class of the callback object>".

Definition Java_org_contentauth_c2pa_Signer_nativeFromCallback
    (algorithm certificateChain tsaURL : option string) (callback_ : Z) : M Z :=
  if bool_decide (algorithm = None) || bool_decide (certificateChain = None)
     || (callback_ =? 0) then
    ThrowNew IllegalArgumentException "Required parameters cannot be null" ;;
    ret 0
  else
    calg <- jstring_to_cstring algorithm ;;
    match calg with
    | None => ret 0
    | Some calg_ =>
        match parse_alg calg_ with
        | None =>
            release_cstring algorithm calg ;;
            ThrowNew IllegalArgumentException "Unknown signing algorithm" ;;
            ret 0
        | Some alg =>
            release_cstring algorithm calg ;;
            ccerts <- jstring_to_cstring certificateChain ;;
            ctsaURL <- jstring_to_cstring tsaURL ;;
            if bool_decide (ccerts = None) then
              release_cstring tsaURL ctsaURL ;;
              ret 0
            else
              ctx <- calloc_context ;;
              if ctx =? 0 then
                release_cstring certificateChain ccerts ;;
                release_cstring tsaURL ctsaURL ;;
                ThrowNew OutOfMemoryError "Failed to allocate signer context" ;;
                ret 0
              else
                ref <- NewGlobalRef callback_ ;;
                store_context ctx (MkSignerContext ref false false) ;;
                if ref =? 0 then
                  free_context ctx ;;
                  release_cstring certificateChain ccerts ;;
                  release_cstring tsaURL ctsaURL ;;
                  check_exception ;;
                  ret 0
                else
                  signMethod_ <- GetMethodID CallbackClass "sign" ;;
                  store_context ctx (MkSignerContext ref signMethod_ false) ;;
                  if negb signMethod_ then
                    DeleteGlobalRef ref ;;
                    free_context ctx ;;
                    release_cstring certificateChain ccerts ;;
                    release_cstring tsaURL ctsaURL ;;
                    check_exception ;;
                    ret 0
                  else
                    store_isActive ctx true ;;
                    signer_ <- native_int c2pa_signer_create
                                 [AInt ctx; AAlg alg; AStr ccerts; AStr ctsaURL] ;;
                    release_cstring certificateChain ccerts ;;
                    release_cstring tsaURL ctsaURL ;;
                    if signer_ =? 0 then
                      DeleteGlobalRef ref ;;
                      free_context ctx ;;
                      ret 0
                    else
                      register_signer_context signer_ ctx ;;
                      ret signer_
        end
    end.

Definition Java_org_contentauth_c2pa_Signer_reserveSizeNative (signerPtr : Z) : M Z :=
  native_int c2pa_signer_reserve_size [AInt signerPtr].

Definition Java_org_contentauth_c2pa_Signer_free (signerPtr : Z) : M unit :=
  if negb (signerPtr =? 0) then
    unregister_signer_context signerPtr ;;
    call_native c2pa_signer_free [AInt signerPtr]
  else ret tt.

(** ** Ed25519 signing *)

Definition Java_org_contentauth_c2pa_C2PA_ed25519SignNative
    (data : option (list byte)) (privateKey : option string) : M (option (list byte)) :=
  if bool_decide (data = None) || bool_decide (privateKey = None) then
    ThrowNew IllegalArgumentException "Data and private key cannot be null" ;;
    ret None
  else
    let bytes := default [] data in
    let dataSize := Z.of_nat (length bytes) in
    thrown <- check_exception ;;
    if thrown || (dataSize <=? 0) then
      ThrowNew IllegalArgumentException "Data cannot be empty" ;;
      ret None
    else
      cdata <- GetByteArrayElements bytes ;;
      match cdata with
      | None => check_exception ;; ret None
      | Some cdata_ =>
          cprivateKey <- jstring_to_cstring privateKey ;;
          match cprivateKey with
          | None => ret None
          | Some _ =>
              let args := [ABytes cdata_; AInt dataSize; AStr cprivateKey] in
              call_native c2pa_ed25519_sign args ;;
              let signature := ret_buf W c2pa_ed25519_sign args in
              result <-
                match signature with
                | Some sig =>
                    result <- safe_new_byte_array 64 ;;
                    result' <-
                      match result with
                      | Some arr =>
                          arr' <- SetByteArrayRegion arr 0 64 sig ;;
                          thrown' <- check_exception ;;
                          if thrown' then ret None else ret (Some arr')
                      | None => ret None
                      end ;;
                    call_native c2pa_signature_free [ABytes sig] ;;
                    ret result'
                | None => ret None
                end ;;
              release_cstring privateKey cprivateKey ;;
              ret result
          end
      end.

End Bridge.

(** ** Running one callback *)

Inductive callback_call : Type :=
| CbRead (jctx : JavaStreamContext) (data : list byte) (len : Z)
| CbSeek (jctx : JavaStreamContext) (offset mode : Z)
| CbWrite (jctx : JavaStreamContext) (data : list byte) (len : Z)
| CbFlush (jctx : JavaStreamContext)
| CbSign (context : Z) (data : list byte) (len : Z)
         (signed_bytes : list byte) (signed_len : Z).

(** The [intptr_t] a callback hands back to the native library. *)
Definition run_callback (W : world) (c : callback_call) : M Z :=
  match c with
  | CbRead jctx data len => r <- java_read_callback W jctx data len ;; ret (fst r)
  | CbSeek jctx offset mode => java_seek_callback W jctx offset mode
  | CbWrite jctx data len => java_write_callback W jctx data len
  | CbFlush jctx => java_flush_callback W jctx
  | CbSign ctx data len out cap =>
      r <- java_signer_callback W ctx data len out cap ;; ret (fst r)
  end.

(** ** Concrete worlds and states used in examples *)

Definition quiet : host_outcome := HostOutcome None 0 [] None.

(** Every runtime request succeeds, host methods do nothing and return [0],
    the library returns [0] and [NULL]. *)
Definition calm : world :=
  World (fun _ => true) (fun _ => true) (fun _ => true) true (fun _ => true)
        (fun _ _ => true) true true true true (fun _ _ _ => quiet) true true
        (fun _ _ => 0) (fun _ _ => None) (fun _ _ => None).

Definition with_host (h : host_method -> Z -> list arg -> host_outcome) (W : world)
  : world :=
  World (utf_ok W) (new_string_ok W) (new_bytes_ok W) (elements_ok W)
        (find_class_ok W) (method_ok W) (new_object_ok W) (global_ref_ok W)
        (attach_ok W) (version_ok W) h (calloc_ok W) (malloc_ok W)
        (ret_int W) (ret_str W) (ret_buf W).

Definition with_native (ri : native_fn -> list arg -> Z)
    (rs : native_fn -> list arg -> option string)
    (rb : native_fn -> list arg -> option (list byte)) (W : world) : world :=
  World (utf_ok W) (new_string_ok W) (new_bytes_ok W) (elements_ok W)
        (find_class_ok W) (method_ok W) (new_object_ok W) (global_ref_ok W)
        (attach_ok W) (version_ok W) (host W) (calloc_ok W) (malloc_ok W)
        ri rs rb.

(** A host-owned thread after library load: runtime handle present, thread
    attached by the host, no marker, nothing pending, empty registry. *)
Definition loaded : state :=
  MkState true true false None true true [] ∅ ∅ ∅ 1%positive [].

(** A native thread the host runtime has never seen. *)
Definition foreign : state := set_attached false loaded.

Definition IOException : throwable := Throwable "java/io/IOException" "disk gone".

Definition failing_host : world :=
  with_host (fun _ _ _ => HostOutcome (Some IOException) 0 [] None) calm.

Definition a_stream : JavaStreamContext := MkStreamContext 7.

(** The events a run appended to the trace. *)
Definition added (s s' : state) : list event := drop (length (trace s)) (trace s').

(** What the caller owes a callback: buffers as long as the lengths passed
    with them, and for the signer callback a context that is still
    allocated. *)
Definition callback_inputs_valid (c : callback_call) (s : state) : Prop :=
  match c with
  | CbRead _ data len => 0 <= len <= Z.of_nat (length data)
  | CbWrite _ data len => 0 <= len <= Z.of_nat (length data)
  | CbSign ctx data len out cap =>
      is_Some (heap s !! ctx) /\ 0 <= len <= Z.of_nat (length data)
      /\ cap <= Z.of_nat (length out)
  | CbSeek _ _ _ | CbFlush _ => True
  end.

(** The first claim as the specification words it: the failure of the host
    method is still pending when the callback returns [-1]. *)
Definition failure_stays_pending (W : world) (c : callback_call) (s : state) : Prop :=
  forall r s' m obj args t,
    run_callback W c s = Some (r, s') ->
    EHost m obj args ∈ added s s' ->
    h_thrown (host W m obj args) = Some t ->
    r = -1 /\ pending s' = Some t.

(** The second claim as the specification words it: a count in
    [[0, len]] makes the callback copy that many bytes, a count outside it
    makes the callback report failure (a negative result) instead of the
    count. *)
Definition read_count_checked (W : world) (jctx : JavaStreamContext)
    (data : list byte) (len : Z) (s : state) : Prop :=
  forall r data' s',
    java_read_callback W jctx data len s = Some (r, data', s') ->
    let arr := replicate (Z.to_nat len) Byte.x00 in
    let out := host W StreamRead (streamObject jctx) [ABytes arr; AInt len] in
    let n := h_long out in
    EHost StreamRead (streamObject jctx) [ABytes arr; AInt len] ∈ added s s' ->
    h_thrown out = None ->
    (0 <= n <= len ->
     r = n /\ data' = take (Z.to_nat n) (apply_stores (h_stores out) arr)
                        ++ drop (Z.to_nat n) data)
    /\ (~ 0 <= n <= len -> r < 0).

(** A host stream whose [read] stores one byte and reports one byte read. *)
Definition reading_host : world :=
  with_host (fun _ _ _ => HostOutcome None 1 [(0%nat, Byte.xff)] None) calm.

(** A host stream whose [read] reports five bytes read, whatever it was
    asked for. *)
Definition greedy_host : world :=
  with_host (fun _ _ _ => HostOutcome None 5 [] None) calm.

(** ** The life of one thread *)

(** What can happen to a thread between its start and its exit, as far as
    attachment goes: a callback running on it asks for the environment, or
    the library is loaded or unloaded meanwhile (the runtime handle is set
    or cleared). *)
Inductive thread_step : Type :=
| AsksEnv
| RuntimeHandle (present : bool).

Definition run_step (W : world) (st : thread_step) : M unit :=
  match st with
  | AsksEnv => get_jni_env W ;; ret tt
  | RuntimeHandle b => modify (set_g_jvm b)
  end.

Fixpoint run_thread (W : world) (steps : list thread_step) : M unit :=
  match steps with
  | [] => ret tt
  | st :: rest => run_step W st ;; run_thread W rest
  end.

(** Thread exit: the destructor of the thread-local key runs on the
    thread's value. *)
Definition thread_exit : M unit :=
  s <- get ;; thread_detach_destructor (tls_marker s).

(** ** Signing algorithms *)

Definition alg_name (a : C2paSigningAlg) : string :=
  match a with
  | Es256 => "es256" | Es384 => "es384" | Es512 => "es512"
  | Ps256 => "ps256" | Ps384 => "ps384" | Ps512 => "ps512"
  | Ed25519 => "ed25519"
  end.

(** The seven spellings of the specification. *)
Definition accepted_algorithms : list string :=
  ["es256"; "es384"; "es512"; "ps256"; "ps384"; "ps512"; "ed25519"].

Definition unknown_algorithm : throwable :=
  Throwable IllegalArgumentException "Unknown signing algorithm".

Definition is_signer_create (a : C2paSigningAlg) (e : event) : Prop :=
  exists ctx certs tsa, e = ENative c2pa_signer_create [AInt ctx; AAlg a; AStr certs; AStr tsa].

(** A library that creates every signer, at address [500]. *)
Definition creating_signers : world :=
  with_native (fun f _ => match f with c2pa_signer_create => 500 | _ => 0 end)
              (fun _ _ => None) (fun _ _ => None) calm.

(** ** Ed25519 signing, as the specification words it *)

Definition data_cannot_be_empty : throwable :=
  Throwable IllegalArgumentException "Data cannot be empty".

Definition data_and_key_cannot_be_null : throwable :=
  Throwable IllegalArgumentException "Data and private key cannot be null".

(** The tenth claim as worded: null data and empty data alike are refused
    with the message "Data cannot be empty", before any native call. *)
Definition empty_data_rejected (W : world) (data : option (list byte))
    (privateKey : option string) (s : state) : Prop :=
  data = None \/ data = Some [] ->
  exists s',
    Java_org_contentauth_c2pa_C2PA_ed25519SignNative W data privateKey s
      = Some (None, s')
    /\ pending s' = Some data_cannot_be_empty
    /\ native_calls (added s s') = [].

(** The ninth claim as worded: a non-null result has 64 bytes, and a native
    signature of another length makes the call fail (a null result). *)
Definition ed25519_length_checked (W : world) (data : option (list byte))
    (privateKey : option string) (s : state) : Prop :=
  forall r s',
    Java_org_contentauth_c2pa_C2PA_ed25519SignNative W data privateKey s
      = Some (r, s') ->
    (forall sig, r = Some sig -> length sig = 64%nat)
    /\ (forall args nsig,
          ENative c2pa_ed25519_sign args ∈ added s s' ->
          ret_buf W c2pa_ed25519_sign args = Some nsig ->
          length nsig <> 64%nat -> r = None).

(** A library whose Ed25519 signatures are 65 bytes long. *)
Definition long_signatures : world :=
  with_native (fun _ _ => 0) (fun _ _ => None)
    (fun f _ => match f with
                | c2pa_ed25519_sign => Some (replicate 65 Byte.x2a)
                | _ => None
                end) calm.

(** ** Builder sign *)

(** The message of a native failure: the library's last error when it is
    not empty, the call site's default otherwise. *)
Definition last_error_or (W : world) (defaultMessage : string) : string :=
  match ret_str W c2pa_error [] with
  | Some error => if 0 <? Z.of_nat (String.length error) then error else defaultMessage
  | None => defaultMessage
  end.

Definition native_failure (W : world) (defaultMessage : string) : throwable :=
  Throwable RuntimeException (last_error_or W defaultMessage).

(** The host runtime can build a [SignResult]: the class is cached or can be
    found, its constructor resolves and the allocation succeeds. *)
Definition sign_result_constructible (W : world) (s : state) : bool :=
  (g_signResultClass s || find_class_ok W SignResultClass)
  && method_ok W SignResultClass "<init>" && new_object_ok W.

(** A library whose Builder sign produces a three-byte manifest. *)
Definition signing_library : world :=
  with_native (fun f _ => match f with c2pa_builder_sign => 3 | _ => 0 end)
    (fun _ _ => None)
    (fun f _ => match f with
                | c2pa_builder_sign => Some [Byte.x0a; Byte.x0b; Byte.x0c]
                | _ => None
                end) calm.

(** ** Draining the registry *)

(** The events of draining one node whose context holds [c] in heap [h]:
    the flag is cleared, then the host reference is dropped, then the
    context and the node are freed. *)
Definition drain_events (h : gmap Z JavaSignerContext) (n : SignerContextNode)
  : list event :=
  match h !! context n with
  | Some c =>
      EStoreActive (context n) false
      :: (if negb (callback c =? 0) then [EDeleteGlobalRef (callback c)] else [])
      ++ [EFree (context n); EFreeNode (signer n)]
  | None => []
  end.

(** Every node of the registry points to an allocated context of its own. *)
Definition registry_live (s : state) : Prop :=
  NoDup (context <$> g_signerContexts s)
  /\ Forall (fun n => context n <> 0 /\ is_Some (heap s !! context n))
            (g_signerContexts s).

(** The state in which a signer created from a callback is registered: the
    library made signer [500], its context is the cell at address [1]. *)
Definition with_signer : state :=
  MkState true true false None true true [MkNode 1 500]
    {[ 1 := MkSignerContext 2 true true ]} ∅ ∅ 3%positive [].

(** ** The Handle Gateway as one interface *)

(** What an entry point hands back to the host. *)
Inductive jvalue : Type :=
| JVoid
| JBoolean (b : bool)
| JInt (z : Z)
| JLong (z : Z)
| JString (s : option string)
| JByteArray (a : option (list byte))
| JSignResult (r : option SignResult).

(** The entry points that take a native handle, with their arguments. *)
Inductive gateway_call : Type :=
| StreamRelease (streamPtr : Z)
| ReaderFromStream (format : option string) (streamPtr : Z)
| ReaderFromManifestDataAndStream (format : option string) (streamPtr : Z)
    (manifestData : option (list byte))
| ReaderFree (readerPtr : Z)
| ReaderToJson (readerPtr : Z)
| ReaderToDetailedJson (readerPtr : Z)
| ReaderRemoteUrl (readerPtr : Z)
| ReaderIsEmbedded (readerPtr : Z)
| ReaderResourceToStream (readerPtr : Z) (uri : option string) (streamPtr : Z)
| BuilderFromArchive (streamPtr : Z)
| BuilderFree (builderPtr : Z)
| BuilderSetIntent (builderPtr intent digitalSourceType : Z)
| BuilderAddAction (builderPtr : Z) (actionJson : option string)
| BuilderSetNoEmbed (builderPtr : Z)
| BuilderSetRemoteUrl (builderPtr : Z) (remoteUrl : option string)
| BuilderAddResource (builderPtr : Z) (uri : option string) (streamPtr : Z)
| BuilderAddIngredientFromStream (builderPtr : Z) (ingredientJson format : option string)
    (streamPtr : Z)
| BuilderToArchive (builderPtr streamPtr : Z)
| BuilderSign (builderPtr : Z) (format : option string)
    (sourceStreamPtr destStreamPtr signerPtr : Z)
| BuilderDataHashedPlaceholder (builderPtr reservedSize : Z) (format : option string)
| BuilderSignDataHashedEmbeddable (builderPtr signerPtr : Z)
    (dataHash format : option string) (assetPtr : Z)
| SignerReserveSize (signerPtr : Z)
| SignerFree (signerPtr : Z).

Definition run_gateway (W : world) (c : gateway_call) : M jvalue :=
  match c with
  | StreamRelease p => Java_org_contentauth_c2pa_Stream_releaseStreamNative p ;; ret JVoid
  | ReaderFromStream f p =>
      r <- Java_org_contentauth_c2pa_Reader_fromStreamNative W f p ;; ret (JLong r)
  | ReaderFromManifestDataAndStream f p d =>
      r <- Java_org_contentauth_c2pa_Reader_fromManifestDataAndStreamNative W f p d ;;
      ret (JLong r)
  | ReaderFree p => Java_org_contentauth_c2pa_Reader_free p ;; ret JVoid
  | ReaderToJson p =>
      r <- Java_org_contentauth_c2pa_Reader_toJsonNative W p ;; ret (JString r)
  | ReaderToDetailedJson p =>
      r <- Java_org_contentauth_c2pa_Reader_toDetailedJsonNative W p ;; ret (JString r)
  | ReaderRemoteUrl p =>
      r <- Java_org_contentauth_c2pa_Reader_remoteUrlNative W p ;; ret (JString r)
  | ReaderIsEmbedded p =>
      r <- Java_org_contentauth_c2pa_Reader_isEmbeddedNative W p ;; ret (JBoolean r)
  | ReaderResourceToStream p u sp =>
      r <- Java_org_contentauth_c2pa_Reader_resourceToStreamNative W p u sp ;;
      ret (JLong r)
  | BuilderFromArchive p =>
      r <- Java_org_contentauth_c2pa_Builder_nativeFromArchive W p ;; ret (JLong r)
  | BuilderFree p => Java_org_contentauth_c2pa_Builder_free p ;; ret JVoid
  | BuilderSetIntent p i d =>
      r <- Java_org_contentauth_c2pa_Builder_setIntentNative W p i d ;; ret (JInt r)
  | BuilderAddAction p j =>
      r <- Java_org_contentauth_c2pa_Builder_addActionNative W p j ;; ret (JInt r)
  | BuilderSetNoEmbed p => Java_org_contentauth_c2pa_Builder_setNoEmbedNative p ;; ret JVoid
  | BuilderSetRemoteUrl p u =>
      r <- Java_org_contentauth_c2pa_Builder_setRemoteUrlNative W p u ;; ret (JInt r)
  | BuilderAddResource p u sp =>
      r <- Java_org_contentauth_c2pa_Builder_addResourceNative W p u sp ;; ret (JInt r)
  | BuilderAddIngredientFromStream p j f sp =>
      r <- Java_org_contentauth_c2pa_Builder_addIngredientFromStreamNative W p j f sp ;;
      ret (JInt r)
  | BuilderToArchive p sp =>
      r <- Java_org_contentauth_c2pa_Builder_toArchiveNative W p sp ;; ret (JInt r)
  | BuilderSign p f src dst sg =>
      r <- Java_org_contentauth_c2pa_Builder_signNative W p f src dst sg ;;
      ret (JSignResult r)
  | BuilderDataHashedPlaceholder p n f =>
      r <- Java_org_contentauth_c2pa_Builder_dataHashedPlaceholderNative W p n f ;;
      ret (JByteArray r)
  | BuilderSignDataHashedEmbeddable p sg h f a =>
      r <- Java_org_contentauth_c2pa_Builder_signDataHashedEmbeddableNative W p sg h f a ;;
      ret (JByteArray r)
  | SignerReserveSize p =>
      r <- Java_org_contentauth_c2pa_Signer_reserveSizeNative W p ;; ret (JLong r)
  | SignerFree p => Java_org_contentauth_c2pa_Signer_free W p ;; ret JVoid
  end.

(** Zero, null or [false]: nothing usable came back. *)
Definition is_null (v : jvalue) : bool :=
  match v with
  | JLong z | JInt z => z =? 0
  | JString None | JByteArray None | JSignResult None => true
  | _ => false
  end.

Definition jvalue_int (v : jvalue) : option Z :=
  match v with
  | JLong z | JInt z => Some z
  | _ => None
  end.

(** Modelled from the spec: [c2pa.h] is not among the sources; this is the
    specification's "the native library returned a failure code or null",
    function by function, after the kind of value each returns: a null
    object for the constructors, a null string for the JSON queries, a
    negative number for the status and size results (and a null buffer
    where one is returned with the size). *)
Definition native_failed (W : world) (f : native_fn) (args : list arg) : bool :=
  match f with
  | c2pa_reader_from_stream | c2pa_reader_from_manifest_data_and_stream
  | c2pa_builder_from_archive | c2pa_signer_create =>
      ret_int W f args =? 0
  | c2pa_reader_json | c2pa_reader_detailed_json =>
      bool_decide (ret_str W f args = None)
  | c2pa_reader_resource_to_stream | c2pa_builder_set_intent
  | c2pa_builder_add_action | c2pa_builder_set_remote_url
  | c2pa_builder_add_resource | c2pa_builder_add_ingredient_from_stream
  | c2pa_builder_to_archive | c2pa_signer_reserve_size | c2pa_builder_sign =>
      ret_int W f args <? 0
  | c2pa_builder_data_hashed_placeholder
  | c2pa_builder_sign_data_hashed_embeddable =>
      (ret_int W f args <? 0) || bool_decide (ret_buf W f args = None)
  | _ => false
  end.

(** The third claim as worded: whenever a call into the library made by an
    entry point fails, the entry point leaves a failure raised. *)
Definition native_failure_raised (W : world) (c : gateway_call) (s : state) : Prop :=
  forall v s' f args,
    run_gateway W c s = Some (v, s') ->
    ENative f args ∈ added s s' ->
    native_failed W f args = true ->
    is_Some (pending s').

(** The entry points that raise a native failure, with the default message
    of their call site. *)
Definition raises_native_failure (c : gateway_call) : option string :=
  match c with
  | ReaderFromStream _ _ => Some "Failed to create reader from stream"
  | ReaderToJson _ => Some "Failed to generate JSON from reader"
  | ReaderToDetailedJson _ => Some "Failed to generate detailed JSON from reader"
  | BuilderFromArchive _ => Some "Failed to create builder from archive"
  | BuilderSign _ _ _ _ _ => Some "Failed to sign builder"
  | BuilderDataHashedPlaceholder _ _ _ =>
      Some "Failed to create data hashed placeholder"
  | _ => None
  end.

(** The entry points whose result is the library's integer status. *)
Definition returns_status (c : gateway_call) : bool :=
  match c with
  | ReaderResourceToStream _ _ _ | BuilderSetIntent _ _ _ | BuilderAddAction _ _
  | BuilderSetRemoteUrl _ _ | BuilderAddResource _ _ _
  | BuilderAddIngredientFromStream _ _ _ _ | BuilderToArchive _ _
  | SignerReserveSize _ => true
  | _ => false
  end.

(** A buffer the library returns holds at least as many bytes as the size
    it returns with it. *)
Definition buffers_honest (W : world) : Prop :=
  forall f args b, ret_buf W f args = Some b -> ret_int W f args <= Z.of_nat (length b).

(** A library that refuses everything: [-1] and [NULL]. *)
Definition refusing : world :=
  with_native (fun _ _ => -1) (fun _ _ => None) (fun _ _ => None) calm.

(** ** Validation of handles *)

(** The handles an entry point needs are non-zero and the arguments it
    needs are present.  For the entry points that check, this is the
    negation of their first test; the asset stream of
    sign-data-hashed-embeddable is optional. *)
Definition handles_present (c : gateway_call) : bool :=
  match c with
  | ReaderFromStream f p => bool_decide (f <> None) && negb (p =? 0)
  | ReaderFromManifestDataAndStream f p d =>
      bool_decide (f <> None) && negb (p =? 0) && bool_decide (d <> None)
  | StreamRelease p
  | ReaderFree p | ReaderToJson p | ReaderToDetailedJson p | ReaderRemoteUrl p
  | ReaderIsEmbedded p | BuilderFromArchive p | BuilderFree p | BuilderSetNoEmbed p
  | SignerReserveSize p | SignerFree p => negb (p =? 0)
  | BuilderSetIntent p _ _ => negb (p =? 0)
  | ReaderResourceToStream p u sp | BuilderAddResource p u sp =>
      negb (p =? 0) && bool_decide (u <> None) && negb (sp =? 0)
  | BuilderAddAction p j | BuilderSetRemoteUrl p j =>
      negb (p =? 0) && bool_decide (j <> None)
  | BuilderAddIngredientFromStream p j f sp =>
      negb (p =? 0) && bool_decide (j <> None) && bool_decide (f <> None)
      && negb (sp =? 0)
  | BuilderToArchive p sp => negb (p =? 0) && negb (sp =? 0)
  | BuilderSign p f src dst sg =>
      negb (p =? 0) && bool_decide (f <> None) && negb (src =? 0) && negb (dst =? 0)
      && negb (sg =? 0)
  | BuilderDataHashedPlaceholder p n f =>
      negb (p =? 0) && bool_decide (f <> None) && (0 <? n)
  | BuilderSignDataHashedEmbeddable p sg h f _ =>
      negb (p =? 0) && negb (sg =? 0) && bool_decide (h <> None)
      && bool_decide (f <> None)
  end.

(** The free operations: a zero handle is "nothing to free". *)
Definition is_free (c : gateway_call) : bool :=
  match c with
  | StreamRelease _ | ReaderFree _ | BuilderFree _ | SignerFree _ => true
  | _ => false
  end.

(** The entry points whose body starts with a test of their handles. *)
Definition validates (c : gateway_call) : bool :=
  match c with
  | BuilderAddResource _ _ _ | BuilderAddIngredientFromStream _ _ _ _
  | BuilderToArchive _ _ | BuilderSignDataHashedEmbeddable _ _ _ _ _
  | SignerReserveSize _ => false
  | _ => true
  end.

Definition is_domain_failure (t : throwable) : Prop :=
  t_class t = IllegalArgumentException \/ t_class t = IllegalStateException.

(** The fourth claim as worded: with a zero handle or a missing argument,
    the operation reports a domain failure and has called no function of
    the native library. *)
Definition gateway_validates (W : world) (c : gateway_call) (s : state) : Prop :=
  handles_present c = false ->
  exists v s',
    run_gateway W c s = Some (v, s')
    /\ native_calls (added s s') = []
    /\ exists t, pending s' = Some t /\ is_domain_failure t.

(** * The rest of the bridge

    The entry points and the load hook that come next complete the
    embedding of [c2pa_jni.c]. *)

Section Coverage.

Variable W : world.

(** ** Global entry points *)

Definition Java_org_contentauth_c2pa_C2PA_version : M (option string) :=
  version <- native_str W c2pa_version [] ;;
  result <- cstring_to_jstring W version ;;
  call_native c2pa_string_free [AStr version] ;;
  ret result.

Definition Java_org_contentauth_c2pa_C2PA_getError : M (option string) :=
  error <- native_str W c2pa_error [] ;;
  result <- cstring_to_jstring W error ;;
  call_native c2pa_string_free [AStr error] ;;
  ret result.

Definition Java_org_contentauth_c2pa_C2PA_loadSettingsNative
    (settings format : option string) : M Z :=
  csettings <- jstring_to_cstring W settings ;;
  cformat <- jstring_to_cstring W format ;;
  result <- native_int W c2pa_load_settings [AStr csettings; AStr cformat] ;;
  release_cstring settings csettings ;;
  release_cstring format cformat ;;
  ret result.

(** Shared shape of [readFileNative] and [readIngredientFileNative]. *)
Definition read_file_with (f : native_fn) (path dataDir : option string)
  : M (option string) :=
  cpath <- jstring_to_cstring W path ;;
  cdataDir <- jstring_to_cstring W dataDir ;;
  result <- native_str W f [AStr cpath; AStr cdataDir] ;;
  jresult <- cstring_to_jstring W result ;;
  call_native c2pa_string_free [AStr result] ;;
  release_cstring path cpath ;;
  release_cstring dataDir cdataDir ;;
  ret jresult.

Definition Java_org_contentauth_c2pa_C2PA_readFileNative
  : option string -> option string -> M (option string) :=
  read_file_with c2pa_read_file.

Definition Java_org_contentauth_c2pa_C2PA_readIngredientFileNative
  : option string -> option string -> M (option string) :=
  read_file_with c2pa_read_ingredient_file.

(** The call [c2pa_sign_file] receives the three paths and texts, the four
    fields of the [C2paSignerInfo] record in the order [alg], [sign_cert],
    [private_key], [ta_url], and the data directory. *)
Definition Java_org_contentauth_c2pa_C2PA_signFileNative
    (sourcePath destPath manifest algorithm certificatePEM privateKeyPEM
     tsaURL dataDir : option string) : M (option string) :=
  if bool_decide (sourcePath = None) || bool_decide (destPath = None)
     || bool_decide (manifest = None) || bool_decide (algorithm = None)
     || bool_decide (certificatePEM = None) || bool_decide (privateKeyPEM = None) then
    ThrowNew IllegalArgumentException "Required parameters cannot be null" ;;
    ret None
  else
    csourcePath <- jstring_to_cstring W sourcePath ;;
    cdestPath <- jstring_to_cstring W destPath ;;
    cmanifest <- jstring_to_cstring W manifest ;;
    calgorithm <- jstring_to_cstring W algorithm ;;
    ccertificatePEM <- jstring_to_cstring W certificatePEM ;;
    cprivateKeyPEM <- jstring_to_cstring W privateKeyPEM ;;
    ctsaURL <- jstring_to_cstring W tsaURL ;;
    cdataDir <- jstring_to_cstring W dataDir ;;
    let release_all : M unit :=
      release_cstring sourcePath csourcePath ;;
      release_cstring destPath cdestPath ;;
      release_cstring manifest cmanifest ;;
      release_cstring algorithm calgorithm ;;
      release_cstring certificatePEM ccertificatePEM ;;
      release_cstring privateKeyPEM cprivateKeyPEM ;;
      release_cstring tsaURL ctsaURL ;;
      release_cstring dataDir cdataDir in
    if bool_decide (csourcePath = None) || bool_decide (cdestPath = None)
       || bool_decide (cmanifest = None) || bool_decide (calgorithm = None)
       || bool_decide (ccertificatePEM = None) || bool_decide (cprivateKeyPEM = None) then
      release_all ;;
      ret None
    else
      result <- native_str W c2pa_sign_file
                  [AStr csourcePath; AStr cdestPath; AStr cmanifest; AStr calgorithm;
                   AStr ccertificatePEM; AStr cprivateKeyPEM; AStr ctsaURL;
                   AStr cdataDir] ;;
      jresult <- cstring_to_jstring W result ;;
      call_native c2pa_string_free [AStr result] ;;
      release_all ;;
      ret jresult.

(** ** Load hook and stream creation *)

(** The four cached method IDs of the host [Stream] class
    ([g_streamReadMethod], ...; [true] for a non-[NULL] ID).  They are
    statics that only [JNI_OnLoad] writes and only [createStreamNative]
    reads: the load hook takes the values they have and returns the values
    it leaves, and stream creation takes them as an argument.  The unload
    hook does not touch them. *)
Record stream_methods : Type := MkStreamMethods {
  g_streamReadMethod : bool;
  g_streamSeekMethod : bool;
  g_streamWriteMethod : bool;
  g_streamFlushMethod : bool
}.

(** The method IDs before the library is loaded: all [NULL]. *)
Definition no_stream_methods : stream_methods :=
  MkStreamMethods false false false false.

Definition StreamClass : string := "org/contentauth/c2pa/Stream".

Definition JNI_VERSION_1_6 : Z := 65542.
Definition JNI_ERR : Z := -1.

(** The load hook.  [refs] and [methods] are the values the class
    references and the method IDs have when the hook starts ([NULL] when
    the library is loaded for the first time); the hook assigns the stream
    class reference and the four method IDs only when the [Stream] class is
    found, and the sign result class reference only when that class is
    found, and leaves them as they were otherwise.  [GetMethodID] on a
    [NULL] class is outside what JNI defines. *)
Definition JNI_OnLoad (refs : class_refs) (methods : stream_methods)
  : M (Z * class_refs * stream_methods) :=
  modify (set_g_jvm true) ;;
  status <- GetEnv W ;;
  match status with
  | JNI_OK =>
      localStreamClass <- FindClass W StreamClass ;;
      cached <-
        (if localStreamClass then
           ref <- NewGlobalRefOf W (RClass StreamClass) ;;
           s <- get ;;
           modify (set_classes (g_signResultClass s) (negb (ref =? 0))) ;;
           if ref =? 0 then undefined
           else
             r <- GetMethodID W StreamClass "read" ;;
             k <- GetMethodID W StreamClass "seek" ;;
             w <- GetMethodID W StreamClass "write" ;;
             f <- GetMethodID W StreamClass "flush" ;;
             ret (ref, MkStreamMethods r k w f)
         else ret (streamClassRef refs, methods)) ;;
      localSignResultClass <- FindClass W SignResultClass ;;
      signResultRef <-
        (if localSignResultClass then
           ref <- NewGlobalRefOf W (RClass SignResultClass) ;;
           s <- get ;;
           modify (set_classes (negb (ref =? 0)) (g_streamClass s)) ;;
           ret ref
         else ret (signResultClassRef refs)) ;;
      ret (JNI_VERSION_1_6, MkClassRefs (fst cached) signResultRef, snd cached)
  | _ => ret (JNI_ERR, refs, methods)
  end.

(** [calloc(1, sizeof(JavaStreamContext))]. *)
Definition calloc_stream_context : M Z :=
  if calloc_ok W then
    s <- get ;;
    let a := Z.pos (next_addr s) in
    modify (set_next_addr (Pos.succ (next_addr s))) ;;
    modify (fun s => set_stream_heap (<[a := MkStreamContext 0]> (stream_heap s)) s) ;;
    ret a
  else ret 0.

Definition free_stream_context (a : Z) : M unit :=
  modify (fun s => set_stream_heap (delete a (stream_heap s)) s) ;;
  log (EFree a).

(** The stream that [c2pa_create_stream] returns holds the context pointer
    it was given: that is the field [releaseStreamNative] reads back. *)
Definition Java_org_contentauth_c2pa_Stream_createStreamNative
    (methods : stream_methods) (obj : Z) : M Z :=
  ctx <- calloc_stream_context ;;
  if ctx =? 0 then
    ThrowNew OutOfMemoryError "Failed to allocate stream context" ;;
    ret 0
  else
    ref <- NewGlobalRef W obj ;;
    modify (fun s => set_stream_heap (<[ctx := MkStreamContext ref]> (stream_heap s)) s) ;;
    if ref =? 0 then
      free_stream_context ctx ;;
      check_exception ;;
      ThrowNew OutOfMemoryError "Failed to create global reference" ;;
      ret 0
    else if negb (g_streamReadMethod methods) || negb (g_streamSeekMethod methods)
            || negb (g_streamWriteMethod methods) || negb (g_streamFlushMethod methods) then
      DeleteGlobalRef ref ;;
      free_stream_context ctx ;;
      ThrowNew IllegalStateException "Stream method IDs not cached" ;;
      ret 0
    else
      stream <- native_int W c2pa_create_stream [AInt ctx] ;;
      if stream =? 0 then
        DeleteGlobalRef ref ;;
        free_stream_context ctx ;;
        ThrowNew RuntimeException "Failed to create C2PA stream" ;;
        ret 0
      else
        modify (fun s => set_streams (<[stream := ctx]> (streams s)) s) ;;
        ret stream.

(** ** Constructors that take no handle *)

Definition Java_org_contentauth_c2pa_Builder_nativeFromJson
    (manifestJson : option string) : M Z :=
  if bool_decide (manifestJson = None) then
    ThrowNew IllegalArgumentException "Manifest JSON cannot be null" ;;
    ret 0
  else
    cmanifestJson <- jstring_to_cstring W manifestJson ;;
    match cmanifestJson with
    | None => ret 0
    | Some _ =>
        builder <- native_int W c2pa_builder_from_json [AStr cmanifestJson] ;;
        release_cstring manifestJson cmanifestJson ;;
        if builder =? 0 then
          throw_c2pa_exception W "Failed to create builder from JSON" ;;
          ret 0
        else ret builder
    end.

Definition Java_org_contentauth_c2pa_Signer_nativeFromInfo
    (algorithm certificatePEM privateKeyPEM tsaURL : option string) : M Z :=
  if bool_decide (algorithm = None) || bool_decide (certificatePEM = None)
     || bool_decide (privateKeyPEM = None) then
    ThrowNew IllegalArgumentException "Required parameters cannot be null" ;;
    ret 0
  else
    calgorithm <- jstring_to_cstring W algorithm ;;
    ccertificatePEM <- jstring_to_cstring W certificatePEM ;;
    cprivateKeyPEM <- jstring_to_cstring W privateKeyPEM ;;
    ctsaURL <- jstring_to_cstring W tsaURL ;;
    let release_all : M unit :=
      release_cstring algorithm calgorithm ;;
      release_cstring certificatePEM ccertificatePEM ;;
      release_cstring privateKeyPEM cprivateKeyPEM ;;
      release_cstring tsaURL ctsaURL in
    if bool_decide (calgorithm = None) || bool_decide (ccertificatePEM = None)
       || bool_decide (cprivateKeyPEM = None) then
      release_all ;;
      ThrowNew IllegalArgumentException "Required signer info fields cannot be null" ;;
      ret 0
    else
      signer_ <- native_int W c2pa_signer_from_info
                   [AStr calgorithm; AStr ccertificatePEM; AStr cprivateKeyPEM;
                    AStr ctsaURL] ;;
      release_all ;;
      ret signer_.

End Coverage.

(** ** Vocabulary of the further properties *)

(** The C strings released in a trace, in order. *)
Definition released (t : list event) : list string :=
  omap (fun e => match e with EReleaseUTF c => Some c | _ => None end) t.

(** The strings among [args] that the host runtime pins: the non-null ones
    for which [GetStringUTFChars] succeeds. *)
Definition pinned (W : world) (args : list (option string)) : list string :=
  omap (fun a => match a with
                 | Some c => if utf_ok W c then Some c else None
                 | None => None
                 end) args.

(** How often a trace calls the library function [f]. *)
Definition count_native (f : native_fn) (t : list event) : nat :=
  length (List.filter (fun e => match e with
                                | ENative g _ => bool_decide (g = f)
                                | _ => false
                                end) t).

(** The addresses in use lie below the allocator's next address. *)
Definition allocator_fresh (s : state) : Prop :=
  forall a, Z.pos (next_addr s) <= a ->
            heap s !! a = None /\ stream_heap s !! a = None.

(** ** Vocabulary of the callback properties *)

(** The signer callback reads its context through the pointer it is given;
    the stream callbacks read nothing before they ask for the environment. *)
Definition context_live (c : callback_call) (s : state) : Prop :=
  match c with
  | CbSign ctx _ _ _ _ => is_Some (heap s !! ctx)
  | _ => True
  end.

(** The signer callback goes past its first test only on an active
    context. *)
Definition context_active (c : callback_call) (s : state) : Prop :=
  match c with
  | CbSign ctx _ _ _ _ => exists j, heap s !! ctx = Some j /\ isActive j = true
  | _ => True
  end.

(** The length argument of the three callbacks that take a buffer. *)
Definition has_length (c : callback_call) (len : Z) : Prop :=
  match c with
  | CbRead _ _ l | CbWrite _ _ l | CbSign _ _ l _ _ => l = len
  | _ => False
  end.

(** The length argument of the two stream callbacks that take a buffer; it
    is an [intptr_t], so it can be negative. *)
Definition stream_length (c : callback_call) (len : Z) : Prop :=
  match c with
  | CbRead _ _ l | CbWrite _ _ l => l = len
  | _ => False
  end.

Definition too_large : string := "Requested buffer too large for JNI".

Definition negative_size : throwable :=
  Throwable IllegalArgumentException "Array size cannot be negative".

(** The host call a stream callback makes for its arguments. *)
Definition forwarded_call (c : callback_call) : option event :=
  match c with
  | CbSeek jctx offset mode =>
      Some (EHost StreamSeek (streamObject jctx) [AInt offset; AInt mode])
  | CbWrite jctx data len =>
      Some (EHost StreamWrite (streamObject jctx)
              [ABytes (take (Z.to_nat len) data); AInt len])
  | CbFlush jctx => Some (EHost StreamFlush (streamObject jctx) [])
  | _ => None
  end.

(** The host runtime allocates the array a write callback asks for. *)
Definition array_granted (W : world) (c : callback_call) : Prop :=
  match c with
  | CbWrite _ _ len => len <= INT32_MAX /\ new_bytes_ok W len = true
  | _ => True
  end.

(** The four callbacks of a stream (all but the signer callback). *)
Definition on_stream (c : callback_call) : bool :=
  match c with
  | CbSign _ _ _ _ _ => false
  | _ => true
  end.

(** A host whose signing callback returns a two-byte signature. *)
Definition signing_host : world :=
  with_host (fun _ _ _ => HostOutcome None 0 [] (Some [Byte.x01; Byte.x02])) calm.

(** One run of the read callback on [reading_host]. *)
Definition after_read : Z * list byte * state :=
  match java_read_callback reading_host a_stream [Byte.x00; Byte.x00] 2 loaded with
  | Some r => r
  | None => (0, [], loaded)
  end.

(** One run of the signer callback on [signing_host]. *)
Definition after_signer_callback : Z * list byte * state :=
  match java_signer_callback signing_host 1 [Byte.x07] 1 (replicate 4 Byte.x00) 4
          with_signer with
  | Some r => r
  | None => (0, [], with_signer)
  end.

(** ** Vocabulary of the registry properties *)




(** The state right after the creation of the signer of [with_signer], with
    the events of the creation in its trace. *)
Definition after_creation : state :=
  match Java_org_contentauth_c2pa_Signer_nativeFromCallback creating_signers
          (Some "es256") (Some "-----BEGIN CERTIFICATE-----") None 9 loaded with
  | Some (_, s) => s
  | None => loaded
  end.

(** A signer creation that the library refuses ([calm] returns [NULL]). *)
Definition after_refused_creation : state :=
  match Java_org_contentauth_c2pa_Signer_nativeFromCallback calm
          (Some "es256") (Some "-----BEGIN CERTIFICATE-----") None 9 loaded with
  | Some (_, s) => s
  | None => loaded
  end.

(** ** Vocabulary of the stream properties *)

(** The load hook resolved all four methods of the host [Stream] class. *)
Definition methods_cached (m : stream_methods) : bool :=
  g_streamReadMethod m && g_streamSeekMethod m && g_streamWriteMethod m
  && g_streamFlushMethod m.

(** What the load hook can resolve in world [W]. *)
Definition stream_class_resolves (W : world) : bool :=
  find_class_ok W StreamClass
  && method_ok W StreamClass "read" && method_ok W StreamClass "seek"
  && method_ok W StreamClass "write" && method_ok W StreamClass "flush".

Definition methods_not_cached : throwable :=
  Throwable IllegalStateException "Stream method IDs not cached".

(** A host runtime without the [Stream] class. *)
Definition no_stream_class : world :=
  World (fun _ => true) (fun _ => true) (fun _ => true) true
        (fun c => negb (String.eqb c StreamClass))
        (fun _ _ => true) true true true true (fun _ _ _ => quiet) true true
        (fun _ _ => 0) (fun _ _ => None) (fun _ _ => None).

(** A library that creates every stream, at address [700]. *)
Definition creating_streams : world :=
  with_native (fun f _ => match f with c2pa_create_stream => 700 | _ => 0 end)
              (fun _ _ => None) (fun _ _ => None) calm.

Definition all_stream_methods : stream_methods := MkStreamMethods true true true true.

(** The state right after the creation of a stream on [loaded]. *)
Definition after_stream_creation : state :=
  match Java_org_contentauth_c2pa_Stream_createStreamNative creating_streams
          all_stream_methods 9 loaded with
  | Some (_, s) => s
  | None => loaded
  end.

(** The class references before the library is loaded: both [NULL]. *)
Definition no_class_refs : class_refs := MkClassRefs 0 0.

(** The host thread that is about to load the library: no runtime handle,
    no class cached. *)
Definition unloaded : state := set_classes false false (set_g_jvm false loaded).

(** The four method IDs the load hook leaves when the [Stream] class is
    found: each is what [GetMethodID] resolves. *)
Definition resolved_methods (W : world) : stream_methods :=
  MkStreamMethods (method_ok W StreamClass "read") (method_ok W StreamClass "seek")
    (method_ok W StreamClass "write") (method_ok W StreamClass "flush").

(** The first load on a host runtime that resolves everything. *)
Definition after_load : Z * class_refs * stream_methods * state :=
  match JNI_OnLoad calm no_class_refs no_stream_methods unloaded with
  | Some r => r
  | None => (0, no_class_refs, no_stream_methods, unloaded)
  end.

(** The first load on a host runtime without the [Stream] class. *)
Definition after_load_without_stream_class
  : Z * class_refs * stream_methods * state :=
  match JNI_OnLoad no_stream_class no_class_refs no_stream_methods unloaded with
  | Some r => r
  | None => (0, no_class_refs, no_stream_methods, unloaded)
  end.

(** The unload that follows the first load of [after_load]. *)
Definition after_unload : class_refs * state :=
  match JNI_OnUnload calm (snd (fst (fst after_load))) (snd after_load) with
  | Some r => r
  | None => (no_class_refs, unloaded)
  end.

(** A second load, on a runtime that no longer finds the [Stream] class,
    with the method IDs the first load left. *)
Definition after_reload : Z * class_refs * stream_methods * state :=
  match JNI_OnLoad no_stream_class (fst after_unload) (snd (fst after_load))
          (snd after_unload) with
  | Some r => r
  | None => (0, no_class_refs, no_stream_methods, unloaded)
  end.

(** The global references the unload hook deletes. *)
Definition class_deletions (refs : class_refs) : list event :=
  (if negb (streamClassRef refs =? 0)
   then [EDeleteGlobalRef (streamClassRef refs)] else [])
  ++ (if negb (signResultClassRef refs =? 0)
      then [EDeleteGlobalRef (signResultClassRef refs)] else []).

(** ** Vocabulary of the string and buffer properties *)

(** What [jstring_to_cstring] returns for a host string: the pinned C
    string, or [NULL] for a null string or when the runtime cannot pin. *)
Definition pin (W : world) (j : option string) : option string :=
  match j with
  | Some c => if utf_ok W c then Some c else None
  | None => None
  end.

(** What [cstring_to_jstring] returns for a C string: the host string, or
    null for [NULL] or when the runtime cannot build the string. *)
Definition host_string (W : world) (c : option string) : option string :=
  match c with
  | Some j => if new_string_ok W j then Some j else None
  | None => None
  end.

(** What is pending after [jstring_to_cstring] on [j]: a failure to pin is
    described and cleared, which clears whatever was pending. *)
Definition pending_after_pin (W : world) (j : option string)
    (p : option throwable) : option throwable :=
  match j with
  | Some c => if utf_ok W c then p else None
  | None => p
  end.

Definition is_describe (e : event) : bool :=
  match e with EDescribe _ => true | _ => false end.


(** The entry points that take no handle and check nothing. *)
Inductive global_call : Type :=
| GVersion
| GGetError
| GLoadSettings (settings format : option string)
| GReadFile (path dataDir : option string)
| GReadIngredientFile (path dataDir : option string).

Definition run_global (W : world) (c : global_call) : M jvalue :=
  match c with
  | GVersion => r <- Java_org_contentauth_c2pa_C2PA_version W ;; ret (JString r)
  | GGetError => r <- Java_org_contentauth_c2pa_C2PA_getError W ;; ret (JString r)
  | GLoadSettings settings format =>
      r <- Java_org_contentauth_c2pa_C2PA_loadSettingsNative W settings format ;;
      ret (JInt r)
  | GReadFile path dataDir =>
      r <- Java_org_contentauth_c2pa_C2PA_readFileNative W path dataDir ;;
      ret (JString r)
  | GReadIngredientFile path dataDir =>
      r <- Java_org_contentauth_c2pa_C2PA_readIngredientFileNative W path dataDir ;;
      ret (JString r)
  end.

(** The host strings a global call is given, in the order it pins them. *)
Definition global_strings (c : global_call) : list (option string) :=
  match c with
  | GVersion | GGetError => []
  | GLoadSettings a b | GReadFile a b | GReadIngredientFile a b => [a; b]
  end.

(** The library function behind a global call. *)
Definition global_native (c : global_call) : native_fn :=
  match c with
  | GVersion => c2pa_version
  | GGetError => c2pa_error
  | GLoadSettings _ _ => c2pa_load_settings
  | GReadFile _ _ => c2pa_read_file
  | GReadIngredientFile _ _ => c2pa_read_ingredient_file
  end.

(** The value a global call hands back: the library's status, or the
    library's string as a host string. *)
Definition global_result (W : world) (c : global_call) : jvalue :=
  let args := (fun j => AStr (pin W j)) <$> global_strings c in
  match c with
  | GLoadSettings _ _ => JInt (ret_int W (global_native c) args)
  | _ => JString (host_string W (ret_str W (global_native c) args))
  end.

(** The calls into the library a global call makes: the function itself on
    the pinned strings, then, where it returns a string, the release of that
    string (also of a [NULL] one). *)
Definition global_natives (W : world) (c : global_call) : list event :=
  let args := (fun j => AStr (pin W j)) <$> global_strings c in
  ENative (global_native c) args
  :: match c with
     | GLoadSettings _ _ => []
     | _ => [ENative c2pa_string_free [AStr (ret_str W (global_native c) args)]]
     end.

Definition manifest_json_null : throwable :=
  Throwable IllegalArgumentException "Manifest JSON cannot be null".

Definition manifest_data_empty : throwable :=
  Throwable IllegalArgumentException "Manifest data cannot be empty".

Definition signer_info_fields_null : throwable :=
  Throwable IllegalArgumentException "Required signer info fields cannot be null".


(** The entry points whose native call returns a manifest buffer with its
    size, with that call. *)
Definition returns_manifest (c : gateway_call) : option native_fn :=
  match c with
  | BuilderSign _ _ _ _ _ => Some c2pa_builder_sign
  | BuilderDataHashedPlaceholder _ _ _ => Some c2pa_builder_data_hashed_placeholder
  | BuilderSignDataHashedEmbeddable _ _ _ _ _ =>
      Some c2pa_builder_sign_data_hashed_embeddable
  | _ => None
  end.

(** The reader queries that return a string of the library, with their
    native call. *)
Definition reader_query (c : gateway_call) : option event :=
  match c with
  | ReaderToJson p => Some (ENative c2pa_reader_json [AInt p])
  | ReaderToDetailedJson p => Some (ENative c2pa_reader_detailed_json [AInt p])
  | ReaderRemoteUrl p => Some (ENative c2pa_reader_remote_url [AInt p])
  | _ => None
  end.


(** A library whose readers answer every query with an empty JSON object. *)
Definition answering_reader : world :=
  with_native (fun _ _ => 0) (fun _ _ => Some "{}") (fun _ _ => None) calm.

(** A library that signs with Ed25519: 64 bytes. *)
Definition ed25519_library : world :=
  with_native (fun _ _ => 0) (fun _ _ => None)
    (fun f _ => match f with
                | c2pa_ed25519_sign => Some (replicate 64 Byte.x2a)
                | _ => None
                end) calm.

(** One Builder sign of [signing_library] on [loaded]. *)
Definition sign_call : gateway_call := BuilderSign 1 (Some "image/jpeg") 2 3 4.

Definition after_sign : jvalue * state :=
  match run_gateway signing_library sign_call loaded with
  | Some r => r
  | None => (JVoid, loaded)
  end.

(** One Ed25519 signing of [ed25519_library] on [loaded]. *)
Definition after_ed25519 : option (list byte) * state :=
  match Java_org_contentauth_c2pa_C2PA_ed25519SignNative ed25519_library
          (Some [Byte.x01]) (Some "key") loaded with
  | Some r => r
  | None => (None, loaded)
  end.

(** * Properties *)

(** ** Proof tools *)

(** [simplify_eq] clears equations twice on some branches; the warning is
    noise. *)
#[local] Set Warnings "-clear-no-such-hyp".

Lemma added_app (t l : list event) : drop (length t) (t ++ l) = l.
Proof. by rewrite drop_app_length. Qed.

Ltac unfold_bridge :=
  unfold run_callback, java_read_callback, java_seek_callback, java_write_callback,
    java_flush_callback, java_signer_callback, load_context, get_jni_env, GetEnv,
    AttachCurrentThread, throw_c2pa_exception, safe_new_byte_array, NewByteArray,
    call_host, call_native, check_exception, SetByteArrayRegion, GetByteArrayRegion,
    ThrowNew, log, bind, ret, get, modify, undefined in *.

Ltac crunch :=
  repeat (simpl in *; simplify_eq; try case_match).

Ltac in_trace H :=
  unfold added in H; simpl in H;
  repeat rewrite <- app_assoc in H; rewrite ?added_app, ?drop_all in H; cbn in H;
  repeat match type of H with
         | _ ∈ [] => by apply elem_of_nil in H
         | _ ∈ _ :: _ => apply elem_of_cons in H as [H|H]; [simplify_eq|]
         end.

(** ** Failures raised inside callbacks *)

Lemma wrap32_id (z : Z) : - 2 ^ 31 <= z < 2 ^ 31 -> wrap32 z = z.
Proof.
  intros H. unfold wrap32.
  rewrite Z.mod_small by lia. lia.
Qed.

Lemma wrap32_le (z : Z) : 0 <= z -> wrap32 z <= z.
Proof.
  intros H. unfold wrap32.
  pose proof (Z.mod_le (z + 2 ^ 31) (2 ^ 32)). lia.
Qed.

Lemma wrap32_range (z : Z) : - 2 ^ 31 <= wrap32 z < 2 ^ 31.
Proof.
  unfold wrap32. pose proof (Z.mod_pos_bound (z + 2 ^ 31) (2 ^ 32)). lia.
Qed.

Ltac to_prop :=
  repeat match goal with
         | H : _ && _ = true |- _ => apply andb_true_iff in H as [? ?]
         | H : _ || _ = false |- _ => apply orb_false_iff in H as [? ?]
         | H : negb _ = true |- _ => apply negb_true_iff in H
         | H : negb _ = false |- _ => apply negb_false_iff in H
         | H : (_ <? _) = true |- _ => apply Z.ltb_lt in H
         | H : (_ <? _) = false |- _ => apply Z.ltb_ge in H
         | H : (_ <=? _) = true |- _ => apply Z.leb_le in H
         | H : (_ <=? _) = false |- _ => apply Z.leb_gt in H
         | H : (_ =? _) = true |- _ => apply Z.eqb_eq in H
         | H : (_ =? _) = false |- _ => apply Z.eqb_neq in H
         end.

Ltac unwrap :=
  unfold INT32_MAX in *;
  repeat match goal with
         | H : context [wrap32 ?z] |- _ => rewrite (wrap32_id z) in H by lia
         | |- context [wrap32 ?z] => rewrite (wrap32_id z) by lia
         end.

(** A callback whose caller keeps its side of the contract returns. *)
Lemma run_callback_defined (W : world) (c : callback_call) (s : state) :
  callback_inputs_valid c s -> is_Some (run_callback W c s).
Proof.
  intros Hv. destruct c; unfold_bridge; simpl in Hv.
  - crunch; eauto; exfalso; to_prop; unfold INT32_MAX in *.
    all: unwrap; lia.
  - crunch; eauto.
  - crunch; eauto; exfalso; to_prop; unfold INT32_MAX in *.
    all: unwrap; lia.
  - crunch; eauto.
  - destruct Hv as ([ctx Hctx] & Hlen & Hcap).
    crunch; eauto; exfalso; to_prop; unfold INT32_MAX in *.
    all: unwrap; lia.
Qed.

(** C1 (as amended): in each of the five callbacks (stream read, seek,
    write, flush and signer sign), called by a caller that keeps its side of
    the contract, the callback returns; and if the host method it invoked
    threw, the callback returns [-1] after [check_exception] has described
    and cleared the failure: nothing is pending when control returns to
    the native library. *)
Theorem callback_clears_host_failure (W : world) (c : callback_call) (s : state) :
  callback_inputs_valid c s ->
  exists r s',
    run_callback W c s = Some (r, s') /\
    forall m obj args t,
      EHost m obj args ∈ added s s' ->
      h_thrown (host W m obj args) = Some t ->
      r = -1 /\ pending s' = None /\ EDescribe t ∈ added s s'.
Proof.
  intros Hv. destruct (run_callback_defined W c s Hv) as [[r s'] Hrun].
  exists r, s'. split; [exact Hrun|].
  intros m obj args t Hin Hthrown. unfold added in *. clear Hv.
  destruct c; unfold_bridge; crunch.
  all: try (in_trace Hin; congruence).
  all: split; [reflexivity|split; [reflexivity|]].
  all: repeat rewrite <- app_assoc; rewrite added_app.
  all: in_trace Hin; set_solver.
Qed.

Lemma callback_clears_host_failure_witness :
  exists r s',
    run_callback failing_host (CbRead a_stream [Byte.x01; Byte.x02] 2) loaded
      = Some (r, s') /\
    forall m obj args t,
      EHost m obj args ∈ added loaded s' ->
      h_thrown (host failing_host m obj args) = Some t ->
      r = -1 /\ pending s' = None /\ EDescribe t ∈ added loaded s'.
Proof.
  apply (callback_clears_host_failure failing_host
           (CbRead a_stream [Byte.x01; Byte.x02] 2) loaded).
  simpl. lia.
Defined.

(** C1, counterexample: the host's [read] throws an [IOException]; the read
    callback returns [-1] with nothing pending, so the failure does not
    stay pending. *)
Lemma callback_failure_not_pending :
  ~ failure_stays_pending failing_host (CbRead a_stream [Byte.x01; Byte.x02] 2) loaded.
Proof.
  intros Hclaim.
  destruct (Hclaim (-1)
              (set_trace [EHost StreamRead 7 [ABytes [Byte.x00; Byte.x00]; AInt 2];
                          EDescribe IOException] loaded)
              StreamRead 7 [ABytes [Byte.x00; Byte.x00]; AInt 2] IOException)
    as [_ Hpending].
  - reflexivity.
  - unfold added. simpl. set_solver.
  - reflexivity.
  - discriminate Hpending.
Qed.


(** ** The count returned by the host's [read] *)

Lemma get_jni_env_frame (W : world) (s s1 : state) (b : bool) :
  get_jni_env W s = Some (b, s1) ->
  pending s1 = pending s /\ heap s1 = heap s /\ g_jvm s1 = g_jvm s
  /\ g_signerContexts s1 = g_signerContexts s.
Proof. unfold_bridge. intros H. crunch; auto. Qed.

Lemma apply_stores_length (stores : list (nat * byte)) (arr : list byte) :
  length (apply_stores stores arr) = length arr.
Proof.
  unfold apply_stores. revert arr.
  induction stores as [|p stores IH]; intros arr; simpl; [reflexivity|].
  rewrite IH. apply length_insert.
Qed.

(** C2: what the read callback does with the count [n] of the host's
    [read], once it has an environment, a fresh array of the requested
    length [len] and a host call that did not throw.  For [0 <= n <= len]
    exactly the first [n] bytes of the host array are copied to the front
    of the native buffer and [n] is returned, as claimed.  For [n] outside
    that range nothing is copied, as claimed, but the callback does not
    fail: it returns [n] as it is, so that a count above [len] reaches the
    native library as a success count. *)
Theorem read_callback_count (W : world) (jctx : JavaStreamContext)
    (data : list byte) (len : Z) (s s1 : state) :
  get_jni_env W s = Some (true, s1) ->
  pending s = None ->
  0 <= len <= INT32_MAX ->
  len <= Z.of_nat (length data) ->
  new_bytes_ok W len = true ->
  let arr := replicate (Z.to_nat len) Byte.x00 in
  let out := host W StreamRead (streamObject jctx) [ABytes arr; AInt len] in
  let n := h_long out in
  let arr' := apply_stores (h_stores out) arr in
  h_thrown out = None ->
  exists s',
    java_read_callback W jctx data len s =
      Some ((n, if decide (0 <= n <= len)
                then take (Z.to_nat n) arr' ++ drop (Z.to_nat n) data
                else data), s')
    /\ pending s' = None
    /\ (0 <= n <= len -> length (take (Z.to_nat n) arr') = Z.to_nat n).
Proof.
  intros Henv Hpend Hlen Hdata Hnew arr out n arr' Hthrown.
  destruct (get_jni_env_frame W s s1 true Henv) as (Hp1 & _).
  assert (Hw : wrap32 len = len) by (apply wrap32_id; unfold INT32_MAX in *; lia).
  assert (Harr' : length arr' = Z.to_nat len).
  { unfold arr'. rewrite apply_stores_length. unfold arr. apply length_replicate. }
  unfold java_read_callback, bind. rewrite Henv. simpl.
  replace (INT32_MAX <? len) with false by (symmetry; apply Z.ltb_ge; lia).
  unfold safe_new_byte_array, NewByteArray, bind, ret. rewrite Hw.
  replace (len <? 0) with false by (symmetry; apply Z.ltb_ge; lia).
  replace (0 <=? len) with true by (symmetry; apply Z.leb_le; lia).
  rewrite Hnew. simpl.
  unfold call_host, log, check_exception, bind, ret, modify, get. simpl.
  fold arr. fold out. rewrite Hthrown. simpl. rewrite Hp1, Hpend. simpl.
  fold n. fold arr'.
  destruct (decide (0 <= n <= len)) as [Hin|Hout].
  - destruct (Z.eq_dec n 0) as [Hz|Hnz].
    + rewrite Hz. simpl. eexists. split; [reflexivity|]. split; [simpl; congruence|].
      intros _. reflexivity.
    + replace (0 <? n) with true by (symmetry; apply Z.ltb_lt; lia).
      replace (n <=? len) with true by (symmetry; apply Z.leb_le; lia).
      simpl. unfold GetByteArrayRegion, out_of_bounds.
      rewrite (wrap32_id n) by (unfold INT32_MAX in *; lia).
      rewrite Harr'.
      replace (n <? 0) with false by (symmetry; apply Z.ltb_ge; lia).
      replace (Z.of_nat (Z.to_nat len) <? 0 + n) with false
        by (symmetry; apply Z.ltb_ge; lia).
      replace (Z.of_nat (length data) <? n) with false
        by (symmetry; apply Z.ltb_ge; lia).
      simpl. unfold ret. simpl. rewrite Hp1, Hpend. simpl.
      eexists. split; [reflexivity|]. split; [simpl; congruence|].
      intros _. rewrite length_take. lia.
  - replace ((0 <? n) && (n <=? len)) with false.
    + simpl. eexists. split; [reflexivity|]. split; [simpl; congruence|]. intros; lia.
    + symmetry. apply andb_false_iff.
      destruct (Z.ltb_spec 0 n); [right; apply Z.leb_gt; lia | left; reflexivity].
Qed.

Lemma read_callback_count_witness :
  exists s',
    java_read_callback greedy_host a_stream [Byte.x01; Byte.x02] 2 loaded =
      Some ((5, [Byte.x01; Byte.x02]), s')
    /\ pending s' = None
    /\ (0 <= 5 <= 2 -> length (take 5 [Byte.x00; Byte.x00]) = 5%nat).
Proof.
  apply (read_callback_count greedy_host a_stream [Byte.x01; Byte.x02] 2
           loaded loaded).
  - reflexivity.
  - reflexivity.
  - unfold INT32_MAX. lia.
  - simpl. lia.
  - reflexivity.
  - reflexivity.
Defined.

(** The same on a count within range: one byte is copied. *)
Example read_one_byte :
  exists s',
    java_read_callback reading_host a_stream [Byte.x01; Byte.x02] 2 loaded =
      Some ((1, [Byte.xff; Byte.x02]), s').
Proof. eexists. vm_compute. reflexivity. Qed.

(** Asked for two bytes, the host's [read] answers five; the read callback
    copies nothing and returns [5], a success count, not a failure. *)
Lemma read_count_not_checked :
  ~ read_count_checked greedy_host a_stream [Byte.x01; Byte.x02] 2 loaded.
Proof.
  intros Hclaim.
  destruct (Hclaim 5 [Byte.x01; Byte.x02]
              (set_trace [EHost StreamRead 7 [ABytes [Byte.x00; Byte.x00]; AInt 2]]
                 loaded)) as [_ Hfail].
  - reflexivity.
  - unfold added. simpl. set_solver.
  - reflexivity.
  - assert (5 < 0) by (apply Hfail; simpl; lia). lia.
Qed.

(** ** Attachment of threads *)

Lemma get_jni_env_host_thread (W : world) (s : state) :
  attached s = true ->
  exists b, get_jni_env W s = Some (b, s).
Proof.
  intros Ha. unfold_bridge.
  destruct (g_jvm s); simpl; [|eauto].
  rewrite Ha. destruct (version_ok W); simpl; eauto.
Qed.

Lemma run_thread_host_thread (W : world) (steps : list thread_step) (s : state) :
  attached s = true -> tls_marker s = false ->
  exists s', run_thread W steps s = Some (tt, s')
             /\ attached s' = true /\ tls_marker s' = false /\ trace s' = trace s.
Proof.
  revert s. induction steps as [|st rest IH]; intros s Ha Hm.
  - exists s. auto.
  - destruct st as [|b]; simpl; unfold bind.
    + destruct (get_jni_env_host_thread W s Ha) as [b Hb]. rewrite Hb. simpl.
      apply IH; assumption.
    + unfold modify. destruct (IH (set_g_jvm b s)) as (s' & Hr & ? & ? & ?); auto.
      exists s'. auto.
Qed.

(** C7: the destructor run at thread exit detaches the thread exactly when
    its value (the marker) is set and the runtime handle is present;
    [get_jni_env] sets the marker only on the path where it attached the
    thread itself; hence a thread that the host runtime owns (attached, no
    marker) keeps its attachment through any sequence of callbacks, loads
    and unloads followed by its exit: the bridge never detaches it. *)
Theorem host_thread_never_detached (W : world) (value : bool) (s0 s : state)
    (steps : list thread_step) :
  attached s = true ->
  tls_marker s = false ->
  (exists s0', thread_detach_destructor value s0 = Some (tt, s0')
               /\ ((EDetach ∈ added s0 s0') <-> (value = true /\ g_jvm s0 = true)))
  /\ (forall b s0', get_jni_env W s0 = Some (b, s0') ->
                    tls_marker s0 = false -> tls_marker s0' = true ->
                    attached s0 = false /\ added s0 s0' = [EAttach])
  /\ (exists s1 s2, run_thread W steps s = Some (tt, s1)
                    /\ thread_exit s1 = Some (tt, s2)
                    /\ (EDetach ∉ added s s2) /\ attached s2 = true).
Proof.
  intros Ha Hm. split; [|split].
  - unfold thread_detach_destructor, DetachCurrentThread.
    unfold_bridge. unfold added.
    destruct value, (g_jvm s0); simpl; eexists; (split; [reflexivity|]); simpl.
    + rewrite added_app. split; [auto|]. intros _. apply list_elem_of_singleton.
      reflexivity.
    + rewrite drop_all. split; [intros H; by apply elem_of_nil in H|].
      intros [_ H]; discriminate H.
    + rewrite drop_all. split; [intros H; by apply elem_of_nil in H|].
      intros [H _]; discriminate H.
    + rewrite drop_all. split; [intros H; by apply elem_of_nil in H|].
      intros [H _]; discriminate H.
  - intros b s0' Henv Hm0 Hm0'. unfold added. unfold_bridge.
    crunch; try congruence. rewrite added_app. auto.
  - destruct (run_thread_host_thread W steps s Ha Hm) as (s1 & Hrun & Ha1 & Hm1 & Ht1).
    exists s1, s1. split; [exact Hrun|].
    unfold thread_exit, thread_detach_destructor, bind, get, ret. rewrite Hm1.
    split; [reflexivity|]. unfold added. rewrite Ht1, drop_all.
    split; [apply not_elem_of_nil|exact Ha1].
Qed.

Lemma host_thread_never_detached_witness :
  (exists s0', thread_detach_destructor true foreign = Some (tt, s0')
               /\ ((EDetach ∈ added foreign s0') <-> (true = true /\ g_jvm foreign = true)))
  /\ (forall b s0', get_jni_env calm foreign = Some (b, s0') ->
                    tls_marker foreign = false -> tls_marker s0' = true ->
                    attached foreign = false /\ added foreign s0' = [EAttach])
  /\ (exists s1 s2,
        run_thread calm [AsksEnv; RuntimeHandle false; AsksEnv; RuntimeHandle true;
                         AsksEnv] loaded = Some (tt, s1)
        /\ thread_exit s1 = Some (tt, s2)
        /\ (EDetach ∉ added loaded s2) /\ attached s2 = true).
Proof.
  apply (host_thread_never_detached calm true foreign loaded
           [AsksEnv; RuntimeHandle false; AsksEnv; RuntimeHandle true; AsksEnv]).
  - reflexivity.
  - reflexivity.
Defined.

(** For contrast: a foreign thread that the bridge attached in a callback
    carries the marker and is detached when it exits. *)
Example foreign_thread_detached_at_exit :
  exists s1 s2,
    run_thread calm [AsksEnv] foreign = Some (tt, s1)
    /\ tls_marker s1 = true
    /\ thread_exit s1 = Some (tt, s2)
    /\ added foreign s2 = [EAttach; EDetach] /\ attached s2 = false.
Proof. do 2 eexists. repeat split. Qed.

(** ** Signer creation from a callback *)

Lemma parse_alg_accepted (calg : string) (a : C2paSigningAlg) :
  parse_alg calg = Some a <-> calg = alg_name a.
Proof.
  unfold parse_alg. split.
  - intros H. repeat case_match; simplify_eq;
      match goal with E : String.eqb _ _ = true |- _ => apply String.eqb_eq in E end;
      subst; reflexivity.
  - intros ->. destruct a; reflexivity.
Qed.

Lemma parse_alg_unknown (calg : string) :
  parse_alg calg = None <-> calg ∉ accepted_algorithms.
Proof.
  unfold parse_alg, accepted_algorithms. split.
  - intros H Hin. repeat case_match; simplify_eq.
    repeat match goal with
           | E : String.eqb _ _ = false |- _ => apply String.eqb_neq in E
           end.
    set_solver.
  - intros Hnot. repeat case_match; try reflexivity; exfalso;
      match goal with E : String.eqb _ _ = true |- _ => apply String.eqb_eq in E end;
      subst; apply Hnot; set_solver.
Qed.

Lemma accepted_alg_name (calg : string) :
  calg ∈ accepted_algorithms -> exists a, calg = alg_name a.
Proof.
  unfold accepted_algorithms. intros H.
  repeat (apply elem_of_cons in H as [H|H];
          [subst; first [by exists Es256 | by exists Es384 | by exists Es512
                        | by exists Ps256 | by exists Ps384 | by exists Ps512
                        | by exists Ed25519]|]).
  by apply elem_of_nil in H.
Qed.

Ltac unfold_signer :=
  unfold Java_org_contentauth_c2pa_Signer_nativeFromCallback, jstring_to_cstring,
    GetStringUTFChars, release_cstring, calloc_context, NewGlobalRef, NewGlobalRefOf,
    store_isActive,
    store_context, free_context, GetMethodID, DeleteGlobalRef, native_int,
    register_signer_context in *.

Ltac crunch_heap :=
  repeat (simpl in *; simplify_eq; rewrite ?lookup_insert_eq in *; try case_match).

Ltac norm_added :=
  unfold added; simpl; repeat rewrite <- app_assoc;
  rewrite ?added_app, ?drop_all; simpl.

(** C8: with the other required arguments present and the algorithm string
    readable, signer creation from a callback rejects every spelling outside
    the seven with an [IllegalArgumentException] saying "Unknown signing
    algorithm", returns [0] and has called no function of the native
    library; each of the seven spellings is mapped to its algorithm, is not
    rejected that way, and the only call into the native library is
    [c2pa_signer_create] with that algorithm.  Each of the seven is
    accepted: when the certificate chain can be pinned and the runtime
    grants the context, the global reference and the [sign] method, the
    library is asked exactly once to create a signer for the mapped
    algorithm, on the fresh context, with the certificate chain and the
    pinned timestamp URL, and what the library returns is the result. *)
Theorem signer_algorithm_spellings (W : world) (alg certs : string)
    (tsaURL : option string) (callback_ : Z) (s : state) :
  callback_ <> 0 -> utf_ok W alg = true -> pending s = None ->
  (alg ∉ accepted_algorithms ->
   exists s',
     Java_org_contentauth_c2pa_Signer_nativeFromCallback W
       (Some alg) (Some certs) tsaURL callback_ s = Some (0, s')
     /\ pending s' = Some unknown_algorithm
     /\ native_calls (added s s') = [])
  /\ (alg ∈ accepted_algorithms ->
      exists a r s',
        alg = alg_name a
        /\ Java_org_contentauth_c2pa_Signer_nativeFromCallback W
             (Some alg) (Some certs) tsaURL callback_ s = Some (r, s')
        /\ pending s' <> Some unknown_algorithm
        /\ Forall (is_signer_create a) (native_calls (added s s'))
        /\ (r <> 0 -> native_calls (added s s') <> []))
  /\ (forall a,
        alg = alg_name a ->
        utf_ok W certs = true -> calloc_ok W = true -> global_ref_ok W = true ->
        method_ok W CallbackClass "sign" = true ->
        let create :=
          [AInt (Z.pos (next_addr s)); AAlg a; AStr (Some certs);
           AStr (pin W tsaURL)] in
        exists s',
          Java_org_contentauth_c2pa_Signer_nativeFromCallback W
            (Some alg) (Some certs) tsaURL callback_ s
          = Some (ret_int W c2pa_signer_create create, s')
          /\ native_calls (added s s') = [ENative c2pa_signer_create create]
          /\ ENewGlobalRef (RObject callback_) (Z.pos (Pos.succ (next_addr s)))
               ∈ added s s').
Proof.
  intros Hcb Hutf Hpend. apply Z.eqb_neq in Hcb. split; [|split].
  - intros Hunk. apply parse_alg_unknown in Hunk.
    unfold_signer. unfold_bridge. simpl. rewrite Hcb, Hutf. simpl. rewrite Hunk. simpl.
    eexists. split; [reflexivity|]. split; [reflexivity|].
    unfold added. simpl. rewrite added_app. reflexivity.
  - intros Hacc. destruct (accepted_alg_name alg Hacc) as [a Ha]. exists a.
    pose proof Ha as Hname. apply parse_alg_accepted in Ha.
    destruct (Java_org_contentauth_c2pa_Signer_nativeFromCallback W
                (Some alg) (Some certs) tsaURL callback_ s) as [[r s']|] eqn:Hrun.
    + exists r, s'. split; [exact Hname|]. split; [reflexivity|]. clear Hname Hacc.
      unfold_signer. unfold_bridge. simpl in Hrun. rewrite Hcb, Hutf in Hrun.
      simpl in Hrun. rewrite Ha in Hrun. crunch_heap.
      all: norm_added.
      all: repeat split; try congruence.
      all: try (repeat constructor; do 3 eexists; reflexivity).
      all: try (intros _; discriminate).
      all: unfold unknown_algorithm, OutOfMemoryError, IllegalArgumentException;
        discriminate.
    + exfalso. clear Hname Hacc.
      unfold_signer. unfold_bridge. simpl in Hrun. rewrite Hcb, Hutf in Hrun.
      simpl in Hrun. rewrite Ha in Hrun. crunch_heap.
  - intros a Ha Hcerts Hcalloc Hgref Hsign create. subst create.
    apply parse_alg_accepted in Ha.
    unfold_signer. unfold_bridge. unfold pin. simpl. rewrite Hcb, Hutf. simpl.
    rewrite Ha. simpl. rewrite Hcerts. simpl.
    destruct tsaURL as [t|]; [destruct (utf_ok W t) eqn:Ht|]; simpl;
      rewrite Hcalloc; simpl; rewrite Hgref; simpl;
      repeat (rewrite lookup_insert_eq; simpl); rewrite Hsign; simpl;
      repeat (rewrite lookup_insert_eq; simpl).
    all: match goal with
         | |- context [ret_int ?w c2pa_signer_create ?args =? 0] =>
             destruct (ret_int w c2pa_signer_create args =? 0) eqn:Hr; simpl;
             [apply Z.eqb_eq in Hr; rewrite ?Hr|]
         end.
    all: try destruct (malloc_ok W); simpl.
    all: (eexists; split; [reflexivity|]); norm_added;
      (split; [reflexivity|]); set_solver.
Qed.

Lemma signer_algorithm_spellings_witness :
  let create :=
    [AInt (Z.pos (next_addr loaded)); AAlg Es256;
     AStr (Some "-----BEGIN CERTIFICATE-----"); AStr (pin creating_signers None)] in
  exists s',
    Java_org_contentauth_c2pa_Signer_nativeFromCallback creating_signers
      (Some "es256") (Some "-----BEGIN CERTIFICATE-----") None 9 loaded
    = Some (ret_int creating_signers c2pa_signer_create create, s')
    /\ native_calls (added loaded s') = [ENative c2pa_signer_create create]
    /\ ENewGlobalRef (RObject 9) (Z.pos (Pos.succ (next_addr loaded)))
         ∈ added loaded s'.
Proof.
  destruct (signer_algorithm_spellings creating_signers "es256"
              "-----BEGIN CERTIFICATE-----" None 9 loaded) as (_ & _ & Haccepts).
  - lia.
  - reflexivity.
  - reflexivity.
  - apply (Haccepts Es256); reflexivity.
Defined.

Example rs256_rejected :
  exists s',
    Java_org_contentauth_c2pa_Signer_nativeFromCallback creating_signers
      (Some "rs256") (Some "-----BEGIN CERTIFICATE-----") None 9 loaded = Some (0, s')
    /\ pending s' = Some unknown_algorithm /\ trace s' = [EReleaseUTF "rs256"].
Proof. eexists. split; [vm_compute; reflexivity|]. split; reflexivity. Qed.

Example es256_created :
  exists s',
    Java_org_contentauth_c2pa_Signer_nativeFromCallback creating_signers
      (Some "es256") (Some "-----BEGIN CERTIFICATE-----") None 9 loaded = Some (500, s')
    /\ g_signerContexts s' = [MkNode 1 500]
    /\ heap s' !! 1 = Some (MkSignerContext 2 true true).
Proof.
  eexists. split; [vm_compute; reflexivity|]. split; [reflexivity|].
  vm_compute. reflexivity.
Qed.

(** ** Ed25519 signing *)

Ltac unfold_ed25519 :=
  unfold Java_org_contentauth_c2pa_C2PA_ed25519SignNative, GetByteArrayElements,
    jstring_to_cstring, GetStringUTFChars, release_cstring in *.

(** C10 (as amended): when the data array is null or empty, the
    ed25519-sign entry point raises an [IllegalArgumentException] and
    returns null without any native call; the message is "Data and
    private key cannot be null" when the data (or the key) is null, and
    "Data cannot be empty" only when data and key are present and the data
    has length zero. *)
Theorem ed25519_rejects_missing_data (W : world) (data : option (list byte))
    (privateKey : option string) (s : state) :
  data = None \/ data = Some [] ->
  exists s',
    Java_org_contentauth_c2pa_C2PA_ed25519SignNative W data privateKey s
      = Some (None, s')
    /\ pending s' = Some (match data, privateKey with
                          | Some _, Some _ => data_cannot_be_empty
                          | _, _ => data_and_key_cannot_be_null
                          end)
    /\ native_calls (added s s') = [].
Proof.
  intros [-> | ->]; unfold_ed25519; unfold_bridge.
  - simpl. eexists. split; [reflexivity|]. split; [reflexivity|].
    unfold added. simpl. rewrite drop_all. reflexivity.
  - destruct privateKey as [k|]; simpl.
    + destruct (pending s) as [t|] eqn:Hp; simpl;
        (eexists; split; [reflexivity|]; split; [reflexivity|]); norm_added;
        reflexivity.
    + eexists. split; [reflexivity|]. split; [reflexivity|]. norm_added. reflexivity.
Qed.

Lemma ed25519_rejects_missing_data_witness :
  exists s',
    Java_org_contentauth_c2pa_C2PA_ed25519SignNative calm (Some []) (Some "key") loaded
      = Some (None, s')
    /\ pending s' = Some data_cannot_be_empty
    /\ native_calls (added loaded s') = [].
Proof.
  apply (ed25519_rejects_missing_data calm (Some []) (Some "key") loaded).
  right. reflexivity.
Defined.

(** C10, counterexample: with null data the message is "Data and private
    key cannot be null", not "Data cannot be empty". *)
Lemma null_data_has_other_message :
  ~ empty_data_rejected calm None (Some "key") loaded.
Proof.
  intros Hclaim. destruct Hclaim as (s' & Hrun & Hpending & _).
  - left. reflexivity.
  - vm_compute in Hrun. injection Hrun as <-. discriminate Hpending.
Qed.

(** C9 (as amended): provided the buffer the native library returns holds
    at least 64 bytes, the ed25519-sign entry point returns, and every
    non-null result is an array of exactly 64 bytes: the first 64 bytes of
    the native buffer.  The length of the native signature is not examined:
    whenever the library returns a buffer and the 64-byte array can be
    allocated the result is non-null; a null native signature gives a null
    result. *)
Theorem ed25519_result_64_bytes (W : world) (data : option (list byte))
    (privateKey : option string) (s : state) :
  (forall args nsig,
      ret_buf W c2pa_ed25519_sign args = Some nsig -> (64 <= length nsig)%nat) ->
  exists r s',
    Java_org_contentauth_c2pa_C2PA_ed25519SignNative W data privateKey s
      = Some (r, s')
    /\ (forall sig, r = Some sig -> length sig = 64%nat)
    /\ (forall args,
          ENative c2pa_ed25519_sign args ∈ added s s' ->
          match ret_buf W c2pa_ed25519_sign args with
          | Some nsig => new_bytes_ok W 64 = true -> r = Some (take 64 nsig)
          | None => r = None
          end).
Proof.
  intros Hbuf.
  destruct (Java_org_contentauth_c2pa_C2PA_ed25519SignNative W data privateKey s)
    as [[r s']|] eqn:Hrun.
  - exists r, s'. split; [reflexivity|].
    unfold_ed25519. unfold_bridge. crunch.
    all: split; [intros sig Hsig; simplify_eq|intros args Hin; in_trace Hin].
    all: repeat match goal with
                | E : ret_buf _ _ _ = _ |- _ =>
                    first [rewrite E | pose proof (Hbuf _ _ E); revert E]
                end; intros; try reflexivity; try congruence.
    + rewrite app_nil_r, length_take. change (Z.to_nat 64) with 64%nat. lia.
    + rewrite app_nil_r. reflexivity.
  - exfalso. unfold_ed25519. unfold_bridge. crunch.
    match goal with
    | E : ret_buf _ _ _ = _ |- _ => pose proof (Hbuf _ _ E)
    end.
    to_prop. lia.
Qed.

Lemma ed25519_result_64_bytes_witness :
  exists r s',
    Java_org_contentauth_c2pa_C2PA_ed25519SignNative long_signatures
      (Some [Byte.x68; Byte.x69]) (Some "key") loaded = Some (r, s')
    /\ (forall sig, r = Some sig -> length sig = 64%nat)
    /\ (forall args,
          ENative c2pa_ed25519_sign args ∈ added loaded s' ->
          match ret_buf long_signatures c2pa_ed25519_sign args with
          | Some nsig => new_bytes_ok long_signatures 64 = true -> r = Some (take 64 nsig)
          | None => r = None
          end).
Proof.
  apply (ed25519_result_64_bytes long_signatures (Some [Byte.x68; Byte.x69])
           (Some "key") loaded).
  intros args nsig H. simpl in H. injection H as <-. simpl. lia.
Defined.

(** C9, counterexample: the library returns a 65-byte signature; the entry
    point does not fail but answers with its first 64 bytes. *)
Lemma long_signature_not_rejected :
  ~ ed25519_length_checked long_signatures (Some [Byte.x68; Byte.x69])
      (Some "key") loaded.
Proof.
  intros Hclaim.
  destruct (Java_org_contentauth_c2pa_C2PA_ed25519SignNative long_signatures
              (Some [Byte.x68; Byte.x69]) (Some "key") loaded)
    as [[r s']|] eqn:Hrun; [|vm_compute in Hrun; discriminate Hrun].
  destruct (Hclaim r s' Hrun) as [_ Hfail].
  vm_compute in Hrun. injection Hrun as <- <-.
  discriminate (Hfail [ABytes [Byte.x68; Byte.x69]; AInt 2; AStr (Some "key")]
                  (replicate 65 Byte.x2a)).
  - unfold added. simpl. set_solver.
  - reflexivity.
  - simpl. lia.
Qed.

(** ** Builder sign *)

(** Filling a fresh array of [size] bytes from a native buffer that holds at
    least [size] bytes never fails and yields the buffer's first [size]
    bytes. *)
Lemma SetByteArrayRegion_whole (size : Z) (buf : list byte) (s : state) :
  0 <= size <= Z.of_nat (length buf) ->
  SetByteArrayRegion (replicate (Z.to_nat size) Byte.x00) 0 size buf s
  = Some (take (Z.to_nat size) buf, s).
Proof.
  intros H. unfold SetByteArrayRegion, out_of_bounds.
  rewrite length_replicate.
  replace (size <? 0) with false by (symmetry; apply Z.ltb_ge; lia).
  replace (Z.of_nat (Z.to_nat size) <? 0 + size) with false
    by (symmetry; apply Z.ltb_ge; lia).
  replace (Z.of_nat (length buf) <? size) with false
    by (symmetry; apply Z.ltb_ge; lia).
  simpl. unfold ret. f_equal. f_equal.
  rewrite drop_ge by (rewrite length_replicate; lia).
  apply app_nil_r.
Qed.

(** C6: once Builder sign has reached the native call (handles non-zero,
    format readable), its result follows the rule.  A negative size raises
    a native failure (the library's last error, or "Failed to sign builder")
    and returns no [SignResult].  A positive size with manifest bytes
    present, when the host runtime can allocate the array and construct the
    result, copies the [size] bytes into a fresh host array, frees the
    native buffer and returns [SignResult (size, array)].  A zero size
    returns [SignResult (0, null)]. *)
Theorem sign_result_rule (W : world) (builderPtr : Z) (format : string)
    (sourceStreamPtr destStreamPtr signerPtr : Z) (s : state) :
  builderPtr <> 0 -> sourceStreamPtr <> 0 -> destStreamPtr <> 0 -> signerPtr <> 0 ->
  utf_ok W format = true ->
  pending s = None ->
  let args := [AInt builderPtr; AStr (Some format); AInt sourceStreamPtr;
               AInt destStreamPtr; AInt signerPtr] in
  let size := ret_int W c2pa_builder_sign args in
  let manifestBytes := ret_buf W c2pa_builder_sign args in
  let run := Java_org_contentauth_c2pa_Builder_signNative W builderPtr (Some format)
               sourceStreamPtr destStreamPtr signerPtr s in
  (size < 0 ->
   exists s', run = Some (None, s')
              /\ pending s' = Some (native_failure W "Failed to sign builder"))
  /\ (0 < size ->
      forall bytes,
        manifestBytes = Some bytes ->
        size <= INT32_MAX -> size <= Z.of_nat (length bytes) ->
        new_bytes_ok W size = true -> sign_result_constructible W s = true ->
        exists s',
          run = Some (Some (MkSignResult size (Some (take (Z.to_nat size) bytes))), s')
          /\ pending s' = None
          /\ ENative c2pa_manifest_bytes_free [ABytes bytes] ∈ added s s')
  /\ (size = 0 ->
      sign_result_constructible W s = true ->
      exists s', run = Some (Some (MkSignResult 0 None), s') /\ pending s' = None).
Proof.
  intros Hb Hsrc Hdst Hsig Hutf Hpend args size manifestBytes run.
  apply Z.eqb_neq in Hb, Hsrc, Hdst, Hsig.
  assert (Hrun : run =
    Java_org_contentauth_c2pa_Builder_signNative W builderPtr (Some format)
               sourceStreamPtr destStreamPtr signerPtr s) by reflexivity.
  unfold Java_org_contentauth_c2pa_Builder_signNative in Hrun.
  rewrite Hb, Hsrc, Hdst, Hsig in Hrun. simpl in Hrun.
  unfold jstring_to_cstring, GetStringUTFChars, bind in Hrun. rewrite Hutf in Hrun.
  unfold native_int, call_native, release_cstring, log, bind, modify, ret in Hrun.
  simpl in Hrun. fold args in Hrun. fold size in Hrun. fold manifestBytes in Hrun.
  clearbody run size manifestBytes. clear Hb Hsrc Hdst Hsig Hutf.
  split; [|split].
  - intros Hneg. apply Z.ltb_lt in Hneg. rewrite Hneg in Hrun. subst run.
    unfold native_failure, last_error_or. unfold_bridge.
    simpl. crunch; eexists; split; reflexivity.
  - intros Hpos bytes Hbytes Hmax Hlen Hnew Hcons. subst run manifestBytes.
    replace (size <? 0) with false by (symmetry; apply Z.ltb_ge; lia).
    apply Z.ltb_lt in Hpos. rewrite Hpos.
    unfold sign_result_constructible in Hcons. to_prop.
    unfold FindClass, GetMethodID, free_manifest_bytes. unfold_bridge.
    rewrite (wrap32_id size) by (unfold INT32_MAX in *; lia). simpl.
    replace (size <? 0) with false by (symmetry; apply Z.ltb_ge; lia).
    replace (0 <=? size) with true by (symmetry; apply Z.leb_le; lia).
    rewrite Hnew. simpl.
    assert (Hclass : forall st : state,
               (if g_signResultClass s
                then fun s0 : state => Some (true, s0)
                else if find_class_ok W SignResultClass
                     then fun s0 : state => Some (true, s0)
                     else fun s0 : state =>
                            Some (false,
                                  set_pending
                                    (Some (Throwable NoClassDefFoundError SignResultClass))
                                    s0)) st = Some (true, st)).
    { intros st. destruct (g_signResultClass s); [reflexivity|].
      simpl in *. match goal with E : find_class_ok _ _ = true |- _ => rewrite E end.
      reflexivity. }
    rewrite Hclass. simpl.
    match goal with E : method_ok _ _ _ = true |- _ => rewrite E end. simpl.
    match goal with
    | |- context [(if out_of_bounds _ 0 size then _ else _) ?st] =>
        pose proof (SetByteArrayRegion_whole size bytes st ltac:(lia)) as Hset
    end.
    unfold SetByteArrayRegion in Hset. unfold_bridge. simpl in Hset.
    rewrite Hset. simpl. rewrite Hpend. simpl.
    match goal with E : new_object_ok _ = true |- _ => rewrite E end.
    eexists. split; [reflexivity|]. split; [exact Hpend|].
    norm_added. set_solver.
  - intros Hzero Hcons. subst run.
    rewrite Hzero. simpl.
    unfold sign_result_constructible in Hcons. to_prop.
    unfold FindClass, GetMethodID, free_manifest_bytes. unfold_bridge.
    rewrite andb_false_r.
    destruct (g_signResultClass s); simpl in *.
    all: repeat match goal with E : _ = true |- _ => rewrite E; clear E end; simpl.
    all: eexists; split; [reflexivity|exact Hpend].
Qed.

Lemma sign_result_rule_witness :
  exists s',
    Java_org_contentauth_c2pa_Builder_signNative signing_library 11
      (Some "image/jpeg") 12 13 14 loaded
    = Some (Some (MkSignResult 3 (Some [Byte.x0a; Byte.x0b; Byte.x0c])), s')
    /\ pending s' = None
    /\ ENative c2pa_manifest_bytes_free [ABytes [Byte.x0a; Byte.x0b; Byte.x0c]]
         ∈ added loaded s'.
Proof.
  destruct (sign_result_rule signing_library 11 "image/jpeg" 12 13 14 loaded)
    as (_ & Hpositive & _).
  - lia.
  - lia.
  - lia.
  - lia.
  - reflexivity.
  - reflexivity.
  - apply (Hpositive ltac:(simpl; lia) [Byte.x0a; Byte.x0b; Byte.x0c]).
    + reflexivity.
    + unfold INT32_MAX. simpl. lia.
    + simpl. lia.
    + reflexivity.
    + reflexivity.
Defined.

(** ** Signer registry: free and drain *)

Lemma get_jni_env_attached (W : world) (s : state) :
  attached s = true -> get_jni_env W s = Some (g_jvm s && version_ok W, s).
Proof.
  intros Ha. unfold_bridge.
  destruct (g_jvm s); simpl; [|reflexivity].
  rewrite Ha. destruct (version_ok W); reflexivity.
Qed.

Ltac unfold_registry :=
  unfold unregister_node, cleanup_node, store_isActive, store_context, free_context,
    DeleteGlobalRef, load_context, log, bind, ret, get, modify in *.

Lemma delete_insert_same (h : gmap Z JavaSignerContext) (a : Z) (c : JavaSignerContext) :
  delete a (<[a := c]> h) = delete a h.
Proof.
  apply map_eq. intros i. destruct (decide (i = a)) as [->|Hne].
  - by rewrite !lookup_delete_eq.
  - by rewrite !lookup_delete_ne, lookup_insert_ne.
Qed.

(** What [unregister_signer_context] does to a registered node whose
    context is allocated, on a thread of the host. *)
Lemma unregister_node_spec (W : world) (ctx sg : Z) (c : JavaSignerContext) (s : state) :
  ctx <> 0 -> heap s !! ctx = Some c -> attached s = true ->
  exists s',
    unregister_node W (MkNode ctx sg) s = Some (tt, s')
    /\ heap s' = delete ctx (heap s)
    /\ g_signerContexts s' = g_signerContexts s
    /\ attached s' = true /\ g_jvm s' = g_jvm s
    /\ trace s' =
         trace s ++ EStoreActive ctx false
         :: (if g_jvm s && version_ok W && negb (callback c =? 0)
             then [EDeleteGlobalRef (callback c)] else [])
         ++ [EFree ctx; EFreeNode sg].
Proof.
  intros Hctx Hheap Hatt. apply Z.eqb_neq in Hctx.
  unfold_registry. simpl. rewrite Hctx. simpl.
  rewrite Hheap. simpl. rewrite Hheap. simpl.
  rewrite get_jni_env_attached by exact Hatt. simpl.
  rewrite lookup_insert_eq. simpl.
  destruct (g_jvm s && version_ok W && negb (callback c =? 0)); simpl;
    (eexists; split; [reflexivity|]; simpl; split; [apply delete_insert_same|]);
    (split; [reflexivity|]); (split; [exact Hatt|]); (split; [reflexivity|]);
    repeat rewrite <- app_assoc; reflexivity.
Qed.

Lemma unregister_walk_spec (W : world) (sg ctx : Z) (c : JavaSignerContext)
    (pre post : list SignerContextNode) (s : state) :
  Forall (fun n => signer n <> sg) pre ->
  ctx <> 0 -> heap s !! ctx = Some c -> attached s = true ->
  exists s',
    unregister_walk W sg (pre ++ MkNode ctx sg :: post) s = Some (pre ++ post, s')
    /\ heap s' = delete ctx (heap s)
    /\ g_signerContexts s' = g_signerContexts s
    /\ trace s' =
         trace s ++ EStoreActive ctx false
         :: (if g_jvm s && version_ok W && negb (callback c =? 0)
             then [EDeleteGlobalRef (callback c)] else [])
         ++ [EFree ctx; EFreeNode sg].
Proof.
  intros Hpre Hctx Hheap Hatt.
  induction Hpre as [|n pre Hn Hpre IH]; simpl.
  - rewrite Z.eqb_refl. unfold bind.
    destruct (unregister_node_spec W ctx sg c s Hctx Hheap Hatt)
      as (s' & Hrun & Hh & Hreg & _ & _ & Hadd).
    rewrite Hrun. exists s'. auto.
  - apply Z.eqb_neq in Hn. rewrite Hn. unfold bind.
    destruct IH as (s' & Hrun & Hrest). rewrite Hrun. exists s'. auto.
Qed.

(** A signer callback that arrives on a context whose cell has been freed
    reads through a dangling pointer. *)
Lemma java_signer_callback_freed (W : world) (ctx : Z) (data : list byte) (len : Z)
    (signed_bytes : list byte) (signed_len : Z) (s : state) :
  heap s !! ctx = None ->
  java_signer_callback W ctx data len signed_bytes signed_len s = None.
Proof.
  intros H. unfold java_signer_callback, load_context, bind, get, ret. simpl.
  rewrite H. reflexivity.
Qed.

(** For contrast, what the flag achieves while the cell is still allocated:
    an inactive context makes the callback return [-1] at once, without a
    call into the host. *)
Lemma java_signer_callback_inactive (W : world) (ctx : Z) (c : JavaSignerContext)
    (data : list byte) (len : Z) (signed_bytes : list byte) (signed_len : Z) (s : state) :
  heap s !! ctx = Some c -> isActive c = false ->
  java_signer_callback W ctx data len signed_bytes signed_len s
  = Some ((-1, signed_bytes), s).
Proof.
  intros H Hact. unfold java_signer_callback, load_context, bind, get, ret. simpl.
  rewrite H. simpl. rewrite Hact. reflexivity.
Qed.

(** C5: freeing a registered signer on a host thread removes its registry
    entry, stores [isActive = false] before it drops the host reference,
    frees the context and the node and then the native signer.  Because
    the context cell itself is freed, the flag does not survive the free: a
    signer callback that arrives on that context afterwards reads freed
    memory; in the model its behaviour is undefined ([None]) instead of
    the [-1] the claim promises. *)
Theorem signer_free_then_callback (W : world) (sg ctx : Z) (c : JavaSignerContext)
    (pre post : list SignerContextNode) (s : state) :
  g_signerContexts s = pre ++ MkNode ctx sg :: post ->
  Forall (fun n => signer n <> sg) pre ->
  sg <> 0 -> ctx <> 0 -> heap s !! ctx = Some c -> attached s = true ->
  exists s',
    Java_org_contentauth_c2pa_Signer_free W sg s = Some (tt, s')
    /\ g_signerContexts s' = pre ++ post
    /\ added s s' =
         EStoreActive ctx false
         :: (if g_jvm s && version_ok W && negb (callback c =? 0)
             then [EDeleteGlobalRef (callback c)] else [])
         ++ [EFree ctx; EFreeNode sg; ENative c2pa_signer_free [AInt sg]]
    /\ heap s' !! ctx = None
    /\ forall data len signed_bytes signed_len,
         java_signer_callback W ctx data len signed_bytes signed_len s' = None.
Proof.
  intros Hreg Hpre Hsg Hctx Hheap Hatt. apply Z.eqb_neq in Hsg.
  destruct (unregister_walk_spec W sg ctx c pre post s Hpre Hctx Hheap Hatt)
    as (s1 & Hwalk & Hh & _ & Hadd).
  unfold Java_org_contentauth_c2pa_Signer_free, unregister_signer_context,
    call_native, log, bind, get, modify, ret.
  rewrite Hsg. simpl. rewrite Hreg, Hwalk. simpl.
  eexists. split; [reflexivity|]. simpl.
  assert (Hfreed : delete ctx (heap s) !! ctx = None) by apply lookup_delete_eq.
  split; [reflexivity|]. split; [|split].
  - unfold added. simpl. rewrite Hadd.
    repeat rewrite <- app_assoc. rewrite added_app. simpl.
    rewrite <- app_assoc. reflexivity.
  - rewrite Hh. exact Hfreed.
  - intros. apply java_signer_callback_freed. simpl. rewrite Hh. exact Hfreed.
Qed.

Lemma signer_free_then_callback_witness :
  exists s',
    Java_org_contentauth_c2pa_Signer_free calm 500 with_signer = Some (tt, s')
    /\ g_signerContexts s' = [] ++ []
    /\ added with_signer s' =
         EStoreActive 1 false
         :: (if g_jvm with_signer && version_ok calm
                && negb (callback (MkSignerContext 2 true true) =? 0)
             then [EDeleteGlobalRef (callback (MkSignerContext 2 true true))] else [])
         ++ [EFree 1; EFreeNode 500; ENative c2pa_signer_free [AInt 500]]
    /\ heap s' !! 1 = None
    /\ forall data len signed_bytes signed_len,
         java_signer_callback calm 1 data len signed_bytes signed_len s' = None.
Proof.
  apply (signer_free_then_callback calm 500 1 (MkSignerContext 2 true true)
           [] [] with_signer).
  - reflexivity.
  - constructor.
  - lia.
  - lia.
  - reflexivity.
  - reflexivity.
Defined.

(** The registered state is the one signer creation produces. *)
Example with_signer_from_creation :
  exists s',
    Java_org_contentauth_c2pa_Signer_nativeFromCallback creating_signers
      (Some "es256") (Some "-----BEGIN CERTIFICATE-----") None 9 loaded = Some (500, s')
    /\ g_signerContexts s' = g_signerContexts with_signer
    /\ heap s' = heap with_signer.
Proof.
  eexists. split; [vm_compute; reflexivity|]. split; [reflexivity|].
  vm_compute. reflexivity.
Qed.

Lemma flat_map_agree {A B : Type} (f g : A -> list B) (l : list A) :
  (forall a, a ∈ l -> f a = g a) -> flat_map f l = flat_map g l.
Proof.
  induction l as [|x l IH]; intros H; simpl; [reflexivity|].
  rewrite (H x) by left. rewrite IH; [reflexivity|].
  intros a Ha. apply H. by right.
Qed.

Lemma cleanup_node_spec (n : SignerContextNode) (c : JavaSignerContext) (s : state) :
  context n <> 0 -> heap s !! context n = Some c ->
  exists s',
    cleanup_node n s = Some (tt, s')
    /\ heap s' = delete (context n) (heap s)
    /\ g_signerContexts s' = g_signerContexts s
    /\ trace s' = trace s ++ drain_events (heap s) n.
Proof.
  intros Hctx Hheap. apply Z.eqb_neq in Hctx.
  unfold drain_events. unfold_registry. simpl. rewrite Hctx. simpl.
  rewrite Hheap. simpl. rewrite Hheap. simpl.
  rewrite lookup_insert_eq. simpl.
  destruct (callback c =? 0); simpl;
    (eexists; split; [reflexivity|]; simpl; split; [apply delete_insert_same|]);
    (split; [reflexivity|]); repeat rewrite <- app_assoc; reflexivity.
Qed.

Lemma cleanup_walk_spec (l : list SignerContextNode) (s : state) :
  NoDup (context <$> l) ->
  Forall (fun n => context n <> 0 /\ is_Some (heap s !! context n)) l ->
  exists s',
    cleanup_walk l s = Some (tt, s')
    /\ (forall a, heap s' !! a =
                  if decide (a ∈ context <$> l) then None else heap s !! a)
    /\ g_signerContexts s' = g_signerContexts s
    /\ trace s' = trace s ++ flat_map (drain_events (heap s)) l.
Proof.
  revert s. induction l as [|n l IH]; intros s Hnd Hall.
  - exists s. split; [reflexivity|]. split; [|split; [reflexivity|]].
    + intros a. rewrite decide_False; [reflexivity|]. apply not_elem_of_nil.
    + simpl. by rewrite app_nil_r.
  - rewrite fmap_cons in Hnd. apply NoDup_cons in Hnd as [Hfresh Hnd].
    apply Forall_cons in Hall as [[Hn [c Hc]] Hall].
    destruct (cleanup_node_spec n c s Hn Hc) as (s1 & Hrun1 & Hh1 & Hr1 & Ht1).
    assert (Hsame : forall m, m ∈ l -> heap s1 !! context m = heap s !! context m).
    { intros m Hm. rewrite Hh1. apply lookup_delete_ne.
      intros Heq. apply Hfresh. rewrite Heq. apply list_elem_of_fmap. eauto. }
    destruct (IH s1 Hnd) as (s' & Hrun & Hh & Hr & Ht).
    { apply Forall_forall. intros m Hm.
      rewrite Forall_forall in Hall. destruct (Hall m Hm) as [? ?].
      split; [assumption|]. rewrite (Hsame m Hm). assumption. }
    exists s'. simpl. unfold bind. rewrite Hrun1. split; [exact Hrun|].
    split; [|split; [congruence|]].
    + intros a. rewrite Hh, Hh1.
      destruct (decide (a = context n)) as [->|Hne].
      * rewrite lookup_delete_eq. rewrite (decide_True (P := _ ∈ _ :: _)) by left.
        by case_decide.
      * rewrite lookup_delete_ne by congruence.
        repeat case_decide; try reflexivity; exfalso.
        -- match goal with H : a ∉ _ :: _ |- _ => apply H end. by right.
        -- match goal with H : a ∈ _ :: _ |- _ =>
             apply elem_of_cons in H as [?|?]; [congruence|contradiction] end.
    + rewrite Ht, Ht1, <- app_assoc. f_equal. simpl. f_equal.
      apply flat_map_agree. intros m Hm. unfold drain_events.
      rewrite (Hsame m Hm). reflexivity.
Qed.

(** Draining the registry leaves the class flags alone. *)
Lemma cleanup_walk_classes (l : list SignerContextNode) (s s' : state) :
  cleanup_walk l s = Some (tt, s') ->
  g_streamClass s' = g_streamClass s /\ g_signResultClass s' = g_signResultClass s.
Proof.
  revert s. induction l as [|n l IH]; intros s Hrun; simpl in Hrun.
  - unfold ret in Hrun. simplify_eq. auto.
  - unfold bind in Hrun.
    destruct (cleanup_node n s) as [[[] s1]|] eqn:Hnode; [|discriminate].
    destruct (IH s1 Hrun) as [-> ->].
    clear Hrun IH. unfold_registry. crunch; auto.
Qed.

(** Library unload on a host thread drains the whole registry by the same
    steps, node after node, and then deletes the class references that are
    set; the contexts are freed here too, so a signer callback that arrives
    afterwards on any of them reads freed memory. *)
Lemma unload_then_callback (W : world) (refs : class_refs) (s : state) :
  attached s = true -> version_ok W = true -> registry_live s ->
  exists s',
    JNI_OnUnload W refs s = Some (MkClassRefs 0 0, s')
    /\ g_signerContexts s' = [] /\ g_jvm s' = false
    /\ added s s'
       = flat_map (drain_events (heap s)) (g_signerContexts s) ++ class_deletions refs
    /\ (classes_agree s refs ->
        g_streamClass s' = false /\ g_signResultClass s' = false)
    /\ forall n, n ∈ g_signerContexts s ->
         heap s' !! context n = None
         /\ forall data len signed_bytes signed_len,
              java_signer_callback W (context n) data len signed_bytes signed_len s'
              = None.
Proof.
  intros Hatt Hver [Hnd Hall].
  destruct (cleanup_walk_spec (g_signerContexts s) s Hnd Hall)
    as (s1 & Hwalk & Hh & _ & Ht).
  assert (Hfreed : forall n, n ∈ g_signerContexts s -> heap s1 !! context n = None).
  { intros n Hn. rewrite Hh. rewrite decide_True; [reflexivity|].
    apply list_elem_of_fmap. eauto. }
  destruct (cleanup_walk_classes _ _ _ Hwalk) as [Hsc1 Hsr1].
  unfold JNI_OnUnload, GetEnv, cleanup_all_signer_contexts, DeleteGlobalRef,
    class_deletions, classes_agree, log, bind, get, modify, ret.
  rewrite Hatt, Hver. simpl. rewrite Hwalk. simpl.
  destruct (streamClassRef refs =? 0) eqn:Hsc,
    (signResultClassRef refs =? 0) eqn:Hsr; simpl;
    (eexists; split; [reflexivity|]); simpl;
    (split; [reflexivity|]); (split; [reflexivity|]).
  all: split; [unfold added; simpl; rewrite Ht, <- ?app_assoc; simpl;
               rewrite ?app_nil_r; apply added_app|].
  all: split; [intros [? ?]; simpl; split; congruence|].
  all: intros n Hn; split; [by apply Hfreed|];
    intros; apply java_signer_callback_freed; simpl; by apply Hfreed.
Qed.

Example unload_drains_with_signer :
  exists s',
    JNI_OnUnload calm (MkClassRefs 600 601) with_signer = Some (MkClassRefs 0 0, s')
    /\ g_signerContexts s' = [] /\ g_jvm s' = false
    /\ trace s' = [EStoreActive 1 false; EDeleteGlobalRef 2; EFree 1; EFreeNode 500;
                   EDeleteGlobalRef 600; EDeleteGlobalRef 601]
    /\ java_signer_callback calm 1 [Byte.x01] 1 (replicate 64 Byte.x00) 64 s' = None.
Proof.
  destruct (unload_then_callback calm (MkClassRefs 600 601) with_signer)
    as (s' & Hrun & Hreg & Hjvm & Hadd & _ & Hcb).
  - reflexivity.
  - reflexivity.
  - split.
    + simpl. apply NoDup_singleton.
    + repeat constructor; simpl; [lia|]. rewrite lookup_singleton_eq. eauto.
  - exists s'. split; [exact Hrun|]. split; [exact Hreg|]. split; [exact Hjvm|].
    split.
    + unfold added in Hadd. simpl in Hadd. rewrite drop_0 in Hadd. rewrite Hadd.
      simpl. unfold drain_events. simpl. rewrite lookup_singleton_eq. reflexivity.
    + apply (Hcb (MkNode 1 500)). simpl. set_solver.
Qed.

(** ** Native failures at the entry points *)

Ltac unfold_gateway :=
  unfold run_gateway,
    Java_org_contentauth_c2pa_Stream_releaseStreamNative,
    Java_org_contentauth_c2pa_Reader_fromStreamNative,
    Java_org_contentauth_c2pa_Reader_fromManifestDataAndStreamNative,
    Java_org_contentauth_c2pa_Reader_free,
    Java_org_contentauth_c2pa_Reader_toJsonNative,
    Java_org_contentauth_c2pa_Reader_toDetailedJsonNative, reader_json_with,
    Java_org_contentauth_c2pa_Reader_remoteUrlNative,
    Java_org_contentauth_c2pa_Reader_isEmbeddedNative,
    Java_org_contentauth_c2pa_Reader_resourceToStreamNative,
    Java_org_contentauth_c2pa_Builder_nativeFromArchive,
    Java_org_contentauth_c2pa_Builder_free,
    Java_org_contentauth_c2pa_Builder_setIntentNative,
    Java_org_contentauth_c2pa_Builder_addActionNative,
    Java_org_contentauth_c2pa_Builder_setNoEmbedNative,
    Java_org_contentauth_c2pa_Builder_setRemoteUrlNative,
    Java_org_contentauth_c2pa_Builder_addResourceNative,
    Java_org_contentauth_c2pa_Builder_addIngredientFromStreamNative,
    Java_org_contentauth_c2pa_Builder_toArchiveNative,
    Java_org_contentauth_c2pa_Builder_signNative,
    Java_org_contentauth_c2pa_Builder_dataHashedPlaceholderNative,
    Java_org_contentauth_c2pa_Builder_signDataHashedEmbeddableNative,
    Java_org_contentauth_c2pa_Signer_reserveSizeNative,
    GetByteArrayElements, jstring_to_cstring, cstring_to_jstring, GetStringUTFChars,
    NewStringUTF, release_cstring, native_int, native_str, FindClass, GetMethodID,
    free_manifest_bytes in *.

Lemma gateway_failure_when_returned (W : world) (c : gateway_call) (s : state)
    (v : jvalue) (s' : state) (f : native_fn) (args : list arg) :
  pending s = None ->
  run_gateway W c s = Some (v, s') ->
  ENative f args ∈ added s s' ->
  native_failed W f args = true ->
  (forall d, raises_native_failure c = Some d ->
             pending s' = Some (native_failure W d) /\ is_null v = true)
  /\ (returns_status c = true ->
      pending s' = None /\ jvalue_int v = Some (ret_int W f args)).
Proof.
  intros Hpend Hrun Hin Hfail.
  destruct c; simpl; (split; [intros d Hd; simplify_eq|intros Hst; try discriminate Hst]).
  all: unfold native_failure, last_error_or; unfold_gateway; unfold_bridge; crunch.
  all: try (split; reflexivity).
  all: try (in_trace Hin; simpl in Hfail; to_prop; try case_bool_decide; congruence || lia).
  all: in_trace Hin; split; [assumption || reflexivity|reflexivity].
Qed.

Lemma gateway_defined (W : world) (c : gateway_call) (s : state) :
  buffers_honest W ->
  is_Some (raises_native_failure c) \/ returns_status c = true ->
  is_Some (run_gateway W c s).
Proof.
  intros Hbuf Hclass.
  destruct (run_gateway W c s) as [[v s']|] eqn:Hrun; [eauto|exfalso].
  destruct c; simpl in Hclass; destruct Hclass as [[d Hd]|Hst]; try discriminate.
  all: unfold_gateway; unfold_bridge; crunch.
  all: repeat match goal with
              | H : context [default [] (ret_buf ?w ?f ?a)] |- _ =>
                  let E := fresh "E" in
                  destruct (ret_buf w f a) eqn:E;
                  [pose proof (Hbuf _ _ _ E)|]; simpl in *
              end.
  all: to_prop; try (case_bool_decide; congruence).
  all: try (unwrap; lia).
  all: match goal with
       | H : Z.of_nat (length _) < wrap32 ?z |- _ => pose proof (wrap32_le z)
       end; lia.
Qed.

(** C3 (as amended): with nothing pending at entry and a library whose
    buffers are as long as it says, the entry points reader-from-stream,
    reader json, reader detailed-json, builder-from-archive, builder sign
    and data-hashed-placeholder return, and when their native call has
    failed they have raised a [RuntimeException] carrying the library's
    last error (or their default message) and return zero or null; the
    entry points whose result is an integer status (resource-to-stream,
    set-intent, add-action, set-remote-url, add-resource,
    add-ingredient-from-stream, to-archive, reserve-size) return, raise
    nothing on a failed native call and hand the library's status back as
    it is. *)
Theorem gateway_native_failure (W : world) (c : gateway_call) (s : state) :
  pending s = None ->
  buffers_honest W ->
  is_Some (raises_native_failure c) \/ returns_status c = true ->
  exists v s',
    run_gateway W c s = Some (v, s')
    /\ forall f args,
         ENative f args ∈ added s s' ->
         native_failed W f args = true ->
         (forall d, raises_native_failure c = Some d ->
                    pending s' = Some (native_failure W d) /\ is_null v = true)
         /\ (returns_status c = true ->
             pending s' = None /\ jvalue_int v = Some (ret_int W f args)).
Proof.
  intros Hpend Hbuf Hclass.
  destruct (gateway_defined W c s Hbuf Hclass) as [[v s'] Hrun].
  exists v, s'. split; [exact Hrun|].
  intros f args Hin Hfail.
  exact (gateway_failure_when_returned W c s v s' f args Hpend Hrun Hin Hfail).
Qed.

Lemma buffers_honest_calm : buffers_honest calm.
Proof. intros f args b H. discriminate H. Qed.

Lemma gateway_native_failure_witness :
  exists v s',
    run_gateway calm (ReaderFromStream (Some "image/jpeg") 7) loaded = Some (v, s')
    /\ forall f args,
         ENative f args ∈ added loaded s' ->
         native_failed calm f args = true ->
         (forall d, raises_native_failure (ReaderFromStream (Some "image/jpeg") 7) = Some d ->
                    pending s' = Some (native_failure calm d) /\ is_null v = true)
         /\ (returns_status (ReaderFromStream (Some "image/jpeg") 7) = true ->
             pending s' = None /\ jvalue_int v = Some (ret_int calm f args)).
Proof.
  apply (gateway_native_failure calm (ReaderFromStream (Some "image/jpeg") 7) loaded).
  - reflexivity.
  - exact buffers_honest_calm.
  - left. simpl. eauto.
Defined.

Example reader_from_stream_raises :
  run_gateway calm (ReaderFromStream (Some "image/jpeg") 7) loaded
  = Some (JLong 0,
          set_pending
            (Some (Throwable RuntimeException "Failed to create reader from stream"))
            (set_trace [ENative c2pa_reader_from_stream [AStr (Some "image/jpeg"); AInt 7];
                        EReleaseUTF "image/jpeg"; ENative c2pa_error []] loaded)).
Proof. reflexivity. Qed.

(** C3, counterexample: the library returns no reader from manifest data
    and stream, and the entry point returns [0] with nothing raised; the
    library answers [-1] to set-intent, and the entry point returns [-1]
    with nothing raised. *)
Lemma native_failure_passed_through :
  ~ native_failure_raised calm
      (ReaderFromManifestDataAndStream (Some "image/jpeg") 7 (Some [Byte.x01])) loaded
  /\ ~ native_failure_raised refusing (BuilderSetIntent 11 0 0) loaded.
Proof.
  split; intros Hclaim.
  - destruct (Hclaim (JLong 0)
                (set_trace
                   [ENative c2pa_reader_from_manifest_data_and_stream
                      [AStr (Some "image/jpeg"); AInt 7; ABytes [Byte.x01]; AInt 1];
                    EReleaseUTF "image/jpeg"] loaded)
                c2pa_reader_from_manifest_data_and_stream
                [AStr (Some "image/jpeg"); AInt 7; ABytes [Byte.x01]; AInt 1])
      as [t Ht].
    + reflexivity.
    + unfold added. simpl. apply list_elem_of_here.
    + reflexivity.
    + discriminate Ht.
  - destruct (Hclaim (JInt (-1))
                (set_trace [ENative c2pa_builder_set_intent [AInt 11; AInt 0; AInt 0]]
                   loaded)
                c2pa_builder_set_intent [AInt 11; AInt 0; AInt 0])
      as [t Ht].
    + reflexivity.
    + unfold added. simpl. apply list_elem_of_here.
    + reflexivity.
    + discriminate Ht.
Qed.

(** ** Validation of handles *)

(** C4 (as amended): every operation of the Handle Gateway that takes a
    native handle, other than add-resource, add-ingredient-from-stream,
    to-archive, sign-data-hashed-embeddable and reserve-size, tests its
    handles and needed arguments first; when a handle is zero or a needed
    argument is missing it calls no function of the native library: the
    release and free operations (stream, reader, builder, signer) do
    nothing at all, the others raise an [IllegalArgumentException] or an
    [IllegalStateException]. *)
Theorem validated_calls_stop_before_library (W : world) (c : gateway_call) (s : state) :
  validates c = true ->
  handles_present c = false ->
  exists v s',
    run_gateway W c s = Some (v, s')
    /\ native_calls (added s s') = []
    /\ (if is_free c then s' = s
        else exists t, pending s' = Some t /\ is_domain_failure t).
Proof.
  intros Hval Habs. unfold is_domain_failure.
  destruct c; try discriminate Hval; simpl in Habs; simpl;
    unfold_gateway; unfold Java_org_contentauth_c2pa_Signer_free; unfold_bridge.
  all: repeat match goal with
              | o : option _ |- _ => destruct o; simpl in Habs
              end.
  all: repeat match goal with
              | |- context [?p =? 0] =>
                  destruct (Z.eqb_spec p 0); simpl in Habs; try discriminate Habs
              end.
  all: simpl; try discriminate Habs.
  all: try (apply andb_false_iff in Habs as [Habs|Habs]; try discriminate Habs).
  all: try (apply Z.ltb_ge in Habs;
            replace (reservedSize <=? 0) with true by (symmetry; apply Z.leb_le; lia)).
  all: simpl; do 2 eexists; (split; [reflexivity|]); norm_added.
  all: split; [reflexivity|]; try reflexivity.
  all: eexists; split; [reflexivity|]; simpl; auto.
Qed.

Lemma validated_calls_stop_before_library_witness :
  exists v s',
    run_gateway calm (BuilderSetIntent 0 1 2) loaded = Some (v, s')
    /\ native_calls (added loaded s') = []
    /\ (if is_free (BuilderSetIntent 0 1 2) then s' = loaded
        else exists t, pending s' = Some t /\ is_domain_failure t).
Proof.
  apply (validated_calls_stop_before_library calm (BuilderSetIntent 0 1 2) loaded).
  - reflexivity.
  - reflexivity.
Defined.

(** The five entry points left out above do not test anything: called with
    zero handles and null arguments, they raise nothing and pass the null
    pointers straight to the native library; the first thing each does is
    the native call. *)
Lemma unvalidated_handles_reach_library (W : world) (s : state) :
  let untouched (f : native_fn) (args : list arg) :=
    set_trace (trace s ++ [ENative f args]) s in
  run_gateway W (BuilderToArchive 0 0) s
  = Some (JInt (ret_int W c2pa_builder_to_archive [AInt 0; AInt 0]),
          untouched c2pa_builder_to_archive [AInt 0; AInt 0])
  /\ run_gateway W (SignerReserveSize 0) s
     = Some (JLong (ret_int W c2pa_signer_reserve_size [AInt 0]),
             untouched c2pa_signer_reserve_size [AInt 0])
  /\ run_gateway W (BuilderAddResource 0 None 0) s
     = Some (JInt (ret_int W c2pa_builder_add_resource [AInt 0; AStr None; AInt 0]),
             untouched c2pa_builder_add_resource [AInt 0; AStr None; AInt 0])
  /\ run_gateway W (BuilderAddIngredientFromStream 0 None None 0) s
     = Some (JInt (ret_int W c2pa_builder_add_ingredient_from_stream
                     [AInt 0; AStr None; AStr None; AInt 0]),
             untouched c2pa_builder_add_ingredient_from_stream
               [AInt 0; AStr None; AStr None; AInt 0])
  /\ (forall v s',
        run_gateway W (BuilderSignDataHashedEmbeddable 0 0 None None 0) s = Some (v, s') ->
        exists rest,
          added s s' =
            ENative c2pa_builder_sign_data_hashed_embeddable
              [AInt 0; AInt 0; AStr None; AStr None; AInt 0] :: rest).
Proof.
  simpl. repeat split.
  intros v s' Hrun. unfold_gateway. unfold_bridge. crunch.
  all: eexists; norm_added; reflexivity.
Qed.

Example to_archive_zero_handles :
  run_gateway refusing (BuilderToArchive 0 0) loaded
  = Some (JInt (-1), set_trace [ENative c2pa_builder_to_archive [AInt 0; AInt 0]] loaded).
Proof. reflexivity. Qed.

Example set_intent_zero_handle :
  run_gateway refusing (BuilderSetIntent 0 0 0) loaded
  = Some (JInt (-1),
          set_pending (Some (Throwable IllegalStateException "Builder is not initialized"))
            loaded).
Proof. reflexivity. Qed.

(** C4, counterexample: freeing a reader through a zero handle reports no
    failure, it does nothing (a zero handle is "nothing to free"); and
    to-archive with zero handles reports no failure either, it calls the
    native library with them. *)
Lemma zero_handle_not_always_refused :
  ~ gateway_validates calm (ReaderFree 0) loaded
  /\ ~ gateway_validates calm (BuilderToArchive 0 0) loaded.
Proof.
  split; intros Hclaim.
  - destruct Hclaim as (v & s' & Hrun & _ & t & Ht & _); [reflexivity|].
    vm_compute in Hrun. injection Hrun as <- <-. discriminate Ht.
  - destruct Hclaim as (v & s' & Hrun & Hnone & _); [reflexivity|].
    vm_compute in Hrun. injection Hrun as <- <-. discriminate Hnone.
Qed.

(** * Further properties

    The properties below cover the rest of the bridge: the refusals and
    bounds of the callbacks, the threads the bridge attaches, the signer
    registry as an invariant, the life cycle of streams, the handling of
    host strings and of the buffers of the library, and the unload hook. *)

(** ** Callbacks: refusals and bounds *)

Lemma get_jni_env_refused (W : world) (s s' : state) :
  get_jni_env W s = Some (false, s') -> s' = s.
Proof. unfold_bridge. intros H. crunch; reflexivity. Qed.

Lemma get_jni_env_trace (W : world) (s s1 : state) (b : bool) :
  get_jni_env W s = Some (b, s1) ->
  trace s1 = trace s \/ trace s1 = trace s ++ [EAttach].
Proof. unfold_bridge. intros H. crunch; auto. Qed.

(** X1: when [get_jni_env] hands back no environment (the runtime handle is
    cleared, the thread cannot be attached, or the runtime reports a version
    error), each of the five callbacks returns [-1] and leaves the state of
    the bridge as it found it: no host method is called, nothing is raised,
    nothing is logged.  For the signer callback the context must still be
    allocated, since the callback reads its [isActive] flag first. *)
Theorem callback_without_environment (W : world) (c : callback_call) (s s0 : state) :
  get_jni_env W s = Some (false, s0) ->
  context_live c s ->
  run_callback W c s = Some (-1, s).
Proof.
  intros Henv Hlive. pose proof (get_jni_env_refused W s s0 Henv) as ->.
  destruct c; simpl in *; unfold java_read_callback, java_seek_callback,
    java_write_callback, java_flush_callback, java_signer_callback, load_context,
    bind, get, ret; simpl; rewrite ?Henv; simpl; try reflexivity.
  destruct Hlive as [j Hj]. rewrite Hj. simpl.
  destruct (isActive j); simpl; [rewrite Henv|]; reflexivity.
Qed.

Lemma callback_without_environment_witness :
  run_callback calm (CbRead a_stream [Byte.x01] 1) (set_g_jvm false loaded)
  = Some (-1, set_g_jvm false loaded).
Proof.
  apply (callback_without_environment calm (CbRead a_stream [Byte.x01] 1)
           (set_g_jvm false loaded) (set_g_jvm false loaded)).
  - reflexivity.
  - exact I.
Defined.

(** X2: the read, write and signer callbacks refuse a length above
    [INT32_MAX] once they have an environment (and, for the signer callback,
    an active context): they return [-1], call no host method, and leave a
    [RuntimeException] pending whose message is the library's last error or,
    without one, "Requested buffer too large for JNI". *)
Theorem callback_rejects_oversized_length (W : world) (c : callback_call) (len : Z)
    (s s1 : state) :
  has_length c len -> INT32_MAX < len ->
  context_active c s ->
  get_jni_env W s = Some (true, s1) ->
  exists s',
    run_callback W c s = Some (-1, s')
    /\ pending s' = Some (native_failure W too_large)
    /\ host_calls (added s s') = [].
Proof.
  intros Hlen Hbig Hact Henv. apply Z.ltb_lt in Hbig.
  assert (Hframe : trace s1 = trace s \/ trace s1 = trace s ++ [EAttach]).
  { revert Henv. unfold_bridge. intros H. crunch; auto. }
  assert (Hthrow : exists s', throw_c2pa_exception W too_large s1 = Some (tt, s')
            /\ pending s' = Some (native_failure W too_large)
            /\ host_calls (added s s') = []).
  { unfold native_failure, last_error_or. unfold_bridge. unfold added.
    destruct (ret_str W c2pa_error []) as [e|]; simpl;
      [destruct (0 <? Z.of_nat (String.length e)); simpl|];
      (eexists; split; [reflexivity|]; split; [reflexivity|]); simpl;
      destruct Hframe as [-> | ->]; repeat rewrite <- app_assoc;
      rewrite added_app; reflexivity. }
  destruct Hthrow as (s' & Hrun & Hp & Hh). exists s'.
  destruct c; simpl in Hlen; try contradiction; subst; simpl;
    unfold java_read_callback, java_write_callback, java_signer_callback,
      load_context, bind, get, ret; simpl.
  - rewrite Henv. simpl. rewrite Hbig. fold too_large. rewrite Hrun. auto.
  - rewrite Henv. simpl. rewrite Hbig. fold too_large. rewrite Hrun. auto.
  - destruct Hact as (j & Hj & Hactive). rewrite Hj. simpl. rewrite Hactive. simpl.
    rewrite Henv. simpl. rewrite Hbig. fold too_large. rewrite Hrun. auto.
Qed.

Lemma callback_rejects_oversized_length_witness :
  exists s',
    run_callback calm (CbWrite a_stream [] 2147483648) loaded = Some (-1, s')
    /\ pending s' = Some (native_failure calm too_large)
    /\ host_calls (added loaded s') = [].
Proof.
  apply (callback_rejects_oversized_length calm (CbWrite a_stream [] 2147483648)
           2147483648 loaded loaded).
  - reflexivity.
  - unfold INT32_MAX. lia.
  - exact I.
  - reflexivity.
Defined.

(** X3: the read and write callbacks take their length as an [intptr_t]; a
    negative length that fits the 32-bit [jsize] makes [safe_new_byte_array]
    raise an [IllegalArgumentException] "Array size cannot be negative", and
    the callback returns [-1] with that exception still pending: unlike the
    failures of host methods it is not described and cleared. *)
Theorem stream_callback_rejects_negative_length (W : world) (c : callback_call)
    (len : Z) (s s1 : state) :
  stream_length c len -> - 2 ^ 31 <= len < 0 ->
  get_jni_env W s = Some (true, s1) ->
  run_callback W c s = Some (-1, set_pending (Some negative_size) s1).
Proof.
  intros Hlen Hneg Henv.
  assert (Hw : wrap32 len = len) by (apply wrap32_id; lia).
  destruct c; simpl in Hlen; try contradiction; subst; simpl;
    unfold java_read_callback, java_write_callback, safe_new_byte_array, ThrowNew,
      bind, modify, ret; rewrite Henv; simpl.
  all: replace (INT32_MAX <? len) with false
         by (symmetry; apply Z.ltb_ge; unfold INT32_MAX; lia).
  all: rewrite Hw; replace (len <? 0) with true by (symmetry; apply Z.ltb_lt; lia).
  all: reflexivity.
Qed.

Lemma stream_callback_rejects_negative_length_witness :
  run_callback calm (CbRead a_stream [] (-1)) loaded
  = Some (-1, set_pending (Some negative_size) loaded).
Proof.
  apply (stream_callback_rejects_negative_length calm (CbRead a_stream [] (-1)) (-1)
           loaded loaded).
  - reflexivity.
  - lia.
  - reflexivity.
Defined.

(** X4: whenever the read callback returns, the native buffer has kept its
    length and every byte from index [len] on is untouched, and the result
    is [-1] or the count the host's [read] returned for the zeroed array of
    [(jsize)len] bytes. *)
Theorem read_callback_stays_in_bounds (W : world) (jctx : JavaStreamContext)
    (data : list byte) (len : Z) (s : state) (r : Z) (data' : list byte) (s' : state) :
  java_read_callback W jctx data len s = Some ((r, data'), s') ->
  length data' = length data
  /\ drop (Z.to_nat len) data' = drop (Z.to_nat len) data
  /\ (r = -1 \/ r = h_long (host W StreamRead (streamObject jctx)
                             [ABytes (replicate (Z.to_nat (wrap32 len)) Byte.x00);
                              AInt len])).
Proof.
  intros Hrun. unfold_bridge. crunch; auto.
  all: unfold out_of_bounds in *; to_prop.
  all: match goal with
       | H : 0 < h_long ?o |- _ =>
           assert (Hr : wrap32 (h_long o) = h_long o)
             by (apply wrap32_id; unfold INT32_MAX in *; lia);
           rewrite Hr in *
       end.
  all: rewrite drop_0 in *.
  all: split; [rewrite length_app, length_take, length_drop; lia|].
  all: split; [|auto].
  all: rewrite drop_app_ge by (rewrite length_take; lia).
  all: rewrite length_take, drop_drop; f_equal; lia.
Qed.

Lemma read_callback_stays_in_bounds_witness :
  length (snd (fst after_read)) = length [Byte.x00; Byte.x00]
  /\ drop (Z.to_nat 2) (snd (fst after_read)) = drop (Z.to_nat 2) [Byte.x00; Byte.x00]
  /\ (fst (fst after_read) = -1
      \/ fst (fst after_read)
         = h_long (host reading_host StreamRead (streamObject a_stream)
                     [ABytes (replicate (Z.to_nat (wrap32 2)) Byte.x00); AInt 2])).
Proof.
  apply (read_callback_stays_in_bounds reading_host a_stream [Byte.x00; Byte.x00] 2
           loaded (fst (fst after_read)) (snd (fst after_read)) (snd after_read)).
  vm_compute. reflexivity.
Defined.

(** X5: whenever the signer callback returns, the output buffer has kept
    its length; either the result is [-1] and the buffer is unchanged, or
    the result lies in [[0, signed_len]] and every byte of the buffer from
    that index on is unchanged: the callback never writes more than the
    capacity it was given. *)
Theorem signer_callback_stays_in_bounds (W : world) (ctx : Z) (data : list byte)
    (len : Z) (signed_bytes : list byte) (signed_len : Z) (s : state)
    (r : Z) (out : list byte) (s' : state) :
  java_signer_callback W ctx data len signed_bytes signed_len s = Some ((r, out), s') ->
  length out = length signed_bytes
  /\ (r = -1 /\ out = signed_bytes
      \/ 0 <= r <= signed_len
         /\ drop (Z.to_nat r) out = drop (Z.to_nat r) signed_bytes).
Proof.
  intros Hrun. unfold_bridge. crunch; auto.
  all: unfold out_of_bounds in *; to_prop; try lia.
  all: rewrite ?drop_0 in *.
  all: split; [rewrite length_app, length_take, length_drop; lia|].
  all: right; split; [lia|].
  all: rewrite drop_app_ge by (rewrite length_take; lia).
  all: rewrite length_take, drop_drop; f_equal; lia.
Qed.

Lemma signer_callback_stays_in_bounds_witness :
  length (snd (fst after_signer_callback)) = length (replicate 4 Byte.x00)
  /\ (fst (fst after_signer_callback) = -1
      /\ snd (fst after_signer_callback) = replicate 4 Byte.x00
      \/ 0 <= fst (fst after_signer_callback) <= 4
         /\ drop (Z.to_nat (fst (fst after_signer_callback)))
              (snd (fst after_signer_callback))
            = drop (Z.to_nat (fst (fst after_signer_callback))) (replicate 4 Byte.x00)).
Proof.
  apply (signer_callback_stays_in_bounds signing_host 1 [Byte.x07] 1
           (replicate 4 Byte.x00) 4 with_signer (fst (fst after_signer_callback))
           (snd (fst after_signer_callback)) (snd after_signer_callback)).
  vm_compute. reflexivity.
Defined.

Lemma GetByteArrayRegion_whole (arr buf : list byte) (s : state) :
  (length arr <= length buf)%nat ->
  GetByteArrayRegion arr 0 (Z.of_nat (length arr)) buf s
  = Some (arr ++ drop (length arr) buf, s).
Proof.
  intros H. unfold GetByteArrayRegion, out_of_bounds.
  replace (Z.of_nat (length arr) <? 0) with false by (symmetry; apply Z.ltb_ge; lia).
  replace (Z.of_nat (length arr) <? 0 + Z.of_nat (length arr)) with false
    by (symmetry; apply Z.ltb_ge; lia).
  replace (Z.of_nat (length buf) <? Z.of_nat (length arr)) with false
    by (symmetry; apply Z.ltb_ge; lia).
  simpl. unfold ret. rewrite Nat2Z.id, drop_0, firstn_all. reflexivity.
Qed.

(** X6: the success path of the signer callback.  On an active context,
    with an environment, nothing pending, a length within [INT32_MAX] and
    within the data buffer, and an array the runtime grants, the host's
    [sign] method receives exactly the first [len] bytes of the data; when
    it returns a signature that fits the capacity, the callback returns the
    length of the signature, the output buffer starts with the signature and
    keeps its remaining bytes, and the only event is that one host call. *)
Theorem signer_callback_delivers (W : world) (ctx : Z) (jctx : JavaSignerContext)
    (data : list byte) (len : Z) (signed_bytes : list byte) (signed_len : Z)
    (sig : list byte) (s s1 : state) :
  heap s !! ctx = Some jctx -> isActive jctx = true ->
  get_jni_env W s = Some (true, s1) -> pending s = None ->
  0 <= len <= INT32_MAX -> len <= Z.of_nat (length data) ->
  new_bytes_ok W len = true ->
  h_thrown (host W SignerSign (callback jctx) [ABytes (take (Z.to_nat len) data)]) = None ->
  h_array (host W SignerSign (callback jctx) [ABytes (take (Z.to_nat len) data)]) = Some sig ->
  Z.of_nat (length sig) <= signed_len <= Z.of_nat (length signed_bytes) ->
  java_signer_callback W ctx data len signed_bytes signed_len s
  = Some ((Z.of_nat (length sig), sig ++ drop (length sig) signed_bytes),
          set_trace (trace s1 ++ [EHost SignerSign (callback jctx)
                                    [ABytes (take (Z.to_nat len) data)]]) s1).
Proof.
  intros Hheap Hact Henv Hpend Hlen Hdata Hnew Hthrown Harr Hcap.
  destruct (get_jni_env_frame W s s1 true Henv) as (Hp1 & _).
  rewrite Hpend in Hp1.
  assert (Hw : wrap32 len = len) by (apply wrap32_id; unfold INT32_MAX in *; lia).
  unfold java_signer_callback, load_context, bind, get, ret. simpl.
  rewrite Hheap. simpl. rewrite Hact. simpl. rewrite Henv. simpl.
  replace (INT32_MAX <? len) with false by (symmetry; apply Z.ltb_ge; lia).
  rewrite Hw. unfold safe_new_byte_array, NewByteArray, bind, ret.
  replace (len <? 0) with false by (symmetry; apply Z.ltb_ge; lia).
  replace (0 <=? len) with true by (symmetry; apply Z.leb_le; lia).
  rewrite Hnew. simpl.
  rewrite SetByteArrayRegion_whole by lia.
  unfold check_exception, call_host, log, bind, get, modify, ret. simpl.
  rewrite Hp1. simpl. rewrite Hthrown. simpl. rewrite ?Hp1. simpl. rewrite Harr.
  replace (signed_len <? Z.of_nat (length sig)) with false
    by (symmetry; apply Z.ltb_ge; lia).
  rewrite GetByteArrayRegion_whole by lia.
  simpl. rewrite ?Hp1. reflexivity.
Qed.

Lemma signer_callback_delivers_witness :
  java_signer_callback signing_host 1 [Byte.x07] 1 (replicate 4 Byte.x00) 4 with_signer
  = Some ((Z.of_nat (length [Byte.x01; Byte.x02]),
           [Byte.x01; Byte.x02] ++ drop (length [Byte.x01; Byte.x02])
                                      (replicate 4 Byte.x00)),
          set_trace (trace with_signer
                     ++ [EHost SignerSign (callback (MkSignerContext 2 true true))
                           [ABytes (take (Z.to_nat 1) [Byte.x07])]]) with_signer).
Proof.
  apply (signer_callback_delivers signing_host 1 (MkSignerContext 2 true true)
           [Byte.x07] 1 (replicate 4 Byte.x00) 4 [Byte.x01; Byte.x02]
           with_signer with_signer).
  - vm_compute. reflexivity.
  - reflexivity.
  - reflexivity.
  - reflexivity.
  - unfold INT32_MAX. lia.
  - simpl. lia.
  - reflexivity.
  - reflexivity.
  - reflexivity.
  - simpl. lia.
Defined.

(** X7: the seek, write and flush callbacks forward their arguments to the
    host method unchanged (write hands over the first [len] bytes of the
    native buffer in a fresh array, with [len]); they make exactly that one
    host call, return [-1] when it threw and the host's result otherwise,
    and nothing is pending when they return. *)
Theorem stream_callback_forwards (W : world) (c : callback_call)
    (m : host_method) (obj : Z) (args : list arg) (s s1 : state) :
  forwarded_call c = Some (EHost m obj args) ->
  callback_inputs_valid c s -> array_granted W c ->
  get_jni_env W s = Some (true, s1) -> pending s = None ->
  exists s',
    run_callback W c s
    = Some (match h_thrown (host W m obj args) with
            | Some _ => -1
            | None => h_long (host W m obj args)
            end, s')
    /\ host_calls (added s s') = [EHost m obj args]
    /\ pending s' = None.
Proof.
  intros Hfwd Hvalid Hgrant Henv Hpend.
  destruct (get_jni_env_frame W s s1 true Henv) as (Hp1 & _).
  rewrite Hpend in Hp1.
  assert (Hadd : forall l, host_calls (drop (length (trace s)) (trace s1 ++ l))
                           = host_calls l).
  { intros l. destruct (get_jni_env_trace W s s1 true Henv) as [-> | ->];
      repeat rewrite <- app_assoc; rewrite added_app; reflexivity. }
  destruct c; simpl in Hfwd; simplify_eq; simpl in *.
  - unfold java_seek_callback, call_host, check_exception, log, bind, get, modify, ret.
    rewrite Henv. simpl.
    destruct (h_thrown (host W StreamSeek (streamObject jctx) [AInt offset; AInt mode]));
      simpl; rewrite ?Hp1; simpl; (eexists; split; [reflexivity|]); unfold added;
      simpl; repeat rewrite <- app_assoc; rewrite Hadd; auto.
  - destruct Hgrant as [Hmax Hnew].
    assert (Hw : wrap32 len = len) by (apply wrap32_id; unfold INT32_MAX in *; lia).
    unfold java_write_callback, bind, ret. rewrite Henv. simpl.
    replace (INT32_MAX <? len) with false by (symmetry; apply Z.ltb_ge; lia).
    rewrite Hw. unfold safe_new_byte_array, NewByteArray, bind, ret.
    replace (len <? 0) with false by (symmetry; apply Z.ltb_ge; lia).
    replace (0 <=? len) with true by (symmetry; apply Z.leb_le; lia).
    rewrite Hnew. simpl.
    rewrite SetByteArrayRegion_whole by lia.
    unfold check_exception, call_host, log, bind, get, modify, ret. simpl.
    rewrite Hp1. simpl.
    destruct (h_thrown (host W StreamWrite (streamObject jctx)
                          [ABytes (take (Z.to_nat len) data); AInt len]));
      simpl; rewrite ?Hp1; simpl; (eexists; split; [reflexivity|]); unfold added;
      simpl; repeat rewrite <- app_assoc; rewrite Hadd; auto.
  - unfold java_flush_callback, call_host, check_exception, log, bind, get, modify, ret.
    rewrite Henv. simpl.
    destruct (h_thrown (host W StreamFlush (streamObject jctx) []));
      simpl; rewrite ?Hp1; simpl; (eexists; split; [reflexivity|]); unfold added;
      simpl; repeat rewrite <- app_assoc; rewrite Hadd; auto.
Qed.

Lemma stream_callback_forwards_witness :
  exists s',
    run_callback calm (CbSeek a_stream 10 0) loaded
    = Some (match h_thrown (host calm StreamSeek 7 [AInt 10; AInt 0]) with
            | Some _ => -1
            | None => h_long (host calm StreamSeek 7 [AInt 10; AInt 0])
            end, s')
    /\ host_calls (added loaded s') = [EHost StreamSeek 7 [AInt 10; AInt 0]]
    /\ pending s' = None.
Proof.
  apply (stream_callback_forwards calm (CbSeek a_stream 10 0) StreamSeek 7
           [AInt 10; AInt 0] loaded loaded).
  - reflexivity.
  - exact I.
  - exact I.
  - reflexivity.
  - reflexivity.
Defined.

(** ** Threads the bridge attaches *)

Lemma run_step_marker (W : world) (st : thread_step) (s : state) :
  tls_marker s = attached s ->
  exists s', run_step W st s = Some (tt, s')
    /\ tls_marker s' = attached s'
    /\ (trace s' = trace s /\ attached s' = attached s
        \/ attached s = false /\ attached s' = true
           /\ trace s' = trace s ++ [EAttach]).
Proof.
  intros Hm. destruct st as [|b]; simpl.
  - unfold_bridge. destruct (g_jvm s); simpl; [|eauto 10].
    destruct (attached s) eqn:Ha; simpl.
    + destruct (version_ok W); simpl; eauto 10.
    + destruct (attach_ok W); simpl; eauto 10.
  - unfold modify. eexists. split; [reflexivity|]. simpl. auto.
Qed.

Lemma run_thread_marker (W : world) (steps : list thread_step) (s : state) :
  tls_marker s = attached s ->
  exists s', run_thread W steps s = Some (tt, s')
    /\ tls_marker s' = attached s'
    /\ (trace s' = trace s /\ attached s' = attached s
        \/ attached s = false /\ attached s' = true
           /\ trace s' = trace s ++ [EAttach]).
Proof.
  revert s. induction steps as [|st rest IH]; intros s Hm.
  - exists s. auto.
  - destruct (run_step_marker W st s Hm) as (s1 & Hrun1 & Hm1 & Hstep).
    destruct (IH s1 Hm1) as (s' & Hrun & Hm' & Hrest).
    exists s'. simpl. unfold bind. rewrite Hrun1. split; [exact Hrun|].
    split; [exact Hm'|].
    destruct Hstep as [[Ht Ha] | (Ha & Ha1 & Ht)];
      destruct Hrest as [[Ht' Ha'] | (Hb & Hb1 & Ht')]; try congruence.
    + left. split; congruence.
    + right. repeat split; congruence.
    + right. repeat split; congruence.
Qed.

(** X8: a thread the host runtime has not seen (not attached, no marker)
    is attached by the bridge at most once, however many callbacks run on it
    and however the runtime handle changes meanwhile; [AttachCurrentThread]
    is the only event.  At its exit the destructor detaches it exactly when
    the bridge attached it and the runtime handle is still present: after an
    unload (handle cleared) a thread the bridge attached stays attached. *)
Theorem foreign_thread_attached_once (W : world) (steps : list thread_step) (s : state) :
  attached s = false -> tls_marker s = false ->
  exists s' s'',
    run_thread W steps s = Some (tt, s')
    /\ thread_exit s' = Some (tt, s'')
    /\ added s s' = (if attached s' then [EAttach] else [])
    /\ added s' s'' = (if attached s' && g_jvm s' then [EDetach] else [])
    /\ attached s'' = attached s' && negb (g_jvm s').
Proof.
  intros Ha Hm.
  destruct (run_thread_marker W steps s) as (s' & Hrun & Hm' & Hrest); [congruence|].
  assert (Hadd : added s s' = (if attached s' then [EAttach] else [])).
  { unfold added. destruct Hrest as [[Ht Ha'] | (_ & Ha' & Ht)].
    - rewrite Ht, Ha', Ha. apply drop_all.
    - rewrite Ht, Ha'. apply added_app. }
  exists s'.
  unfold thread_exit, thread_detach_destructor, DetachCurrentThread, log, bind, get,
    modify, ret.
  rewrite Hm'.
  destruct (attached s') eqn:Ha'; simpl; [destruct (g_jvm s') eqn:Hj; simpl|];
    (eexists; split; [exact Hrun|]; split; [reflexivity|];
     split; [exact Hadd|]); unfold added; simpl;
    rewrite ?added_app, ?drop_all, ?Hj, ?Ha'; auto.
Qed.

Lemma foreign_thread_attached_once_witness :
  exists s' s'',
    run_thread calm [AsksEnv; RuntimeHandle false; AsksEnv] foreign = Some (tt, s')
    /\ thread_exit s' = Some (tt, s'')
    /\ added foreign s' = (if attached s' then [EAttach] else [])
    /\ added s' s'' = (if attached s' && g_jvm s' then [EDetach] else [])
    /\ attached s'' = attached s' && negb (g_jvm s').
Proof.
  apply (foreign_thread_attached_once calm [AsksEnv; RuntimeHandle false; AsksEnv] foreign);
    reflexivity.
Defined.

(** ** The signer registry as an invariant *)

Ltac heap_lookups :=
  repeat (rewrite lookup_delete_eq || rewrite lookup_insert_eq
          || (rewrite lookup_delete_ne by congruence)
          || (rewrite lookup_insert_ne by congruence)).

Lemma create_outcome (W : world) (algorithm certificateChain tsaURL : option string)
    (callback_ : Z) (s : state) (r : Z) (s' : state) :
  Java_org_contentauth_c2pa_Signer_nativeFromCallback W algorithm certificateChain
    tsaURL callback_ s = Some (r, s') ->
  heap s !! Z.pos (next_addr s) = None ->
  let ctx := Z.pos (next_addr s) in
  (next_addr s <= next_addr s')%positive
  /\ stream_heap s' = stream_heap s
  /\ (forall a, a <> ctx -> heap s' !! a = heap s !! a)
  /\ (r = 0 -> heap s' !! ctx = None /\ g_signerContexts s' = g_signerContexts s)
  /\ (r <> 0 ->
      (next_addr s < next_addr s')%positive /\
      exists ref, ref <> 0
        /\ heap s' !! ctx = Some (MkSignerContext ref true true)
        /\ g_signerContexts s' =
             (if malloc_ok W then [MkNode ctx r] else []) ++ g_signerContexts s).
Proof.
  intros Hrun Hfresh ctx. subst ctx. unfold_signer. unfold_bridge.
  crunch_heap.
  all: repeat split; try lia; try reflexivity; try (intros; heap_lookups; done).
  all: try (intros; to_prop; try lia; try congruence).
  all: eexists; split; [|split; reflexivity]; lia.
Qed.


Lemma unregister_node_live (W : world) (n : SignerContextNode) (c : JavaSignerContext)
    (s : state) :
  context n <> 0 -> heap s !! context n = Some c ->
  exists s',
    unregister_node W n s = Some (tt, s')
    /\ heap s' = delete (context n) (heap s)
    /\ g_signerContexts s' = g_signerContexts s
    /\ next_addr s' = next_addr s
    /\ stream_heap s' = stream_heap s
    /\ exists mid, trace s' = trace s ++ mid
         /\ native_calls mid = [] /\ EFree (context n) ∈ mid.
Proof.
  intros Hctx Hheap. apply Z.eqb_neq in Hctx.
  unfold_registry. unfold_bridge. simpl. rewrite Hctx. simpl.
  rewrite Hheap. simpl. rewrite Hheap. simpl.
  crunch_heap.
  all: eexists; split; [reflexivity|]; simpl; split; [apply delete_insert_same|].
  all: do 3 (split; [reflexivity|]).
  all: repeat rewrite <- app_assoc.
  all: eexists; split; [reflexivity|].
  all: simpl; split; [reflexivity|set_solver].
Qed.






(** X10: creating a signer from a callback and freeing it again is a round
    trip: when the creation returned a signer and its node could be
    allocated, [Signer.free] of that signer restores the registry and the
    heap of contexts to what they were before the creation; the context
    cell is freed, and the only call into the library is
    [c2pa_signer_free] on that signer. *)
Theorem signer_create_free_round_trip (W : world)
    (algorithm certificateChain tsaURL : option string) (callback_ : Z)
    (s s1 : state) (sg : Z) :
  allocator_fresh s -> malloc_ok W = true ->
  Java_org_contentauth_c2pa_Signer_nativeFromCallback W algorithm certificateChain
    tsaURL callback_ s = Some (sg, s1) ->
  sg <> 0 ->
  exists s2,
    Java_org_contentauth_c2pa_Signer_free W sg s1 = Some (tt, s2)
    /\ g_signerContexts s2 = g_signerContexts s
    /\ heap s2 = heap s
    /\ native_calls (added s1 s2) = [ENative c2pa_signer_free [AInt sg]]
    /\ EFree (Z.pos (next_addr s)) ∈ added s1 s2.
Proof.
  intros Hfresh Hmalloc Hrun Hsg.
  assert (Hnew : heap s !! Z.pos (next_addr s) = None) by (apply Hfresh; lia).
  destruct (create_outcome W _ _ _ _ s sg s1 Hrun Hnew)
    as (_ & _ & Hother & _ & Hnz).
  destruct (Hnz Hsg) as (_ & ref & _ & Hctx & Hreg).
  rewrite Hmalloc in Hreg. simpl in Hreg.
  destruct (unregister_node_live W (MkNode (Z.pos (next_addr s)) sg)
              (MkSignerContext ref true true) s1)
    as (s2 & Hnode & Hh & Hr & _ & _ & mid & Hmid & Hnat & Hfree);
    [simpl; lia|exact Hctx|].
  unfold Java_org_contentauth_c2pa_Signer_free, unregister_signer_context,
    call_native, log, bind, get, modify, ret.
  apply Z.eqb_neq in Hsg. rewrite Hsg. simpl. rewrite Hreg. simpl.
  rewrite Z.eqb_refl. unfold bind, ret. rewrite Hnode.
  eexists. split; [reflexivity|]. simpl. split; [reflexivity|]. split.
  - rewrite Hh. simpl. apply map_eq. intros a.
    destruct (decide (a = Z.pos (next_addr s))) as [->|Hne].
    + rewrite lookup_delete_eq. by rewrite Hnew.
    + rewrite lookup_delete_ne by congruence. by apply Hother.
  - unfold added. simpl. rewrite Hmid, <- app_assoc, added_app.
    unfold native_calls in *. rewrite List.filter_app, Hnat. simpl.
    split; [reflexivity|]. apply elem_of_app. by left.
Qed.

Lemma signer_create_free_round_trip_witness :
  exists s2,
    Java_org_contentauth_c2pa_Signer_free creating_signers 500 after_creation
    = Some (tt, s2)
    /\ g_signerContexts s2 = g_signerContexts loaded
    /\ heap s2 = heap loaded
    /\ native_calls (added after_creation s2) = [ENative c2pa_signer_free [AInt 500]]
    /\ EFree (Z.pos (next_addr loaded)) ∈ added after_creation s2.
Proof.
  apply (signer_create_free_round_trip creating_signers (Some "es256")
           (Some "-----BEGIN CERTIFICATE-----") None 9 loaded after_creation 500).
  - intros a _. split; apply lookup_empty.
  - reflexivity.
  - vm_compute. reflexivity.
  - lia.
Defined.

Lemma unregister_walk_absent (W : world) (sg : Z) (l : list SignerContextNode)
    (s : state) :
  Forall (fun n => signer n <> sg) l -> unregister_walk W sg l s = Some (l, s).
Proof.
  induction 1 as [|n l Hn Hall IH]; simpl; [reflexivity|].
  apply Z.eqb_neq in Hn. rewrite Hn. unfold bind. rewrite IH. reflexivity.
Qed.

(** X11: freeing a non-zero signer that has no node in the registry (one
    made by [nativeFromInfo], or one whose node could not be allocated)
    touches neither the registry nor any context: the only event is
    [c2pa_signer_free] on the handle. *)
Theorem signer_free_unregistered (W : world) (sg : Z) (s : state) :
  sg <> 0 -> Forall (fun n => signer n <> sg) (g_signerContexts s) ->
  exists s',
    Java_org_contentauth_c2pa_Signer_free W sg s = Some (tt, s')
    /\ added s s' = [ENative c2pa_signer_free [AInt sg]]
    /\ g_signerContexts s' = g_signerContexts s /\ heap s' = heap s
    /\ pending s' = pending s.
Proof.
  intros Hsg Hno. apply Z.eqb_neq in Hsg.
  unfold Java_org_contentauth_c2pa_Signer_free, unregister_signer_context,
    call_native, log, bind, get, modify, ret.
  rewrite Hsg. simpl. rewrite (unregister_walk_absent W sg _ s Hno).
  eexists. split; [reflexivity|]. simpl. unfold added. simpl.
  rewrite added_app. auto.
Qed.

Lemma signer_free_unregistered_witness :
  exists s',
    Java_org_contentauth_c2pa_Signer_free calm 7 with_signer = Some (tt, s')
    /\ added with_signer s' = [ENative c2pa_signer_free [AInt 7]]
    /\ g_signerContexts s' = g_signerContexts with_signer
    /\ heap s' = heap with_signer
    /\ pending s' = pending with_signer.
Proof.
  apply (signer_free_unregistered calm 7 with_signer).
  - lia.
  - repeat constructor. simpl. lia.
Defined.

(** X12: a signer creation from a callback that returns [0], for whatever
    reason (missing argument, unknown algorithm, a string that cannot be
    pinned, allocation failure, unresolved [sign] method, refusal by the
    library), leaves the heap of contexts and the registry as they were:
    the context it may have allocated has been freed again. *)
Theorem failed_signer_creation_leaks_nothing (W : world)
    (algorithm certificateChain tsaURL : option string) (callback_ : Z)
    (s s' : state) :
  heap s !! Z.pos (next_addr s) = None ->
  Java_org_contentauth_c2pa_Signer_nativeFromCallback W algorithm certificateChain
    tsaURL callback_ s = Some (0, s') ->
  heap s' = heap s /\ g_signerContexts s' = g_signerContexts s
  /\ stream_heap s' = stream_heap s.
Proof.
  intros Hnew Hrun.
  destruct (create_outcome W _ _ _ _ s 0 s' Hrun Hnew)
    as (_ & Hsh & Hother & Hzero & _).
  destruct (Hzero eq_refl) as [Hctx Hreg].
  split; [|split; assumption].
  apply map_eq. intros a.
  destruct (decide (a = Z.pos (next_addr s))) as [->|Hne]; [congruence|].
  by apply Hother.
Qed.

Lemma failed_signer_creation_leaks_nothing_witness :
  heap after_refused_creation = heap loaded
  /\ g_signerContexts after_refused_creation = g_signerContexts loaded
  /\ stream_heap after_refused_creation = stream_heap loaded.
Proof.
  apply (failed_signer_creation_leaks_nothing calm (Some "es256")
           (Some "-----BEGIN CERTIFICATE-----") None 9 loaded after_refused_creation).
  - apply lookup_empty.
  - vm_compute. reflexivity.
Defined.

(** ** Streams: the load hook, creation and release *)

Ltac unfold_stream :=
  unfold Java_org_contentauth_c2pa_Stream_createStreamNative, JNI_OnLoad,
    Java_org_contentauth_c2pa_Stream_releaseStreamNative, calloc_stream_context,
    free_stream_context, NewGlobalRef, NewGlobalRefOf, DeleteGlobalRef, native_int,
    FindClass, GetMethodID in *.

Lemma delete_insert_fresh {A : Type} (h : gmap Z A) (a : Z) (x y : A) :
  h !! a = None -> delete a (<[a := y]> (<[a := x]> h)) = h.
Proof.
  intros H. apply map_eq. intros i. destruct (decide (i = a)) as [->|Hne].
  - by rewrite lookup_delete_eq.
  - by rewrite lookup_delete_ne, !lookup_insert_ne.
Qed.

Lemma delete_insert_fresh1 {A : Type} (h : gmap Z A) (a : Z) (x : A) :
  h !! a = None -> delete a (<[a := x]> h) = h.
Proof.
  intros H. apply map_eq. intros i. destruct (decide (i = a)) as [->|Hne].
  - by rewrite lookup_delete_eq.
  - by rewrite lookup_delete_ne, !lookup_insert_ne.
Qed.

(** X13: stream creation always returns, and is all or nothing.  When it
    returns [0] an exception is pending, neither a stream context nor a
    stream remains allocated, and a global reference it took has been
    deleted again; when it returns a stream, that is the handle
    [c2pa_create_stream] returned for the fresh context, the context holds
    the fresh global reference that was taken of the host object the entry
    point was called on, nothing has been raised, and taking that reference
    and creating the stream are the only events. *)
Theorem stream_creation_all_or_nothing (W : world) (methods : stream_methods)
    (obj : Z) (s : state) :
  stream_heap s !! Z.pos (next_addr s) = None ->
  exists r s',
    Java_org_contentauth_c2pa_Stream_createStreamNative W methods obj s = Some (r, s')
    /\ heap s' = heap s
    /\ (r = 0 ->
        is_Some (pending s') /\ stream_heap s' = stream_heap s
        /\ streams s' = streams s
        /\ forall target ref,
             ENewGlobalRef target ref ∈ added s s' ->
             target = RObject obj /\ EDeleteGlobalRef ref ∈ added s s')
    /\ (r <> 0 ->
        r = ret_int W c2pa_create_stream [AInt (Z.pos (next_addr s))]
        /\ pending s' = pending s
        /\ streams s' = <[r := Z.pos (next_addr s)]> (streams s)
        /\ stream_heap s' =
             <[Z.pos (next_addr s) := MkStreamContext (Z.pos (Pos.succ (next_addr s)))]>
               (stream_heap s)
        /\ added s s' = [ENewGlobalRef (RObject obj) (Z.pos (Pos.succ (next_addr s)));
                         ENative c2pa_create_stream [AInt (Z.pos (next_addr s))]]).
Proof.
  intros Hfresh. unfold_stream. unfold_bridge.
  repeat (case_match; simpl in *; simplify_eq).
  all: eexists; eexists; (split; [reflexivity|]); simpl.
  all: split; [reflexivity|].
  all: split; intros Hr; try lia; to_prop; try lia.
  all: rewrite ?delete_insert_fresh, ?delete_insert_fresh1 by assumption.
  all: try (split; [eauto|]; split; [reflexivity|]; split; [reflexivity|];
            norm_added; intros target ref Hin;
            repeat (apply elem_of_cons in Hin as [Hin|Hin];
                    [simplify_eq; (split; [reflexivity|set_solver])|]);
            by apply elem_of_nil in Hin).
  split; [reflexivity|]; split; [reflexivity|]; split; [reflexivity|].
  split; [apply insert_insert_eq|]. norm_added; reflexivity.
Qed.

Lemma stream_creation_all_or_nothing_witness :
  exists r s',
    Java_org_contentauth_c2pa_Stream_createStreamNative creating_streams
      all_stream_methods 9 loaded = Some (r, s')
    /\ heap s' = heap loaded
    /\ (r = 0 ->
        is_Some (pending s') /\ stream_heap s' = stream_heap loaded
        /\ streams s' = streams loaded
        /\ forall target ref,
             ENewGlobalRef target ref ∈ added loaded s' ->
             target = RObject 9 /\ EDeleteGlobalRef ref ∈ added loaded s')
    /\ (r <> 0 ->
        r = ret_int creating_streams c2pa_create_stream [AInt (Z.pos (next_addr loaded))]
        /\ pending s' = pending loaded
        /\ streams s' = <[r := Z.pos (next_addr loaded)]> (streams loaded)
        /\ stream_heap s' =
             <[Z.pos (next_addr loaded) :=
                 MkStreamContext (Z.pos (Pos.succ (next_addr loaded)))]>
               (stream_heap loaded)
        /\ added loaded s' =
             [ENewGlobalRef (RObject 9) (Z.pos (Pos.succ (next_addr loaded)));
              ENative c2pa_create_stream [AInt (Z.pos (next_addr loaded))]]).
Proof.
  apply (stream_creation_all_or_nothing creating_streams all_stream_methods 9 loaded).
  apply lookup_empty.
Defined.

(** What the load hook leaves: the runtime handle, the result, and the
    method IDs, which change only when the [Stream] class is found. *)
Lemma load_outcome (W : world) (refs refs' : class_refs)
    (methods methods' : stream_methods) (s s' : state) (v : Z) :
  JNI_OnLoad W refs methods s = Some ((v, refs', methods'), s') ->
  g_jvm s' = true
  /\ v = (if attached s && version_ok W then JNI_VERSION_1_6 else JNI_ERR)
  /\ methods' = (if attached s && version_ok W && find_class_ok W StreamClass
                 then resolved_methods W else methods).
Proof.
  unfold_stream. unfold_bridge. unfold resolved_methods. intros H.
  repeat (case_match; simpl in *; simplify_eq); repeat split; reflexivity.
Qed.

(** X14: the load hook and stream creation composed.  If no complete set
    of method IDs was cached before (as on the first load) and the host
    [Stream] class or one of its four methods cannot be resolved, then
    every later stream creation with the method IDs the load hook leaves
    returns [0] without calling the library and without leaving anything
    allocated; when the context and the global reference could be created
    they are released again and the exception is an
    [IllegalStateException] "Stream method IDs not cached". *)
Theorem unresolved_stream_class_blocks_creation (W : world) (refs refs' : class_refs)
    (methods0 methods : stream_methods) (s s1 : state) (v : Z) (obj : Z)
    (s2 : state) :
  JNI_OnLoad W refs methods0 s = Some ((v, refs', methods), s1) ->
  methods_cached methods0 = false ->
  stream_class_resolves W = false ->
  stream_heap s2 !! Z.pos (next_addr s2) = None ->
  exists s3,
    Java_org_contentauth_c2pa_Stream_createStreamNative W methods obj s2 = Some (0, s3)
    /\ native_calls (added s2 s3) = []
    /\ stream_heap s3 = stream_heap s2 /\ streams s3 = streams s2
    /\ (calloc_ok W = true -> global_ref_ok W = true ->
        pending s3 = Some methods_not_cached
        /\ added s2 s3 = [ENewGlobalRef (RObject obj) (Z.pos (Pos.succ (next_addr s2)));
                          EDeleteGlobalRef (Z.pos (Pos.succ (next_addr s2)));
                          EFree (Z.pos (next_addr s2))]).
Proof.
  intros Hload Hbefore Hres Hfresh.
  destruct (load_outcome W refs refs' methods0 methods s s1 v Hload) as (_ & _ & Hm).
  assert (Hnot : methods_cached methods = false).
  { rewrite Hm. destruct (attached s && version_ok W && find_class_ok W StreamClass)
      eqn:Hfound; [|exact Hbefore].
    apply andb_true_iff in Hfound as [_ Hfound].
    unfold stream_class_resolves in Hres. rewrite Hfound in Hres.
    unfold methods_cached, resolved_methods. simpl. exact Hres. }
  clear Hload Hm. unfold methods_cached in Hnot. unfold_stream. unfold_bridge.
  destruct methods as [[] [] [] []]; simpl in Hnot; try discriminate.
  all: repeat (case_match; simpl in *; simplify_eq).
  all: eexists; (split; [reflexivity|]); simpl.
  all: norm_added.
  all: rewrite ?delete_insert_fresh, ?delete_insert_fresh1 by assumption.
  all: repeat split; try reflexivity; try congruence.
Qed.

Lemma unresolved_stream_class_blocks_creation_witness :
  exists s3,
    Java_org_contentauth_c2pa_Stream_createStreamNative no_stream_class
      (snd (fst after_load_without_stream_class)) 9 loaded = Some (0, s3)
    /\ native_calls (added loaded s3) = []
    /\ stream_heap s3 = stream_heap loaded /\ streams s3 = streams loaded
    /\ (calloc_ok no_stream_class = true -> global_ref_ok no_stream_class = true ->
        pending s3 = Some methods_not_cached
        /\ added loaded s3
           = [ENewGlobalRef (RObject 9) (Z.pos (Pos.succ (next_addr loaded)));
              EDeleteGlobalRef (Z.pos (Pos.succ (next_addr loaded)));
              EFree (Z.pos (next_addr loaded))]).
Proof.
  apply (unresolved_stream_class_blocks_creation no_stream_class no_class_refs
           (snd (fst (fst after_load_without_stream_class))) no_stream_methods
           (snd (fst after_load_without_stream_class)) unloaded
           (snd after_load_without_stream_class)
           (fst (fst (fst after_load_without_stream_class))) 9 loaded).
  - vm_compute. reflexivity.
  - reflexivity.
  - reflexivity.
  - apply lookup_empty.
Defined.

(** For contrast, the method IDs outlive an unload: after a load that
    resolved everything, an unload, and a second load on a runtime that no
    longer finds the [Stream] class, the four IDs of the first load are
    still cached and a stream creation goes through to the library. *)
Example stale_method_ids_survive_reload :
  snd (fst after_reload) = all_stream_methods
  /\ streamClassRef (snd (fst (fst after_reload))) = 0
  /\ exists r s',
       Java_org_contentauth_c2pa_Stream_createStreamNative no_stream_class
         (snd (fst after_reload)) 9 (snd after_reload) = Some (r, s')
       /\ native_calls (added (snd after_reload) s')
          = [ENative c2pa_create_stream [AInt (Z.pos (next_addr (snd after_reload)))]].
Proof.
  split; [vm_compute; reflexivity|]. split; [vm_compute; reflexivity|].
  eexists. eexists. split; [vm_compute; reflexivity|]. vm_compute. reflexivity.
Qed.

(** X15: creating a stream and releasing it is a round trip: releasing the
    handle that creation returned deletes the global reference of the host
    object, frees the context, calls [c2pa_release_stream] on the handle,
    in that order, and leaves the stream contexts and the streams as they
    were before the creation. *)
Theorem stream_create_release_round_trip (W : world) (methods : stream_methods)
    (obj : Z) (s s1 : state) (stream : Z) :
  stream_heap s !! Z.pos (next_addr s) = None ->
  streams s !! stream = None ->
  Java_org_contentauth_c2pa_Stream_createStreamNative W methods obj s
    = Some (stream, s1) ->
  stream <> 0 ->
  exists s2,
    Java_org_contentauth_c2pa_Stream_releaseStreamNative stream s1 = Some (tt, s2)
    /\ streams s2 = streams s /\ stream_heap s2 = stream_heap s
    /\ added s1 s2 = [EDeleteGlobalRef (Z.pos (Pos.succ (next_addr s)));
                      EFree (Z.pos (next_addr s));
                      ENative c2pa_release_stream [AInt stream]].
Proof.
  intros Hfresh Hnew Hrun Hnz.
  unfold Java_org_contentauth_c2pa_Stream_createStreamNative, calloc_stream_context,
    free_stream_context, NewGlobalRef, NewGlobalRefOf, DeleteGlobalRef, native_int
    in Hrun.
  unfold_bridge. crunch; try congruence.
  unfold Java_org_contentauth_c2pa_Stream_releaseStreamNative, call_native, log,
    bind, get, modify, ret.
  match goal with H : (_ =? 0) = false |- _ => rewrite H end. simpl.
  rewrite lookup_insert_eq. simpl. rewrite lookup_insert_eq. simpl.
  eexists. split; [reflexivity|]. simpl.
  rewrite insert_insert_eq, !delete_insert_fresh1 by assumption.
  split; [reflexivity|]. split; [reflexivity|].
  unfold added. simpl.
  rewrite <- (app_assoc _ [EFree _]), <- (app_assoc _ [EDeleteGlobalRef _]).
  apply added_app.
Qed.

Lemma stream_create_release_round_trip_witness :
  exists s2,
    Java_org_contentauth_c2pa_Stream_releaseStreamNative 700 after_stream_creation
    = Some (tt, s2)
    /\ streams s2 = streams loaded /\ stream_heap s2 = stream_heap loaded
    /\ added after_stream_creation s2 =
         [EDeleteGlobalRef (Z.pos (Pos.succ (next_addr loaded)));
          EFree (Z.pos (next_addr loaded));
          ENative c2pa_release_stream [AInt 700]].
Proof.
  apply (stream_create_release_round_trip creating_streams all_stream_methods 9
           loaded after_stream_creation 700).
  - apply lookup_empty.
  - apply lookup_empty.
  - vm_compute. reflexivity.
  - lia.
Defined.

(** X16: the load hook records the runtime handle in every case.  It
    returns [JNI_ERR] exactly when the loading thread has no environment,
    and then changes nothing else: class references, method IDs, flags and
    what is pending stay as they were and nothing is logged.  Otherwise it
    returns [JNI_VERSION_1_6], also when classes or methods are missing;
    the four stream method IDs are assigned what [GetMethodID] resolves
    when the [Stream] class is found and keep their previous values when it
    is not; each class reference keeps its previous value when its class is
    not found; and the flags of the state keep telling whether the
    references are set. *)
Theorem load_succeeds_without_classes (W : world) (refs refs' : class_refs)
    (methods methods' : stream_methods) (s s' : state) (v : Z) :
  JNI_OnLoad W refs methods s = Some ((v, refs', methods'), s') ->
  g_jvm s' = true
  /\ v = (if attached s && version_ok W then JNI_VERSION_1_6 else JNI_ERR)
  /\ methods' = (if attached s && version_ok W && find_class_ok W StreamClass
                 then resolved_methods W else methods)
  /\ (v = JNI_ERR ->
      refs' = refs /\ methods' = methods /\ g_streamClass s' = g_streamClass s
      /\ g_signResultClass s' = g_signResultClass s /\ pending s' = pending s
      /\ added s s' = [])
  /\ (find_class_ok W StreamClass = false ->
      streamClassRef refs' = streamClassRef refs
      /\ g_streamClass s' = g_streamClass s)
  /\ (find_class_ok W SignResultClass = false ->
      signResultClassRef refs' = signResultClassRef refs
      /\ g_signResultClass s' = g_signResultClass s)
  /\ (classes_agree s refs -> classes_agree s' refs').
Proof.
  intros Hload.
  destruct (load_outcome W refs refs' methods methods' s s' v Hload) as (Hj & Hv & Hm).
  split; [exact Hj|]. split; [exact Hv|]. split; [exact Hm|].
  clear Hj Hv Hm. revert Hload. unfold classes_agree, JNI_VERSION_1_6, JNI_ERR.
  unfold_stream. unfold_bridge. intros H.
  repeat (case_match; simpl in *; simplify_eq).
  all: repeat split; try reflexivity; try discriminate; try congruence.
  all: try (unfold added; simpl; apply drop_all).
  all: try (intros [? ?]; split; simpl; congruence).
  all: tauto.
Qed.

Lemma load_succeeds_without_classes_witness :
  g_jvm (snd after_load) = true
  /\ fst (fst (fst after_load))
     = (if attached unloaded && version_ok calm then JNI_VERSION_1_6 else JNI_ERR)
  /\ snd (fst after_load)
     = (if attached unloaded && version_ok calm && find_class_ok calm StreamClass
        then resolved_methods calm else no_stream_methods)
  /\ (fst (fst (fst after_load)) = JNI_ERR ->
      snd (fst (fst after_load)) = no_class_refs
      /\ snd (fst after_load) = no_stream_methods
      /\ g_streamClass (snd after_load) = g_streamClass unloaded
      /\ g_signResultClass (snd after_load) = g_signResultClass unloaded
      /\ pending (snd after_load) = pending unloaded
      /\ added unloaded (snd after_load) = [])
  /\ (find_class_ok calm StreamClass = false ->
      streamClassRef (snd (fst (fst after_load))) = streamClassRef no_class_refs
      /\ g_streamClass (snd after_load) = g_streamClass unloaded)
  /\ (find_class_ok calm SignResultClass = false ->
      signResultClassRef (snd (fst (fst after_load))) = signResultClassRef no_class_refs
      /\ g_signResultClass (snd after_load) = g_signResultClass unloaded)
  /\ (classes_agree unloaded no_class_refs ->
      classes_agree (snd after_load) (snd (fst (fst after_load)))).
Proof.
  apply (load_succeeds_without_classes calm no_class_refs (snd (fst (fst after_load)))
           no_stream_methods (snd (fst after_load)) unloaded (snd after_load)
           (fst (fst (fst after_load)))).
  vm_compute. reflexivity.
Defined.

(** ** Host strings: pins and releases *)

Ltac unfold_strings :=
  unfold Java_org_contentauth_c2pa_C2PA_signFileNative,
    Java_org_contentauth_c2pa_Signer_nativeFromInfo,
    Java_org_contentauth_c2pa_C2PA_loadSettingsNative,
    Java_org_contentauth_c2pa_C2PA_readFileNative,
    Java_org_contentauth_c2pa_C2PA_readIngredientFileNative, read_file_with,
    Java_org_contentauth_c2pa_C2PA_version, Java_org_contentauth_c2pa_C2PA_getError,
    Java_org_contentauth_c2pa_Builder_nativeFromJson,
    native_int, native_str, jstring_to_cstring, cstring_to_jstring, release_cstring,
    GetStringUTFChars, NewStringUTF, pinned, released, count_native in *.

(** X17: signer creation from key material, with its three required
    strings present.  It always returns, and every string the runtime
    pinned is released exactly once, in the order of the arguments, on
    every path.  If the three required strings could be pinned, the only
    call into the library is one [c2pa_signer_from_info] on the three
    strings and the pinned timestamp URL ([NULL] when it is null or could
    not be pinned), and its result is handed back as it is: a null signer
    is returned as [0] and nothing is raised for it, so what is pending
    afterwards is what was pending before, or nothing when the timestamp
    URL could not be pinned.  Otherwise the result is [0], the library is
    not called, and an [IllegalArgumentException] "Required signer info
    fields cannot be null" is pending. *)
Theorem signer_from_info_releases_pins (W : world)
    (algorithm certificatePEM privateKeyPEM : string) (tsaURL : option string)
    (s : state) :
  exists r s',
    Java_org_contentauth_c2pa_Signer_nativeFromInfo W (Some algorithm)
      (Some certificatePEM) (Some privateKeyPEM) tsaURL s = Some (r, s')
    /\ released (added s s')
       = pinned W [Some algorithm; Some certificatePEM; Some privateKeyPEM; tsaURL]
    /\ if utf_ok W algorithm && utf_ok W certificatePEM && utf_ok W privateKeyPEM
       then let create := [AStr (Some algorithm); AStr (Some certificatePEM);
                            AStr (Some privateKeyPEM); AStr (pin W tsaURL)] in
            r = ret_int W c2pa_signer_from_info create
            /\ native_calls (added s s') = [ENative c2pa_signer_from_info create]
            /\ pending s' = pending_after_pin W tsaURL (pending s)
       else r = 0 /\ native_calls (added s s') = []
            /\ pending s' = Some signer_info_fields_null.
Proof.
  unfold signer_info_fields_null, pin, pending_after_pin. unfold_strings.
  unfold_bridge.
  destruct (utf_ok W algorithm) eqn:Ha, (utf_ok W certificatePEM) eqn:Hc,
    (utf_ok W privateKeyPEM) eqn:Hk; simpl;
    (destruct tsaURL as [t|]; [destruct (utf_ok W t) eqn:Ht|]); simpl;
    eexists; eexists; (split; [reflexivity|]); norm_added;
    rewrite ?Ha, ?Hc, ?Hk, ?Ht; simpl; auto.
Qed.

Lemma released_app (a b : list event) : released (a ++ b) = released a ++ released b.
Proof. apply omap_app. Qed.

Lemma native_calls_app (a b : list event) :
  native_calls (a ++ b) = native_calls a ++ native_calls b.
Proof. apply List.filter_app. Qed.

Lemma count_native_app (f : native_fn) (a b : list event) :
  count_native f (a ++ b) = (count_native f a + count_native f b)%nat.
Proof. unfold count_native. by rewrite List.filter_app, length_app. Qed.

Lemma describes_quiet (d : list event) :
  forallb is_describe d = true ->
  released d = [] /\ native_calls d = [] /\ forall f, count_native f d = 0%nat.
Proof.
  induction d as [|e d IH]; simpl; [auto|].
  intros H. apply andb_true_iff in H as [He Hd]. destruct (IH Hd) as (? & ? & ?).
  destruct e; try discriminate. simpl.
  repeat split; assumption.
Qed.

Lemma releases_quiet (l : list string) :
  released (EReleaseUTF <$> l) = l /\ native_calls (EReleaseUTF <$> l) = []
  /\ forall f, count_native f (EReleaseUTF <$> l) = 0%nat.
Proof.
  induction l as [|c l (IH1 & IH2 & IH3)]; [auto|].
  rewrite fmap_cons. repeat split; [|assumption|assumption].
  change (c :: released (EReleaseUTF <$> l) = c :: l). by rewrite IH1.
Qed.

Lemma pinned_cons (W : world) (j : option string) (l : list (option string)) :
  pinned W (j :: l) = pinned W [j] ++ pinned W l.
Proof. unfold pinned. simpl. destruct j as [c|]; [destruct (utf_ok W c)|]; reflexivity. Qed.

Lemma jstring_to_cstring_spec (W : world) (j : option string) (s : state) :
  exists s' d,
    jstring_to_cstring W j s = Some (pin W j, s')
    /\ trace s' = trace s ++ d /\ forallb is_describe d = true
    /\ (pending s = None -> pending s' = None)
    /\ (forall c, j = Some c -> utf_ok W c = false -> pending s' = None).
Proof.
  unfold jstring_to_cstring, GetStringUTFChars, check_exception, ThrowNew, log, bind,
    get, modify, ret, pin.
  destruct j as [c|]; [destruct (utf_ok W c) eqn:Hc|]; simpl.
  - exists s, []. rewrite app_nil_r. repeat split; auto. intros; congruence.
  - eexists; eexists. split; [reflexivity|]. simpl. repeat split; auto.
  - exists s, []. rewrite app_nil_r. repeat split; auto. intros; congruence.
Qed.

Lemma release_cstring_spec (W : world) (j : option string) (s : state) :
  exists s',
    release_cstring j (pin W j) s = Some (tt, s')
    /\ trace s' = trace s ++ (EReleaseUTF <$> pinned W [j])
    /\ pending s' = pending s.
Proof.
  unfold release_cstring, log, modify, ret, pin, pinned.
  destruct j as [c|]; simpl; [destruct (utf_ok W c); simpl|].
  - eexists. split; [reflexivity|]. auto.
  - exists s. rewrite app_nil_r. auto.
  - exists s. rewrite app_nil_r. auto.
Qed.

Lemma cstring_to_jstring_spec (W : world) (c : option string) (s : state) :
  exists s' d,
    cstring_to_jstring W c s = Some (host_string W c, s')
    /\ trace s' = trace s ++ d /\ forallb is_describe d = true
    /\ (pending s = None -> pending s' = None).
Proof.
  unfold cstring_to_jstring, NewStringUTF, check_exception, ThrowNew, log, bind,
    get, modify, ret, host_string.
  destruct c as [c|]; [destruct (new_string_ok W c)|]; simpl.
  - exists s, []. rewrite app_nil_r. repeat split; auto.
  - eexists; eexists. split; [reflexivity|]. simpl. repeat split; auto.
  - exists s, []. rewrite app_nil_r. repeat split; auto.
Qed.

Lemma pins_all (W : world) (a b c d e f : string) :
  utf_ok W a && utf_ok W b && utf_ok W c && utf_ok W d && utf_ok W e && utf_ok W f
  = true ->
  pin W (Some a) = Some a /\ pin W (Some b) = Some b /\ pin W (Some c) = Some c
  /\ pin W (Some d) = Some d /\ pin W (Some e) = Some e /\ pin W (Some f) = Some f.
Proof.
  simpl. destruct (utf_ok W a), (utf_ok W b), (utf_ok W c), (utf_ok W d),
    (utf_ok W e), (utf_ok W f); try discriminate. auto 7.
Qed.

Lemma pins_all_or_none (W : world) (a b c d e f : string) :
  bool_decide (pin W (Some a) = None) || bool_decide (pin W (Some b) = None)
  || bool_decide (pin W (Some c) = None) || bool_decide (pin W (Some d) = None)
  || bool_decide (pin W (Some e) = None) || bool_decide (pin W (Some f) = None)
  = negb (utf_ok W a && utf_ok W b && utf_ok W c && utf_ok W d && utf_ok W e
          && utf_ok W f).
Proof.
  simpl. destruct (utf_ok W a), (utf_ok W b), (utf_ok W c), (utf_ok W d),
    (utf_ok W e), (utf_ok W f); reflexivity.
Qed.

(** X18: sign-file, with its six required strings present.  It always
    returns, and every string the runtime pinned is released exactly once,
    in the order of the arguments, on every path.  If the six required
    strings could be pinned, the calls into the library are exactly two:
    [c2pa_sign_file] on the six strings and the two pinned optional ones
    ([NULL] when null or not pinned), then [c2pa_string_free] on the string
    that call returned (also on [NULL]); the result is that string as a host
    string, or null when it is [NULL] or the host string cannot be built;
    and nothing is pending afterwards if nothing was before.  Otherwise the
    result is null, the library is not called and nothing is pending: the
    failure to pin is not reported to the host. *)
Theorem sign_file_releases_pins (W : world)
    (sourcePath destPath manifest algorithm certificatePEM privateKeyPEM : string)
    (tsaURL dataDir : option string) (s : state) :
  exists r s',
    Java_org_contentauth_c2pa_C2PA_signFileNative W (Some sourcePath) (Some destPath)
      (Some manifest) (Some algorithm) (Some certificatePEM) (Some privateKeyPEM)
      tsaURL dataDir s = Some (r, s')
    /\ released (added s s')
       = pinned W [Some sourcePath; Some destPath; Some manifest; Some algorithm;
                   Some certificatePEM; Some privateKeyPEM; tsaURL; dataDir]
    /\ if utf_ok W sourcePath && utf_ok W destPath && utf_ok W manifest
          && utf_ok W algorithm && utf_ok W certificatePEM && utf_ok W privateKeyPEM
       then let args := [AStr (Some sourcePath); AStr (Some destPath);
                          AStr (Some manifest); AStr (Some algorithm);
                          AStr (Some certificatePEM); AStr (Some privateKeyPEM);
                          AStr (pin W tsaURL); AStr (pin W dataDir)] in
            r = host_string W (ret_str W c2pa_sign_file args)
            /\ native_calls (added s s')
               = [ENative c2pa_sign_file args;
                  ENative c2pa_string_free [AStr (ret_str W c2pa_sign_file args)]]
            /\ (pending s = None -> pending s' = None)
       else r = None /\ native_calls (added s s') = [] /\ pending s' = None.
Proof.
  destruct (jstring_to_cstring_spec W (Some sourcePath) s)
    as (s1 & d1 & E1 & T1 & D1 & N1 & F1).
  destruct (jstring_to_cstring_spec W (Some destPath) s1)
    as (s2 & d2 & E2 & T2 & D2 & N2 & F2).
  destruct (jstring_to_cstring_spec W (Some manifest) s2)
    as (s3 & d3 & E3 & T3 & D3 & N3 & F3).
  destruct (jstring_to_cstring_spec W (Some algorithm) s3)
    as (s4 & d4 & E4 & T4 & D4 & N4 & F4).
  destruct (jstring_to_cstring_spec W (Some certificatePEM) s4)
    as (s5 & d5 & E5 & T5 & D5 & N5 & F5).
  destruct (jstring_to_cstring_spec W (Some privateKeyPEM) s5)
    as (s6 & d6 & E6 & T6 & D6 & N6 & F6).
  destruct (jstring_to_cstring_spec W tsaURL s6) as (s7 & d7 & E7 & T7 & D7 & N7 & F7).
  destruct (jstring_to_cstring_spec W dataDir s7) as (s8 & d8 & E8 & T8 & D8 & N8 & F8).
  assert (Hpend : utf_ok W sourcePath && utf_ok W destPath && utf_ok W manifest
                  && utf_ok W algorithm && utf_ok W certificatePEM
                  && utf_ok W privateKeyPEM = false -> pending s8 = None).
  { intros Hu. apply N8, N7.
    destruct (utf_ok W privateKeyPEM) eqn:H6; [apply N6|by apply (F6 privateKeyPEM)].
    destruct (utf_ok W certificatePEM) eqn:H5; [apply N5|by apply (F5 certificatePEM)].
    destruct (utf_ok W algorithm) eqn:H4; [apply N4|by apply (F4 algorithm)].
    destruct (utf_ok W manifest) eqn:H3; [apply N3|by apply (F3 manifest)].
    destruct (utf_ok W destPath) eqn:H2; [apply N2|by apply (F2 destPath)].
    destruct (utf_ok W sourcePath) eqn:H1; [discriminate|by apply (F1 sourcePath)]. }
  pose proof (pins_all_or_none W sourcePath destPath manifest algorithm
                certificatePEM privateKeyPEM) as Hcond.
  set (args := [AStr (pin W (Some sourcePath)); AStr (pin W (Some destPath));
                AStr (pin W (Some manifest)); AStr (pin W (Some algorithm));
                AStr (pin W (Some certificatePEM)); AStr (pin W (Some privateKeyPEM));
                AStr (pin W tsaURL); AStr (pin W dataDir)]).
  assert (Hstart : exists s9 mid,
            trace s9 = trace s8 ++ mid /\ released mid = []
            /\ (pending s8 = None -> pending s9 = None)
            /\ (if utf_ok W sourcePath && utf_ok W destPath && utf_ok W manifest
                   && utf_ok W algorithm && utf_ok W certificatePEM
                   && utf_ok W privateKeyPEM
                then native_calls mid
                     = [ENative c2pa_sign_file args;
                        ENative c2pa_string_free [AStr (ret_str W c2pa_sign_file args)]]
                else native_calls mid = [])
            /\ (if utf_ok W sourcePath && utf_ok W destPath && utf_ok W manifest
                    && utf_ok W algorithm && utf_ok W certificatePEM
                    && utf_ok W privateKeyPEM
                 then forall rel : M unit,
                   (result <- native_str W c2pa_sign_file args ;;
                    jresult <- cstring_to_jstring W result ;;
                    call_native c2pa_string_free [AStr result] ;;
                    rel ;; ret jresult) s8
                   = (rel ;; ret (host_string W (ret_str W c2pa_sign_file args))) s9
                 else s9 = s8)).
  { destruct (utf_ok W sourcePath && utf_ok W destPath && utf_ok W manifest
              && utf_ok W algorithm && utf_ok W certificatePEM
              && utf_ok W privateKeyPEM).
    - unfold native_str, call_native, log, bind, modify, ret. cbv beta iota.
      match goal with
      | |- context [cstring_to_jstring W ?c ?st] =>
          destruct (cstring_to_jstring_spec W c st) as (s9 & d9 & E9 & T9 & D9 & N9)
      end.
      eexists; eexists. split; [|split; [|split; [|split; [|intros rel;
        rewrite E9; reflexivity]]]]; simpl.
      + rewrite T9. simpl. rewrite <- !app_assoc. reflexivity.
      + rewrite !released_app, (proj1 (describes_quiet d9 D9)). reflexivity.
      + exact N9.
      + rewrite !native_calls_app, (proj1 (proj2 (describes_quiet d9 D9))).
        reflexivity.
    - exists s8, []. rewrite app_nil_r. auto. }
  destruct Hstart as (s9 & mid & T9 & Rmid & Nmid & Cmid & Hk).
  destruct (release_cstring_spec W (Some sourcePath) s9) as (t1 & R1 & U1 & P1).
  destruct (release_cstring_spec W (Some destPath) t1) as (t2 & R2 & U2 & P2).
  destruct (release_cstring_spec W (Some manifest) t2) as (t3 & R3 & U3 & P3).
  destruct (release_cstring_spec W (Some algorithm) t3) as (t4 & R4 & U4 & P4).
  destruct (release_cstring_spec W (Some certificatePEM) t4) as (t5 & R5 & U5 & P5).
  destruct (release_cstring_spec W (Some privateKeyPEM) t5) as (t6 & R6 & U6 & P6).
  destruct (release_cstring_spec W tsaURL t6) as (t7 & R7 & U7 & P7).
  destruct (release_cstring_spec W dataDir t7) as (t8 & R8 & U8 & P8).
  assert (Htrace : added s t8
            = d1 ++ d2 ++ d3 ++ d4 ++ d5 ++ d6 ++ d7 ++ d8 ++ mid
              ++ (EReleaseUTF <$> pinned W [Some sourcePath])
              ++ (EReleaseUTF <$> pinned W [Some destPath])
              ++ (EReleaseUTF <$> pinned W [Some manifest])
              ++ (EReleaseUTF <$> pinned W [Some algorithm])
              ++ (EReleaseUTF <$> pinned W [Some certificatePEM])
              ++ (EReleaseUTF <$> pinned W [Some privateKeyPEM])
              ++ (EReleaseUTF <$> pinned W [tsaURL])
              ++ (EReleaseUTF <$> pinned W [dataDir])).
  { unfold added. rewrite U8, U7, U6, U5, U4, U3, U2, U1, T9, T8, T7, T6, T5, T4, T3,
      T2, T1. rewrite <- !app_assoc. apply added_app. }
  assert (Hrel : released (added s t8)
            = pinned W [Some sourcePath; Some destPath; Some manifest; Some algorithm;
                        Some certificatePEM; Some privateKeyPEM; tsaURL; dataDir]).
  { rewrite Htrace, !released_app, Rmid.
    rewrite (proj1 (describes_quiet d1 D1)), (proj1 (describes_quiet d2 D2)),
      (proj1 (describes_quiet d3 D3)), (proj1 (describes_quiet d4 D4)),
      (proj1 (describes_quiet d5 D5)), (proj1 (describes_quiet d6 D6)),
      (proj1 (describes_quiet d7 D7)), (proj1 (describes_quiet d8 D8)).
    rewrite !(proj1 (releases_quiet _)). cbn [app].
    symmetry. do 7 (rewrite pinned_cons; f_equal). }
  assert (Hnat : native_calls (added s t8) = native_calls mid).
  { rewrite Htrace, !native_calls_app.
    rewrite (proj1 (proj2 (describes_quiet d1 D1))),
      (proj1 (proj2 (describes_quiet d2 D2))), (proj1 (proj2 (describes_quiet d3 D3))),
      (proj1 (proj2 (describes_quiet d4 D4))), (proj1 (proj2 (describes_quiet d5 D5))),
      (proj1 (proj2 (describes_quiet d6 D6))), (proj1 (proj2 (describes_quiet d7 D7))),
      (proj1 (proj2 (describes_quiet d8 D8))).
    rewrite !(proj1 (proj2 (releases_quiet _))). simpl. by rewrite app_nil_r. }
  unfold Java_org_contentauth_c2pa_C2PA_signFileNative.
  rewrite !bool_decide_eq_false_2 by discriminate. cbn [orb].
  unfold bind at 1. rewrite E1. unfold bind at 1. rewrite E2.
  unfold bind at 1. rewrite E3. unfold bind at 1. rewrite E4.
  unfold bind at 1. rewrite E5. unfold bind at 1. rewrite E6.
  unfold bind at 1. rewrite E7. unfold bind at 1. rewrite E8.
  cbv zeta. rewrite Hcond. fold args.
  destruct (utf_ok W sourcePath && utf_ok W destPath && utf_ok W manifest
            && utf_ok W algorithm && utf_ok W certificatePEM
            && utf_ok W privateKeyPEM) eqn:Hall; cbn [negb].
  - rewrite Hk.
    destruct (pins_all W sourcePath destPath manifest algorithm certificatePEM
                privateKeyPEM Hall) as (Q1 & Q2 & Q3 & Q4 & Q5 & Q6).
    assert (Hargs : args = [AStr (Some sourcePath); AStr (Some destPath);
                            AStr (Some manifest); AStr (Some algorithm);
                            AStr (Some certificatePEM); AStr (Some privateKeyPEM);
                            AStr (pin W tsaURL); AStr (pin W dataDir)]).
    { unfold args. rewrite Q1, Q2, Q3, Q4, Q5, Q6. reflexivity. }
    rewrite <- Hargs.
    exists (host_string W (ret_str W c2pa_sign_file args)), t8.
    split; [|split; [exact Hrel|split; [reflexivity|split; [by rewrite Hnat|]]]].
    2: { intros Hp. rewrite P8, P7, P6, P5, P4, P3, P2, P1.
         apply Nmid, N8, N7, N6, N5, N4, N3, N2, N1, Hp. }
    unfold bind. rewrite R1, R2, R3, R4, R5, R6, R7, R8. reflexivity.
  - subst s9. exists None, t8.
    split; [|split; [exact Hrel|split; [reflexivity|split; [by rewrite Hnat|]]]].
    2: { rewrite P8, P7, P6, P5, P4, P3, P2, P1. by apply Hpend. }
    unfold bind. rewrite R1, R2, R3, R4, R5, R6, R7, R8. reflexivity.
Qed.

Ltac split_pin j :=
  let x := fresh "str" in
  destruct j as [x|];
  [match goal with |- context [utf_ok ?W x] => destruct (utf_ok W x) eqn:? end|].

Ltac split_result :=
  try match goal with
      | |- context [new_string_ok ?W _] =>
          match goal with
          | |- context [ret_str W ?f ?a] =>
              let r := fresh "r" in
              destruct (ret_str W f a) as [r|] eqn:?;
              [destruct (new_string_ok W r) eqn:?|]
          end
      end.

(** X19: the five global entry points (version, last error, load
    settings, read file, read ingredient file) check nothing and raise
    nothing.  Each always returns; the library function is called exactly
    once, on the pinned strings ([NULL] for a null string or one that could
    not be pinned); a string result is handed to [c2pa_string_free] right
    after, also when it is [NULL]; every pinned string is released; the
    result is the library's status for load settings and, for the four
    others, the library's string as a host string: null exactly when the
    library returned [NULL] or the runtime cannot build the host string;
    and nothing is pending afterwards if nothing was before. *)
Theorem global_calls_pass_through (W : world) (c : global_call) (s : state) :
  exists v s',
    run_global W c s = Some (v, s')
    /\ native_calls (added s s') = global_natives W c
    /\ released (added s s') = pinned W (global_strings c)
    /\ v = global_result W c
    /\ (pending s = None -> pending s' = None).
Proof.
  destruct c as [| |a b|a b|a b]; unfold run_global, global_natives, global_result,
    global_strings, global_native, pinned, pin, host_string;
    unfold Java_org_contentauth_c2pa_C2PA_loadSettingsNative,
      Java_org_contentauth_c2pa_C2PA_readFileNative,
      Java_org_contentauth_c2pa_C2PA_readIngredientFileNative, read_file_with,
      Java_org_contentauth_c2pa_C2PA_version, Java_org_contentauth_c2pa_C2PA_getError,
      native_int, native_str, jstring_to_cstring, cstring_to_jstring, release_cstring,
      GetStringUTFChars, NewStringUTF, call_native, check_exception, ThrowNew, log,
      bind, ret, get, modify.
  all: try (split_pin a; split_pin b).
  all: simpl; split_result; simpl.
  all: eexists; eexists; (split; [reflexivity|]); norm_added.
  all: repeat match goal with H : _ = _ |- _ => rewrite H end; simpl.
  all: auto 6.
Qed.

(** X20: builder creation from JSON.  A null manifest raises an
    [IllegalArgumentException] "Manifest JSON cannot be null"; a manifest
    that cannot be pinned returns [0] with nothing pending; in both cases
    the library is not called.  Otherwise [c2pa_builder_from_json] is
    called once, the string is released, and the builder is returned; when
    the library returned null the result is [0] and a [RuntimeException]
    with the library's last error (or "Failed to create builder from JSON")
    is pending. *)
Theorem builder_from_json_outcome (W : world) (manifestJson : option string)
    (s : state) :
  exists r s',
    Java_org_contentauth_c2pa_Builder_nativeFromJson W manifestJson s = Some (r, s')
    /\ match pin W manifestJson with
       | None =>
           r = 0 /\ native_calls (added s s') = []
           /\ pending s' = match manifestJson with
                           | None => Some manifest_json_null
                           | Some _ => None
                           end
       | Some j =>
           let builder := ret_int W c2pa_builder_from_json [AStr (Some j)] in
           r = builder /\ released (added s s') = [j]
           /\ count_native c2pa_builder_from_json (added s s') = 1%nat
           /\ pending s' =
                if builder =? 0
                then Some (native_failure W "Failed to create builder from JSON")
                else pending s
       end.
Proof.
  unfold Java_org_contentauth_c2pa_Builder_nativeFromJson, native_failure,
    last_error_or, manifest_json_null, pin, released, count_native.
  unfold native_int, jstring_to_cstring, release_cstring, GetStringUTFChars.
  unfold_bridge.
  destruct manifestJson as [j|]; simpl;
    [destruct (utf_ok W j) eqn:Hj; simpl;
     [destruct (ret_int W c2pa_builder_from_json [AStr (Some j)] =? 0) eqn:Hb; simpl;
      [destruct (ret_str W c2pa_error []) as [e|]; simpl;
       [destruct (0 <? Z.of_nat (String.length e)); simpl|]|]|]|].
  all: eexists; eexists; (split; [reflexivity|]); norm_added; try rewrite Hb; auto.
  all: apply Z.eqb_eq in Hb; auto.
Qed.

(** X21: reader creation from manifest data and a stream rejects an empty
    manifest array before it calls the library: with a format, a non-zero
    stream and nothing pending at entry it returns [0], releases the format
    string if it was pinned, and (when the format could be pinned) leaves
    an [IllegalArgumentException] "Manifest data cannot be empty"
    pending. *)
Theorem empty_manifest_rejected (W : world) (format : string) (streamPtr : Z)
    (s : state) :
  streamPtr <> 0 -> pending s = None ->
  exists s',
    Java_org_contentauth_c2pa_Reader_fromManifestDataAndStreamNative W (Some format)
      streamPtr (Some []) s = Some (0, s')
    /\ native_calls (added s s') = []
    /\ released (added s s') = pinned W [Some format]
    /\ pending s' = if utf_ok W format then Some manifest_data_empty else None.
Proof.
  intros Hp Hpend. apply Z.eqb_neq in Hp.
  unfold Java_org_contentauth_c2pa_Reader_fromManifestDataAndStreamNative,
    manifest_data_empty, pinned, released.
  unfold jstring_to_cstring, release_cstring, GetStringUTFChars.
  unfold_bridge. rewrite Hp. simpl.
  destruct (utf_ok W format) eqn:Hf; simpl; rewrite ?Hpend; simpl.
  all: eexists; (split; [reflexivity|]); norm_added; auto.
Qed.

Lemma empty_manifest_rejected_witness :
  exists s',
    Java_org_contentauth_c2pa_Reader_fromManifestDataAndStreamNative calm
      (Some "image/jpeg") 7 (Some []) loaded = Some (0, s')
    /\ native_calls (added loaded s') = []
    /\ released (added loaded s') = pinned calm [Some "image/jpeg"]
    /\ pending s' = if utf_ok calm "image/jpeg" then Some manifest_data_empty else None.
Proof.
  apply (empty_manifest_rejected calm "image/jpeg" 7 loaded); [lia|reflexivity].
Defined.

(** X22: the three reader queries that return a string (JSON, detailed
    JSON, remote URL), on a non-zero reader whose query the library
    answers: the entry point makes the query, hands the answer to
    [c2pa_string_free] exactly once, and returns the answer; when the host
    string cannot be built it returns null with nothing pending, and the
    native string is freed all the same. *)
Theorem reader_strings_returned_and_freed (W : world) (c : gateway_call)
    (f : native_fn) (p : Z) (j : string) (s : state) :
  reader_query c = Some (ENative f [AInt p]) -> p <> 0 ->
  ret_str W f [AInt p] = Some j ->
  exists s',
    run_gateway W c s
    = Some (JString (if new_string_ok W j then Some j else None), s')
    /\ native_calls (added s s')
       = [ENative f [AInt p]; ENative c2pa_string_free [AStr (Some j)]]
    /\ pending s' = if new_string_ok W j then pending s else None.
Proof.
  intros Hq Hp Hj. apply Z.eqb_neq in Hp.
  destruct c; simpl in Hq; simplify_eq; unfold_gateway; unfold_bridge;
    rewrite Hp; simpl; rewrite Hj; simpl;
    destruct (new_string_ok W j); simpl;
    (eexists; split; [reflexivity|]); norm_added; auto.
Qed.


Lemma reader_strings_returned_and_freed_witness :
  exists s',
    run_gateway answering_reader (ReaderToJson 5) loaded
    = Some (JString (if new_string_ok answering_reader "{}" then Some "{}" else None), s')
    /\ native_calls (added loaded s')
       = [ENative c2pa_reader_json [AInt 5]; ENative c2pa_string_free [AStr (Some "{}")]]
    /\ pending s' = if new_string_ok answering_reader "{}" then pending loaded else None.
Proof.
  apply (reader_strings_returned_and_freed answering_reader (ReaderToJson 5)
           c2pa_reader_json 5 "{}" loaded); [reflexivity|lia|reflexivity].
Defined.


(** ** Buffers of the library *)

(** X24: the three Builder operations that receive a manifest buffer from
    the library (sign, data hashed placeholder, sign data hashed
    embeddable): whenever the operation returns after a native call that
    produced a positive size and a buffer, that buffer has been handed to
    [c2pa_manifest_bytes_free] exactly once, whatever the host runtime did
    with the array allocation, the copy and the result object. *)
Theorem manifest_bytes_freed_once (W : world) (c : gateway_call) (s : state)
    (v : jvalue) (s' : state) (f : native_fn) (args : list arg) (b : list byte) :
  returns_manifest c = Some f ->
  run_gateway W c s = Some (v, s') ->
  ENative f args ∈ added s s' ->
  0 < ret_int W f args -> ret_buf W f args = Some b ->
  count_native c2pa_manifest_bytes_free (added s s') = 1%nat
  /\ ENative c2pa_manifest_bytes_free [ABytes b] ∈ added s s'.
Proof.
  intros Hm Hrun Hin Hsize Hbuf.
  destruct c; simpl in Hm; simplify_eq; unfold_gateway; unfold_bridge; crunch.
  all: in_trace Hin; to_prop; try lia; try (case_bool_decide; congruence).
  all: try match goal with
           | H : negb (bool_decide (_ = None)) && (0 <? ?z) = false |- _ =>
               exfalso; rewrite Hbuf in H;
               rewrite bool_decide_eq_false_2 in H by discriminate;
               simpl in H; apply Z.ltb_ge in H; lia
           end.
  all: try match goal with
           | H : (?z <? 0) || bool_decide (_ = None) = true |- _ =>
               exfalso; rewrite Hbuf in H;
               rewrite bool_decide_eq_false_2 in H by discriminate;
               rewrite orb_false_r in H; apply Z.ltb_lt in H; lia
           end.
  all: unfold count_native; norm_added.
  all: rewrite ?Hbuf; simpl.
  all: split; [reflexivity|set_solver].
Qed.

Lemma manifest_bytes_freed_once_witness :
  count_native c2pa_manifest_bytes_free (added loaded (snd after_sign)) = 1%nat
  /\ ENative c2pa_manifest_bytes_free [ABytes [Byte.x0a; Byte.x0b; Byte.x0c]]
       ∈ added loaded (snd after_sign).
Proof.
  apply (manifest_bytes_freed_once signing_library sign_call loaded (fst after_sign)
           (snd after_sign) c2pa_builder_sign
           [AInt 1; AStr (Some "image/jpeg"); AInt 2; AInt 3; AInt 4]).
  - reflexivity.
  - vm_compute. reflexivity.
  - vm_compute. set_solver.
  - reflexivity.
  - reflexivity.
Defined.

(** X25: whenever Ed25519 signing returns after the library produced a
    signature, the signature has been handed to [c2pa_signature_free]
    exactly once and the private key string has been released exactly
    once, whether or not the host array could be allocated and filled. *)
Theorem ed25519_frees_signature (W : world) (data : option (list byte))
    (privateKey : option string) (s : state) (r : option (list byte)) (s' : state)
    (args : list arg) (sig : list byte) :
  Java_org_contentauth_c2pa_C2PA_ed25519SignNative W data privateKey s = Some (r, s') ->
  ENative c2pa_ed25519_sign args ∈ added s s' ->
  ret_buf W c2pa_ed25519_sign args = Some sig ->
  count_native c2pa_signature_free (added s s') = 1%nat
  /\ ENative c2pa_signature_free [ABytes sig] ∈ added s s'
  /\ exists key, privateKey = Some key /\ released (added s s') = [key].
Proof.
  intros Hrun Hin Hsig. unfold_ed25519. unfold_bridge. crunch.
  all: in_trace Hin.
  all: unfold count_native, released; norm_added.
  all: split; [reflexivity|split; [set_solver|eauto]].
Qed.

Lemma ed25519_frees_signature_witness :
  count_native c2pa_signature_free (added loaded (snd after_ed25519)) = 1%nat
  /\ ENative c2pa_signature_free [ABytes (replicate 64 Byte.x2a)]
       ∈ added loaded (snd after_ed25519)
  /\ exists key, Some "key" = Some key
       /\ released (added loaded (snd after_ed25519)) = [key].
Proof.
  apply (ed25519_frees_signature ed25519_library (Some [Byte.x01]) (Some "key") loaded
           (fst after_ed25519) (snd after_ed25519)
           [ABytes [Byte.x01]; AInt 1; AStr (Some "key")]).
  - vm_compute. reflexivity.
  - vm_compute. set_solver.
  - reflexivity.
Defined.

(** ** The unload hook *)

(** X26: the unload hook on a host thread, started with the class
    references [refs] that the flags of the state describe.  It drains the
    registry node after node, then deletes the global references of the two
    cached classes that are set, the [Stream] class first, and these are all
    the events of the hook; the runtime handle and both class references
    are cleared and the registry is empty afterwards.  Every stream callback
    (read, seek, write, flush) that arrives later returns [-1] without
    touching the host or the state. *)
Theorem unload_disables_stream_callbacks (W : world) (refs : class_refs)
    (c : callback_call) (s : state) :
  attached s = true -> version_ok W = true -> registry_live s ->
  classes_agree s refs -> on_stream c = true ->
  exists s',
    JNI_OnUnload W refs s = Some (MkClassRefs 0 0, s')
    /\ g_jvm s' = false /\ g_signerContexts s' = []
    /\ added s s'
       = flat_map (drain_events (heap s)) (g_signerContexts s) ++ class_deletions refs
    /\ g_signResultClass s' = false /\ g_streamClass s' = false
    /\ run_callback W c s' = Some (-1, s').
Proof.
  intros Hatt Hver Hlive Hagree Hc.
  destruct (unload_then_callback W refs s Hatt Hver Hlive)
    as (s' & Hrun & Hreg & Hjvm & Hadd & Hcls & _).
  destruct (Hcls Hagree) as [Hsc Hsr].
  exists s'. split; [exact Hrun|]. split; [exact Hjvm|]. split; [exact Hreg|].
  split; [exact Hadd|]. split; [exact Hsr|]. split; [exact Hsc|].
  destruct c; try discriminate; simpl;
    unfold java_read_callback, java_seek_callback, java_write_callback,
      java_flush_callback, get_jni_env, bind, get, ret;
    rewrite Hjvm; reflexivity.
Qed.

Lemma unload_disables_stream_callbacks_witness :
  exists s',
    JNI_OnUnload calm (MkClassRefs 600 601) with_signer = Some (MkClassRefs 0 0, s')
    /\ g_jvm s' = false /\ g_signerContexts s' = []
    /\ added with_signer s'
       = flat_map (drain_events (heap with_signer)) (g_signerContexts with_signer)
         ++ class_deletions (MkClassRefs 600 601)
    /\ g_signResultClass s' = false /\ g_streamClass s' = false
    /\ run_callback calm (CbFlush a_stream) s' = Some (-1, s').
Proof.
  apply (unload_disables_stream_callbacks calm (MkClassRefs 600 601)
           (CbFlush a_stream) with_signer).
  - reflexivity.
  - reflexivity.
  - split.
    + simpl. apply NoDup_singleton.
    + repeat constructor; simpl; [lia|]. rewrite lookup_singleton_eq. eauto.
  - split; reflexivity.
  - reflexivity.
Defined.
